(** * Frais réels: the deduction engine and its browser front end

    The repository is a FastAPI application with a JavaScript front end.
    The front end ([app/static/app.js], [app/static/admin.js] and their
    later revisions) is embedded here function by function.  JavaScript
    numbers are IEEE-754 binary64 values, modelled by Rocq's primitive
    floats; JSON data is a tree of [value]s whose objects are association
    lists in property order; arrays that the code shares or sorts in place
    live in an explicit store.

    The Python computation engine is not part of the sources at hand: the
    definitions of module [Core] are modelled from the specification and
    are marked as such. *)

From Stdlib Require Import ZArith QArith Qround Qabs Floats List String Ascii Bool Lia.
From Stdlib Require Import Permutation Sorted.
From Stdlib Require DecimalString Uint63.
Import ListNotations.
Local Open Scope list_scope.
Local Open Scope string_scope.

(** ** Exceptions and results *)

(** [throw new Error(msg)] carries its message; a [TypeError] is raised by
    the engine itself (reading a property of [undefined] or [null], calling
    something that is not a function). *)
Inductive exn : Type :=
| TypeError
| Error (message : string).

Inductive result (A : Type) : Type :=
| Ok (a : A)
| Throw (e : exn).
Arguments Ok {A} a.
Arguments Throw {A} e.

Definition bind {A B : Type} (r : result A) (k : A -> result B) : result B :=
  match r with
  | Ok a => k a
  | Throw e => Throw e
  end.

Notation "x <- e ;; k" := (bind e (fun x => k))
  (at level 61, e at next level, right associativity).

Fixpoint mapM {A B : Type} (f : A -> result B) (l : list A) : result (list B) :=
  match l with
  | [] => Ok []
  | x :: r => y <- f x ;; ys <- mapM f r ;; Ok (y :: ys)
  end.

Fixpoint filterM {A : Type} (f : A -> result bool) (l : list A) : result (list A) :=
  match l with
  | [] => Ok []
  | x :: r =>
      keep <- f x ;;
      ys <- filterM f r ;;
      Ok (if keep then x :: ys else ys)
  end.

(** ** JavaScript values *)

#[warnings="-register-all"]
Inductive value : Type :=
| VUndefined
| VNull
| VBool (b : bool)
| VNum (n : float)
| VStr (s : string)
| VArr (elems : list value)
| VObj (props : list (string * value)).

Definition object : Type := list (string * value).

Fixpoint lookup (k : string) (o : object) : option value :=
  match o with
  | [] => None
  | (k', v) :: r => if String.eqb k k' then Some v else lookup k r
  end.

(** [o[k]] for an object: the own property, [undefined] when absent.  The
    built-in prototype chain is not modelled; none of the names the code
    reads from its JSON data is defined on [Object.prototype]. *)
Definition get (o : object) (k : string) : value :=
  match lookup k o with
  | Some v => v
  | None => VUndefined
  end.

(** [v.k] for an arbitrary value: reading a property of [undefined] or
    [null] throws; primitives and arrays own none of the data names. *)
Definition get_prop (v : value) (k : string) : result value :=
  match v with
  | VUndefined | VNull => Throw TypeError
  | VObj o => Ok (get o k)
  | _ => Ok VUndefined
  end.

(** [{...o, k: v}]: the spread copy with one more binding, which shadows
    an earlier one of the same name. *)
Definition set (k : string) (v : value) (o : object) : object := (k, v) :: o.

(** [v.map], [v.forEach], [v.length] are only defined on arrays. *)
Definition as_array (v : value) : result (list value) :=
  match v with
  | VArr l => Ok l
  | _ => Throw TypeError
  end.

(** The receiver of a string method such as [toLowerCase]. *)
Definition as_string (v : value) : result string :=
  match v with
  | VStr s => Ok s
  | _ => Throw TypeError
  end.

(** The receiver of a number method such as [toFixed]. *)
Definition as_number (v : value) : result float :=
  match v with
  | VNum n => Ok n
  | _ => Throw TypeError
  end.

Definition dquote : string := String "034"%char EmptyString.
Definition quoted (s : string) : string := dquote ++ s ++ dquote.

(** [l.join(sep)] on strings. *)
Fixpoint join_strings (sep : string) (l : list string) : string :=
  match l with
  | [] => EmptyString
  | [s] => s
  | s :: r => s ++ sep ++ join_strings sep r
  end.

Fixpoint prefix_of (p s : string) : bool :=
  match p, s with
  | EmptyString, _ => true
  | String a p', String b s' => Ascii.eqb a b && prefix_of p' s'
  | String _ _, EmptyString => false
  end.

(** [s.includes(q)]. *)
Fixpoint includes (s q : string) : bool :=
  prefix_of q s ||
  match s with
  | EmptyString => false
  | String _ s' => includes s' q
  end.

(** ** The runtime's library functions

    Locale-dependent formatting, case mapping, collation and the numeric
    parsers belong to the browser, not to the repository.  The embedding is
    parametric in them; [reference_runtime] below is an ASCII instance used
    to evaluate the code on concrete inputs. *)
Class Runtime : Type := {
  (** [new Intl.NumberFormat("fr-FR", {style: "currency", currency: "EUR",
      maximumFractionDigits: 2}).format] *)
  Intl_format_currency : float -> string;
  (** [new Intl.NumberFormat("fr-FR", {maximumFractionDigits: d}).format] *)
  Intl_format_decimal : nat -> float -> string;
  (** [String(n)] and [`${n}`] on a number *)
  Number_toString : float -> string;
  (** [n.toFixed(d)] *)
  Number_toFixed : float -> nat -> string;
  (** [Number.parseInt(s, 10)] *)
  Number_parseInt : string -> float;
  (** [Number.parseFloat(s)] *)
  Number_parseFloat : string -> float;
  (** [s.trim()] *)
  String_trim : string -> string;
  (** [s.length], in UTF-16 code units *)
  String_length : string -> nat;
  (** [s.toLowerCase()] *)
  String_toLowerCase : string -> string;
  (** [s.localeCompare(t)] *)
  String_localeCompare : string -> string -> float;
  (** the numeric value of a string operand of [<] or [>] *)
  StringToNumber : string -> float
}.

(** [Number.isFinite(v)]: [v] is a number, and neither [NaN] nor infinite. *)
Definition Number_isFinite (v : value) : bool :=
  match v with
  | VNum n => negb (PrimFloat.is_nan n || PrimFloat.is_infinity n)
  | _ => false
  end.

(** The sign bit of a float. *)
Definition is_negative (x : float) : bool :=
  match Prim2SF x with
  | S754_zero s | S754_infinity s | S754_finite s _ _ => s
  | S754_nan => false
  end.

(** The rational that a finite float stands for ([0] for the others). *)
Definition Q_of_float (x : float) : Q :=
  match Prim2SF x with
  | S754_finite s m e =>
      let n := if s then Z.neg m else Z.pos m in
      if (0 <=? e)%Z then inject_Z (n * 2 ^ e)
      else Qmake n (Z.to_pos (2 ^ (- e)))
  | _ => 0%Q
  end.

Section Conversions.
Context {RT : Runtime}.

(** [String(v)], which is also what a template literal applies. *)
Fixpoint ToString (v : value) : string :=
  match v with
  | VUndefined => "undefined"
  | VNull => "null"
  | VBool true => "true"
  | VBool false => "false"
  | VNum n => Number_toString n
  | VStr s => s
  | VArr l =>
      (fix join (l : list value) : string :=
         match l with
         | [] => EmptyString
         | x :: r =>
             let sx := match x with
                       | VUndefined | VNull => EmptyString
                       | _ => ToString x
                       end in
             match r with
             | [] => sx
             | _ :: _ => sx ++ "," ++ join r
             end
         end) l
  | VObj _ => "[object Object]"
  end.

(** An element of [l.join(sep)]: [undefined] and [null] print as the
    empty string. *)
Definition element_string (v : value) : string :=
  match v with
  | VUndefined | VNull => EmptyString
  | _ => ToString v
  end.

(** [l.join(sep)] on an array of values. *)
Definition Array_join (sep : string) (l : list value) : string :=
  join_strings sep (map element_string l).

(** [ToPrimitive]: arrays and plain objects become their string. *)
Definition ToPrimitive (v : value) : value :=
  match v with
  | VArr _ | VObj _ => VStr (ToString v)
  | _ => v
  end.

Definition ToNumber (v : value) : float :=
  match ToPrimitive v with
  | VUndefined => PrimFloat.nan
  | VNull => 0%float
  | VBool true => 1%float
  | VBool false => 0%float
  | VNum n => n
  | VStr s => StringToNumber s
  | _ => PrimFloat.nan
  end.

(** [!v] is [negb (ToBoolean v)]. *)
Definition ToBoolean (v : value) : bool :=
  match v with
  | VUndefined | VNull => false
  | VBool b => b
  | VNum n => negb (PrimFloat.is_nan n || PrimFloat.eqb n 0%float)
  | VStr s => negb (String.eqb s EmptyString)
  | VArr _ | VObj _ => true
  end.

(** [a ?? b] *)
Definition nullish (a b : value) : value :=
  match a with
  | VUndefined | VNull => b
  | _ => a
  end.

(** [a === b].  Two arrays or objects are equal only when they are the
    same reference; the values of distinct JSON properties never are. *)
Definition strict_equal (a b : value) : bool :=
  match a, b with
  | VUndefined, VUndefined => true
  | VNull, VNull => true
  | VBool x, VBool y => Bool.eqb x y
  | VNum x, VNum y => PrimFloat.eqb x y
  | VStr x, VStr y => String.eqb x y
  | _, _ => false
  end.

(** [a < b]: two strings compare unit by unit (here byte by byte, which is
    the same order on text of the Basic Multilingual Plane), anything else
    numerically, and a comparison with [NaN] is false. *)
Definition less_than (a b : value) : bool :=
  match ToPrimitive a, ToPrimitive b with
  | VStr x, VStr y => String.ltb x y
  | pa, pb => PrimFloat.ltb (ToNumber pa) (ToNumber pb)
  end.

Definition greater_than (a b : value) : bool := less_than b a.

(** [a + b]: concatenation as soon as one operand is a string, an array
    or an object; numeric addition otherwise. *)
Definition add (a b : value) : value :=
  match ToPrimitive a, ToPrimitive b with
  | VStr x, pb => VStr (x ++ ToString pb)
  | pa, VStr y => VStr (ToString pa ++ y)
  | pa, pb => VNum (ToNumber pa + ToNumber pb)%float
  end.

End Conversions.

(** ** Arrays that are shared or updated in place

    [sortPeople] copies its argument and sorts the copy in place, and
    [filterPeople] may hand back the very array it was given.  Such arrays
    are held in a store and passed by location. *)

Definition loc : Type := nat.
Definition store : Type := list (list value).

Definition read (h : store) (l : loc) : option (list value) := nth_error h l.

Definition alloc (h : store) (a : list value) : loc * store :=
  (List.length h, (h ++ [a])%list).

Fixpoint write (h : store) (l : loc) (a : list value) : store :=
  match h, l with
  | [], _ => []
  | _ :: r, O => a :: r
  | b :: r, S l' => b :: write r l' a
  end.

(** ** [Array.prototype.sort]

    The comparator may throw, which aborts the sort.  [undefined] elements
    go last without the comparator being asked; a result that is not
    positive (zero, negative or [NaN]) keeps the left element first.  The
    algorithm is a stable insertion sort: the standard requires stability,
    which fixes the result whenever the comparator is consistent. *)

Definition SortCompare (comparefn : value -> value -> result float)
    (x y : value) : result float :=
  match x, y with
  | VUndefined, VUndefined => Ok 0%float
  | VUndefined, _ => Ok 1%float
  | _, VUndefined => Ok (-1)%float
  | _, _ => comparefn x y
  end.

Fixpoint sort_insert (comparefn : value -> value -> result float)
    (x : value) (l : list value) : result (list value) :=
  match l with
  | [] => Ok [x]
  | y :: t =>
      c <- SortCompare comparefn x y ;;
      if PrimFloat.ltb 0%float c
      then (r <- sort_insert comparefn x t ;; Ok (y :: r))
      else Ok (x :: y :: t)
  end.

Fixpoint Array_sort (comparefn : value -> value -> result float)
    (l : list value) : result (list value) :=
  match l with
  | [] => Ok []
  | x :: t => s <- Array_sort comparefn t ;; sort_insert comparefn x s
  end.

(** ** Forms *)

Inductive element : Type :=
| HTMLInputElement (value : string)
| OtherElement.

(** [form.elements], by control name. *)
Definition form : Type := list (string * element).

Fixpoint namedItem (name : string) (f : form) : option element :=
  match f with
  | [] => None
  | (n, e) :: r => if String.eqb name n then Some e else namedItem name r
  end.

(** ** Dashboard page ([app/static/app.js])

    The formatting, parsing, payload, totals, search and sort functions are
    the same in every revision of the file; the detail panel and its tables
    are those of the revision that shows the annual detail of the selected
    person. *)

Module Dashboard.

(** The object [summarizeTotals] accumulates into and returns. *)
Record totals : Type := mkTotals {
  meals : value;
  other : value;
  vehicles : value;
  total : value
}.

Section WithRuntime.
Context {RT : Runtime}.

Definition formatCurrency (v : value) : string :=
  if negb (Number_isFinite v) then "0 €"
  else match v with
       | VNum n => Intl_format_currency n
       | _ => "0 €"
       end.

Definition formatNumber (v : value) (maximumDigits : nat) : string :=
  if negb (Number_isFinite v) then "0"
  else match v with
       | VNum n => Intl_format_decimal maximumDigits n
       | _ => "0"
       end.

Definition getFormValue (f : form) (name : string) : result string :=
  match namedItem name f with
  | None => Throw (Error ("Champ introuvable: " ++ name))
  | Some OtherElement => Throw (Error ("Champ invalide: " ++ name))
  | Some (HTMLInputElement v) => Ok (String_trim v)
  end.

Definition parseTextField (value label : string) (maxLength : nat)
  : result string :=
  if String.eqb value EmptyString then Throw (Error (label ++ " requis."))
  else if negb (Nat.eqb maxLength 0) && Nat.ltb maxLength (String_length value)
  then Throw (Error (label ++ " trop long."))
  else Ok value.

(** [min] and [max] are a number or [null]. *)
Definition parseIntegerField (value label : string) (min max : option float)
  : result float :=
  let parsed := Number_parseInt value in
  if negb (Number_isFinite (VNum parsed))
  then Throw (Error (label ++ " invalide."))
  else
    match min with
    | Some m =>
        if PrimFloat.ltb parsed m
        then Throw (Error (label ++ " doit être ≥ " ++ Number_toString m ++ "."))
        else
          match max with
          | Some M =>
              if PrimFloat.ltb M parsed
              then Throw (Error (label ++ " doit être ≤ " ++ Number_toString M ++ "."))
              else Ok parsed
          | None => Ok parsed
          end
    | None =>
        match max with
        | Some M =>
            if PrimFloat.ltb M parsed
            then Throw (Error (label ++ " doit être ≤ " ++ Number_toString M ++ "."))
            else Ok parsed
        | None => Ok parsed
        end
    end.

Definition parseDecimalField (value label : string) (min : option float)
  : result float :=
  let parsed := Number_parseFloat value in
  if negb (Number_isFinite (VNum parsed))
  then Throw (Error (label ++ " invalide."))
  else
    match min with
    | Some m =>
        if PrimFloat.ltb parsed m
        then Throw (Error (label ++ " doit être ≥ " ++ Number_toString m ++ "."))
        else Ok parsed
    | None => Ok parsed
    end.

Definition buildMileagePayload (f : form) : result value :=
  v <- getFormValue f "person_id" ;;
  personId <- parseIntegerField v "ID de la personne" (Some 1%float) None ;;
  v <- getFormValue f "vehicle_id" ;;
  vehicleId <- parseIntegerField v "ID du véhicule" (Some 1%float) None ;;
  v <- getFormValue f "year" ;;
  year <- parseIntegerField v "Année" (Some 2000%float) (Some 2100%float) ;;
  v <- getFormValue f "month" ;;
  month <- parseIntegerField v "Mois" (Some 1%float) (Some 12%float) ;;
  v <- getFormValue f "km" ;;
  km <- parseDecimalField v "Kilomètres" (Some 0%float) ;;
  Ok (VObj [("person_id", VNum personId);
            ("vehicle_id", VNum vehicleId);
            ("year", VNum year);
            ("month", VNum month);
            ("km", VNum km)]).

Definition buildMealPayload (f : form) : result value :=
  v <- getFormValue f "person_id" ;;
  personId <- parseIntegerField v "ID de la personne" (Some 1%float) None ;;
  v <- getFormValue f "year" ;;
  year <- parseIntegerField v "Année" (Some 2000%float) (Some 2100%float) ;;
  v <- getFormValue f "month" ;;
  month <- parseIntegerField v "Mois" (Some 1%float) (Some 12%float) ;;
  v <- getFormValue f "meal_cost" ;;
  mealCost <- parseDecimalField v "Montant repas" (Some 0%float) ;;
  Ok (VObj [("person_id", VNum personId);
            ("year", VNum year);
            ("month", VNum month);
            ("meal_cost", VNum mealCost)]).

Definition buildOtherExpensePayload (f : form) : result value :=
  v <- getFormValue f "person_id" ;;
  personId <- parseIntegerField v "ID de la personne" (Some 1%float) None ;;
  v <- getFormValue f "year" ;;
  year <- parseIntegerField v "Année" (Some 2000%float) (Some 2100%float) ;;
  v <- getFormValue f "description" ;;
  description <- parseTextField v "Description" 160 ;;
  v <- getFormValue f "amount" ;;
  amount <- parseDecimalField v "Montant" (Some 0%float) ;;
  attachmentPath <- getFormValue f "attachment_path" ;;
  Ok (VObj [("person_id", VNum personId);
            ("year", VNum year);
            ("description", VStr description);
            ("amount", VNum amount);
            ("attachment_path",
             if String.eqb attachmentPath EmptyString
             then VNull else VStr attachmentPath)]).

Definition buildMetricItem (label value : string) : string :=
  "<div class=" ++ quoted "metric-item" ++ ">" ++
    "<span>" ++ label ++ "</span>" ++
    "<strong>" ++ value ++ "</strong>" ++
  "</div>".

Definition buildDetailTable (title : string) (headers : list string)
    (body : string) : string :=
  let headerCells :=
    join_strings EmptyString
      (map (fun cell => "<th>" ++ cell ++ "</th>") headers) in
  "<div class=" ++ quoted "detail-block" ++ ">" ++
    "<h4>" ++ title ++ "</h4>" ++
    "<div class=" ++ quoted "detail-table" ++ ">" ++
      "<table>" ++
        "<thead>" ++
          "<tr>" ++ headerCells ++ "</tr>" ++
        "</thead>" ++
        "<tbody>" ++ body ++ "</tbody>" ++
      "</table>" ++
    "</div>" ++
  "</div>".

Definition buildEmptyRow (message : string) (columns : float) : string :=
  "<tr><td colspan=" ++ quoted (Number_toString columns) ++ ">" ++
  message ++ "</td></tr>".

Definition buildMileageTable (entries : value) : result string :=
  l <- as_array entries ;;
  rows <- mapM (fun entry =>
    id <- get_prop entry "id" ;;
    vehicle_name <- get_prop entry "vehicle_name" ;;
    month <- get_prop entry "month" ;;
    km <- get_prop entry "km" ;;
    Ok ("<tr>" ++
          "<td>" ++ ToString id ++ "</td>" ++
          "<td>" ++ ToString vehicle_name ++ "</td>" ++
          "<td>" ++ ToString month ++ "</td>" ++
          "<td>" ++ formatNumber km 1 ++ " km</td>" ++
        "</tr>")) l ;;
  let body := match rows with
              | [] => buildEmptyRow "Aucune entrée." 4%float
              | _ :: _ => join_strings EmptyString rows
              end in
  Ok (buildDetailTable "Kilométrage détaillé"
        ["ID"; "Véhicule"; "Mois"; "Km"] body).

Definition buildMealTable (entries : value) : result string :=
  l <- as_array entries ;;
  rows <- mapM (fun entry =>
    id <- get_prop entry "id" ;;
    month <- get_prop entry "month" ;;
    meal_cost <- get_prop entry "meal_cost" ;;
    deductible_amount <- get_prop entry "deductible_amount" ;;
    Ok ("<tr>" ++
          "<td>" ++ ToString id ++ "</td>" ++
          "<td>" ++ ToString month ++ "</td>" ++
          "<td>" ++ formatCurrency meal_cost ++ "</td>" ++
          "<td>" ++ formatCurrency deductible_amount ++ "</td>" ++
        "</tr>")) l ;;
  let body := match rows with
              | [] => buildEmptyRow "Aucun repas." 4%float
              | _ :: _ => join_strings EmptyString rows
              end in
  Ok (buildDetailTable "Repas"
        ["ID"; "Mois"; "Montant"; "Déductible"] body).

Definition buildOtherTable (entries : value) : result string :=
  l <- as_array entries ;;
  rows <- mapM (fun entry =>
    id <- get_prop entry "id" ;;
    description <- get_prop entry "description" ;;
    amount <- get_prop entry "amount" ;;
    attachment_path <- get_prop entry "attachment_path" ;;
    Ok ("<tr>" ++
          "<td>" ++ ToString id ++ "</td>" ++
          "<td>" ++ ToString description ++ "</td>" ++
          "<td>" ++ formatCurrency amount ++ "</td>" ++
          "<td>" ++ ToString (if ToBoolean attachment_path
                              then attachment_path else VStr "-") ++
          "</td>" ++
        "</tr>")) l ;;
  let body := match rows with
              | [] => buildEmptyRow "Aucun frais." 4%float
              | _ :: _ => join_strings EmptyString rows
              end in
  Ok (buildDetailTable "Autres frais"
        ["ID"; "Description"; "Montant"; "Justificatif"] body).

Definition buildDetailPanel (person detail : value) : result string :=
  if negb (ToBoolean person)
  then Ok ("<p class=" ++ quoted "hint" ++ ">Sélectionnez une personne.</p>")
  else if negb (ToBoolean detail)
  then Ok ("<p class=" ++ quoted "hint" ++ ">Chargement des opérations...</p>")
  else
    first_name <- get_prop person "first_name" ;;
    last_name <- get_prop person "last_name" ;;
    let header :=
      "<h4>" ++ ToString first_name ++ " " ++ ToString last_name ++ "</h4>" in
    mileage_total_km <- get_prop detail "mileage_total_km" ;;
    mileage_deduction_total <- get_prop detail "mileage_deduction_total" ;;
    meals_deduction_total <- get_prop detail "meals_deduction_total" ;;
    other_expenses_total <- get_prop detail "other_expenses_total" ;;
    total_deduction <- get_prop detail "total_deduction" ;;
    let metrics := join_strings EmptyString
      [buildMetricItem "Kilomètres" (formatNumber mileage_total_km 1 ++ " km");
       buildMetricItem "Déduction véhicules" (formatCurrency mileage_deduction_total);
       buildMetricItem "Déduction repas" (formatCurrency meals_deduction_total);
       buildMetricItem "Autres frais" (formatCurrency other_expenses_total);
       buildMetricItem "Total annuel" (formatCurrency total_deduction)] in
    mileage_entries <- get_prop detail "mileage_entries" ;;
    mileage <- buildMileageTable mileage_entries ;;
    meal_expenses <- get_prop detail "meal_expenses" ;;
    meal <- buildMealTable meal_expenses ;;
    other_expenses <- get_prop detail "other_expenses" ;;
    other_table <- buildOtherTable other_expenses ;;
    Ok (header ++
        "<div class=" ++ quoted "detail-metrics" ++ ">" ++
          metrics ++
        "</div>" ++
        mileage ++ meal ++ other_table).

(** [people.reduce(..., {meals: 0, other: 0, vehicles: 0, total: 0})] *)
Definition summarizeTotals (people : list value) : result totals :=
  fold_left
    (fun acc person =>
       t <- acc ;;
       meals_deduction <- get_prop person "meals_deduction" ;;
       other_expenses <- get_prop person "other_expenses" ;;
       vehicle_deduction_total <- get_prop person "vehicle_deduction_total" ;;
       total_deduction <- get_prop person "total_deduction" ;;
       Ok {| meals := add (meals t) meals_deduction;
             other := add (other t) other_expenses;
             vehicles := add (vehicles t) vehicle_deduction_total;
             total := add (total t) total_deduction |})
    people
    (Ok {| meals := VNum 0%float;
           other := VNum 0%float;
           vehicles := VNum 0%float;
           total := VNum 0%float |}).

(** The callback of [people.filter] in [filterPeople]. *)
Definition matchesQuery (lower : string) (person : value) : result bool :=
  first_name <- get_prop person "first_name" ;;
  last_name <- get_prop person "last_name" ;;
  let fullName := ToString first_name ++ " " ++ ToString last_name in
  vehicle_summaries <- get_prop person "vehicle_summaries" ;;
  summaries <- as_array vehicle_summaries ;;
  names <- mapM (fun vehicle => get_prop vehicle "vehicle_name") summaries ;;
  let vehicleNames := Array_join " " names in
  if includes (String_toLowerCase fullName) lower then Ok true
  else
    household_name <- get_prop person "household_name" ;;
    household <- as_string household_name ;;
    if includes (String_toLowerCase household) lower then Ok true
    else Ok (includes (String_toLowerCase vehicleNames) lower).

Definition filterPeople (people : loc) (query : string) (h : store)
  : result loc * store :=
  if String.eqb query EmptyString then (Ok people, h)
  else
    let lower := String_toLowerCase query in
    match read h people with
    | None => (Throw TypeError, h)
    | Some a =>
        match filterM (matchesQuery lower) a with
        | Ok kept => let (filtered, h') := alloc h kept in (Ok filtered, h')
        | Throw e => (Throw e, h)
        end
    end.

(** The comparator [sortPeople] passes to [sort]. *)
Definition comparePeople (sortKey direction : string) (left right : value)
  : result float :=
  let isAsc := String.eqb direction "asc" in
  if String.eqb sortKey "person" then
    left_last <- get_prop left "last_name" ;;
    left_first <- get_prop left "first_name" ;;
    let nameLeft := ToString left_last ++ " " ++ ToString left_first in
    right_last <- get_prop right "last_name" ;;
    right_first <- get_prop right "first_name" ;;
    let nameRight := ToString right_last ++ " " ++ ToString right_first in
    Ok (if isAsc
        then String_localeCompare nameLeft nameRight
        else String_localeCompare nameRight nameLeft)
  else if String.eqb sortKey "household" then
    if isAsc then
      left_household <- get_prop left "household_name" ;;
      receiver <- as_string left_household ;;
      right_household <- get_prop right "household_name" ;;
      Ok (String_localeCompare receiver (ToString right_household))
    else
      right_household <- get_prop right "household_name" ;;
      receiver <- as_string right_household ;;
      left_household <- get_prop left "household_name" ;;
      Ok (String_localeCompare receiver (ToString left_household))
  else
    left_value <- get_prop left sortKey ;;
    let valueLeft := nullish left_value (VNum 0%float) in
    right_value <- get_prop right sortKey ;;
    let valueRight := nullish right_value (VNum 0%float) in
    if strict_equal valueLeft valueRight then Ok 0%float
    else if isAsc
    then Ok (if greater_than valueLeft valueRight then 1%float else (-1)%float)
    else Ok (if less_than valueLeft valueRight then 1%float else (-1)%float).

(** [const sorted = [...people]; sorted.sort(...); return sorted;].  When
    the comparator throws, the copy is left as allocated: it is no longer
    reachable. *)
Definition sortPeople (people : loc) (sortKey direction : string) (h : store)
  : result loc * store :=
  match read h people with
  | None => (Throw TypeError, h)
  | Some a =>
      let (sorted, h1) := alloc h a in
      match Array_sort (comparePeople sortKey direction) a with
      | Ok a' => (Ok sorted, write h1 sorted a')
      | Throw e => (Throw e, h1)
      end
  end.

(** *** The forms of the reference data, and the update and delete forms

    These are the builders of the revision that also edits and deletes
    records; there a household or vehicle name holds at most 100 code
    units. *)

Definition buildHouseholdPayload (f : form) : result value :=
  v <- getFormValue f "name" ;;
  name <- parseTextField v "Nom du foyer" 100 ;;
  Ok (VObj [("name", VStr name)]).

Definition buildPersonPayload (f : form) : result value :=
  v <- getFormValue f "household_id" ;;
  householdId <- parseIntegerField v "ID du foyer" (Some 1%float) None ;;
  v <- getFormValue f "first_name" ;;
  firstName <- parseTextField v "Prénom" 80 ;;
  v <- getFormValue f "last_name" ;;
  lastName <- parseTextField v "Nom" 80 ;;
  Ok (VObj [("household_id", VNum householdId);
            ("first_name", VStr firstName);
            ("last_name", VStr lastName)]).

Definition buildVehiclePayload (f : form) : result value :=
  v <- getFormValue f "person_id" ;;
  personId <- parseIntegerField v "ID de la personne" (Some 1%float) None ;;
  v <- getFormValue f "name" ;;
  name <- parseTextField v "Nom du véhicule" 100 ;;
  v <- getFormValue f "power_cv" ;;
  powerCv <- parseIntegerField v "Puissance fiscale" (Some 1%float) None ;;
  Ok (VObj [("person_id", VNum personId);
            ("name", VStr name);
            ("power_cv", VNum powerCv)]).

Definition buildHouseholdUpdatePayload (f : form) : result value :=
  v <- getFormValue f "id" ;;
  id <- parseIntegerField v "ID du foyer" (Some 1%float) None ;;
  v <- getFormValue f "name" ;;
  name <- parseTextField v "Nom du foyer" 100 ;;
  Ok (VObj [("id", VNum id);
            ("payload", VObj [("name", VStr name)])]).

Definition buildPersonUpdatePayload (f : form) : result value :=
  v <- getFormValue f "id" ;;
  id <- parseIntegerField v "ID de la personne" (Some 1%float) None ;;
  v <- getFormValue f "household_id" ;;
  householdId <- parseIntegerField v "ID du foyer" (Some 1%float) None ;;
  v <- getFormValue f "first_name" ;;
  firstName <- parseTextField v "Prénom" 80 ;;
  v <- getFormValue f "last_name" ;;
  lastName <- parseTextField v "Nom" 80 ;;
  Ok (VObj [("id", VNum id);
            ("payload", VObj [("household_id", VNum householdId);
                              ("first_name", VStr firstName);
                              ("last_name", VStr lastName)])]).

Definition buildVehicleUpdatePayload (f : form) : result value :=
  v <- getFormValue f "id" ;;
  id <- parseIntegerField v "ID du véhicule" (Some 1%float) None ;;
  v <- getFormValue f "person_id" ;;
  personId <- parseIntegerField v "ID de la personne" (Some 1%float) None ;;
  v <- getFormValue f "name" ;;
  name <- parseTextField v "Nom du véhicule" 100 ;;
  v <- getFormValue f "power_cv" ;;
  powerCv <- parseIntegerField v "Puissance fiscale" (Some 1%float) None ;;
  Ok (VObj [("id", VNum id);
            ("payload", VObj [("person_id", VNum personId);
                              ("name", VStr name);
                              ("power_cv", VNum powerCv)])]).

Definition buildMileageUpdatePayload (f : form) : result value :=
  v <- getFormValue f "id" ;;
  id <- parseIntegerField v "ID du kilométrage" (Some 1%float) None ;;
  v <- getFormValue f "person_id" ;;
  personId <- parseIntegerField v "ID de la personne" (Some 1%float) None ;;
  v <- getFormValue f "vehicle_id" ;;
  vehicleId <- parseIntegerField v "ID du véhicule" (Some 1%float) None ;;
  v <- getFormValue f "year" ;;
  year <- parseIntegerField v "Année" (Some 2000%float) (Some 2100%float) ;;
  v <- getFormValue f "month" ;;
  month <- parseIntegerField v "Mois" (Some 1%float) (Some 12%float) ;;
  v <- getFormValue f "km" ;;
  km <- parseDecimalField v "Kilomètres" (Some 0%float) ;;
  Ok (VObj [("id", VNum id);
            ("payload", VObj [("person_id", VNum personId);
                              ("vehicle_id", VNum vehicleId);
                              ("year", VNum year);
                              ("month", VNum month);
                              ("km", VNum km)])]).

Definition buildMealUpdatePayload (f : form) : result value :=
  v <- getFormValue f "id" ;;
  id <- parseIntegerField v "ID du repas" (Some 1%float) None ;;
  v <- getFormValue f "person_id" ;;
  personId <- parseIntegerField v "ID de la personne" (Some 1%float) None ;;
  v <- getFormValue f "year" ;;
  year <- parseIntegerField v "Année" (Some 2000%float) (Some 2100%float) ;;
  v <- getFormValue f "month" ;;
  month <- parseIntegerField v "Mois" (Some 1%float) (Some 12%float) ;;
  v <- getFormValue f "meal_cost" ;;
  mealCost <- parseDecimalField v "Montant repas" (Some 0%float) ;;
  Ok (VObj [("id", VNum id);
            ("payload", VObj [("person_id", VNum personId);
                              ("year", VNum year);
                              ("month", VNum month);
                              ("meal_cost", VNum mealCost)])]).

Definition buildOtherUpdatePayload (f : form) : result value :=
  v <- getFormValue f "id" ;;
  id <- parseIntegerField v "ID du frais" (Some 1%float) None ;;
  v <- getFormValue f "person_id" ;;
  personId <- parseIntegerField v "ID de la personne" (Some 1%float) None ;;
  v <- getFormValue f "year" ;;
  year <- parseIntegerField v "Année" (Some 2000%float) (Some 2100%float) ;;
  v <- getFormValue f "description" ;;
  description <- parseTextField v "Description" 160 ;;
  v <- getFormValue f "amount" ;;
  amount <- parseDecimalField v "Montant" (Some 0%float) ;;
  attachmentPath <- getFormValue f "attachment_path" ;;
  Ok (VObj [("id", VNum id);
            ("payload", VObj [("person_id", VNum personId);
                              ("year", VNum year);
                              ("description", VStr description);
                              ("amount", VNum amount);
                              ("attachment_path",
                               if String.eqb attachmentPath EmptyString
                               then VNull else VStr attachmentPath)])]).

Definition buildDeletePayload (f : form) (label : string) : result float :=
  v <- getFormValue f "id" ;;
  parseIntegerField v label (Some 1%float) None.

(** *** The people table *)

Definition buildRow (person : value) (isSelected : bool) : result string :=
  let rowClass :=
    if isSelected then " class=" ++ quoted "selected" else EmptyString in
  person_id <- get_prop person "person_id" ;;
  first_name <- get_prop person "first_name" ;;
  last_name <- get_prop person "last_name" ;;
  household_name <- get_prop person "household_name" ;;
  meals_deduction <- get_prop person "meals_deduction" ;;
  other_expenses <- get_prop person "other_expenses" ;;
  vehicle_deduction_total <- get_prop person "vehicle_deduction_total" ;;
  total_deduction <- get_prop person "total_deduction" ;;
  Ok ("<tr data-person-id=" ++ quoted (ToString person_id) ++ rowClass ++ ">" ++
        "<td>" ++ ToString first_name ++ " " ++ ToString last_name ++ "</td>" ++
        "<td>" ++ ToString household_name ++ "</td>" ++
        "<td>" ++ formatCurrency meals_deduction ++ "</td>" ++
        "<td>" ++ formatCurrency other_expenses ++ "</td>" ++
        "<td>" ++ formatCurrency vehicle_deduction_total ++ "</td>" ++
        "<td>" ++ formatCurrency total_deduction ++ "</td>" ++
      "</tr>").

(** The callback of [people.map] in [renderTable]. *)
Definition tableRow (selectedId : value) (person : value) : result string :=
  person_id <- get_prop person "person_id" ;;
  buildRow person (strict_equal person_id selectedId).

(** [people.find((person) => person.person_id === selectedId)] *)
Fixpoint findSelected (selectedId : value) (people : list value)
  : result value :=
  match people with
  | [] => Ok VUndefined
  | person :: rest =>
      person_id <- get_prop person "person_id" ;;
      if strict_equal person_id selectedId then Ok person
      else findSelected selectedId rest
  end.

End WithRuntime.
End Dashboard.

(** ** Administration page ([app/static/admin.js], in the revision that
    builds its tables from DOM nodes and shows one row per bracket)

    The page keeps what it loaded in a [state] object and shows it in the
    elements of the document; both are threaded through every function. *)

Module Admin.

(** A table cell holds the value assigned to its [textContent], or the
    action menu built by [buildMenuCell]. *)
Inductive cell : Type :=
| TextCell (text : value)
| MenuCell (entryType : string) (entryId : value).

Inductive row : Type :=
| Row (cells : list cell)
| EmptyRow (message : string) (colSpan : float).

(** What an element of the page shows: its text, or the rows appended to
    it. *)
Inductive content : Type :=
| Text (s : string)
| Rows (rows : list row).

(** The elements of the page, by [id]. *)
Definition document : Type := list (string * content).

Fixpoint getElementById (id : string) (d : document) : option content :=
  match d with
  | [] => None
  | (i, c) :: r => if String.eqb id i then Some c else getElementById id r
  end.

Fixpoint setContent (id : string) (c : content) (d : document) : document :=
  match d with
  | [] => []
  | (i, c') :: r =>
      if String.eqb id i then (i, c) :: r else (i, c') :: setContent id c r
  end.

(** The [state] object of the page. *)
Record state : Type := mkState {
  households : value;
  persons : value;
  vehicles : value;
  mileageScale : value;
  details_mileage : value;
  details_meals : value;
  details_other : value
}.

Record world : Type := mkWorld {
  st : state;
  doc : document
}.

(** Statements run in a world and may throw; what they did before
    throwing stays done. *)
Definition M (A : Type) : Type := world -> result A * world.

Definition lift {A : Type} (r : result A) : M A := fun w => (r, w).

Definition bindM {A B : Type} (m : M A) (k : A -> M B) : M B :=
  fun w =>
    match m w with
    | (Ok a, w') => k a w'
    | (Throw e, w') => (Throw e, w')
    end.

Definition try_catch {A : Type} (body : M A) (handler : exn -> M A) : M A :=
  fun w =>
    match body w with
    | (Ok a, w') => (Ok a, w')
    | (Throw e, w') => handler e w'
    end.

Definition get_state : M state := fun w => (Ok (st w), w).

Definition put_state (s : state) : M unit :=
  fun w => (Ok tt, {| st := s; doc := doc w |}).

Notation "x <~ m ;; k" := (bindM m (fun x => k))
  (at level 61, m at next level, right associativity).
Notation "m ;;; k" := (bindM m (fun _ => k))
  (at level 61, right associativity).

Definition MILEAGE_SCALE_TABLE_ID : string := "mileage-scale-table".
Definition ENTRY_STATUS_ID : string := "entry-status".
Definition MILEAGE_TABLE_ID : string := "mileage-table".
Definition MEAL_TABLE_ID : string := "meal-table".
Definition OTHER_TABLE_ID : string := "other-table".
Definition API_ENDPOINTS_details : string := "/api/people".

Section WithRuntime.
Context {RT : Runtime}.

Definition getElement (elementId : string) : M content :=
  fun w =>
    match getElementById elementId (doc w) with
    | Some c => (Ok c, w)
    | None => (Throw (Error ("Element introuvable: " ++ elementId)), w)
    end.

Definition setText (elementId text : string) : M unit :=
  _ <~ getElement elementId ;;
  fun w => (Ok tt, {| st := st w; doc := setContent elementId (Text text) (doc w) |}).

(** [body.innerHTML = ""] and then one [appendChild] per row. *)
Definition renderTable (tableBody : string) (rows : list row) : M unit :=
  _ <~ getElement tableBody ;;
  fun w => (Ok tt, {| st := st w; doc := setContent tableBody (Rows rows) (doc w) |}).

Definition buildRow (cells : list cell) : row := Row cells.

Definition buildEmptyRow (message : string) (columnCount : float) : row :=
  EmptyRow message columnCount.

Definition buildMenuCell (entryType : string) (entryId : value) : cell :=
  MenuCell entryType entryId.

(** The body of the two nested [forEach] loops of [renderMileageScale]:
    the rows pushed for one bracket of one scale entry. *)
Definition bracketRow (scale bracket : value) : result row :=
  max_km <- get_prop bracket "max_km" ;;
  let maxKm := if strict_equal max_km VNull then VStr "Au-delà" else max_km in
  power_cv <- get_prop scale "power_cv" ;;
  rate <- get_prop bracket "rate" ;;
  rate_number <- as_number rate ;;
  fixed <- get_prop bracket "fixed" ;;
  fixed_number <- as_number fixed ;;
  Ok (buildRow [TextCell (VStr (ToString power_cv));
                TextCell (VStr (ToString maxKm));
                TextCell (VStr (Number_toFixed rate_number 3));
                TextCell (VStr (Number_toFixed fixed_number 2))]).

Definition scaleRows (scale : value) : result (list row) :=
  brackets <- get_prop scale "brackets" ;;
  bracket_list <- as_array brackets ;;
  mapM (bracketRow scale) bracket_list.

Definition renderMileageScale : M unit :=
  s <~ get_state ;;
  scales <~ lift (as_array (mileageScale s)) ;;
  pushed <~ lift (mapM scaleRows scales) ;;
  let rows := List.concat pushed in
  let rows := match rows with
              | [] => [buildEmptyRow "Aucun barème" 4%float]
              | _ :: _ => rows
              end in
  renderTable MILEAGE_SCALE_TABLE_ID rows.

Definition renderMileageEntries : M unit :=
  s <~ get_state ;;
  entries <~ lift (as_array (details_mileage s)) ;;
  rows <~ lift (mapM (fun entry =>
    id <- get_prop entry "id" ;;
    let menu := buildMenuCell "mileage" id in
    month <- get_prop entry "month" ;;
    vehicle_name <- get_prop entry "vehicle_name" ;;
    km <- get_prop entry "km" ;;
    km_number <- as_number km ;;
    Ok (buildRow [TextCell (VStr (ToString month));
                  TextCell vehicle_name;
                  TextCell (VStr (Number_toFixed km_number 1));
                  menu])) entries) ;;
  let rows := match rows with
              | [] => [buildEmptyRow "Aucun trajet" 4%float]
              | _ :: _ => rows
              end in
  renderTable MILEAGE_TABLE_ID rows.

Definition renderMealEntries : M unit :=
  s <~ get_state ;;
  entries <~ lift (as_array (details_meals s)) ;;
  rows <~ lift (mapM (fun entry =>
    id <- get_prop entry "id" ;;
    let menu := buildMenuCell "meal" id in
    month <- get_prop entry "month" ;;
    meal_cost <- get_prop entry "meal_cost" ;;
    meal_cost_number <- as_number meal_cost ;;
    deductible_amount <- get_prop entry "deductible_amount" ;;
    deductible_number <- as_number deductible_amount ;;
    Ok (buildRow [TextCell (VStr (ToString month));
                  TextCell (VStr (Number_toFixed meal_cost_number 2));
                  TextCell (VStr (Number_toFixed deductible_number 2));
                  menu])) entries) ;;
  let rows := match rows with
              | [] => [buildEmptyRow "Aucun repas" 4%float]
              | _ :: _ => rows
              end in
  renderTable MEAL_TABLE_ID rows.

Definition renderOtherEntries : M unit :=
  s <~ get_state ;;
  entries <~ lift (as_array (details_other s)) ;;
  rows <~ lift (mapM (fun entry =>
    id <- get_prop entry "id" ;;
    let menu := buildMenuCell "other" id in
    description <- get_prop entry "description" ;;
    amount <- get_prop entry "amount" ;;
    amount_number <- as_number amount ;;
    attachment_path <- get_prop entry "attachment_path" ;;
    Ok (buildRow [TextCell description;
                  TextCell (VStr (Number_toFixed amount_number 2));
                  TextCell (if ToBoolean attachment_path
                            then attachment_path else VStr "-");
                  menu])) entries) ;;
  let rows := match rows with
              | [] => [buildEmptyRow "Aucun frais" 4%float]
              | _ :: _ => rows
              end in
  renderTable OTHER_TABLE_ID rows.

(** [fetchJson] is the server as the page sees it: the parsed body of a
    successful response, or the thrown HTTP or parsing error. *)
Definition loadPersonDetails (fetchJson : string -> result value)
    (personId year : value) : M unit :=
  setText ENTRY_STATUS_ID "Chargement des frais..." ;;;
  try_catch
    (response <~ lift (fetchJson (API_ENDPOINTS_details ++ "/" ++
                                  ToString personId ++ "/details/" ++
                                  ToString year)) ;;
     mileage_entries <~ lift (get_prop response "mileage_entries") ;;
     s <~ get_state ;;
     put_state {| households := households s; persons := persons s;
                  vehicles := vehicles s; mileageScale := mileageScale s;
                  details_mileage := mileage_entries;
                  details_meals := details_meals s;
                  details_other := details_other s |} ;;;
     meal_expenses <~ lift (get_prop response "meal_expenses") ;;
     s <~ get_state ;;
     put_state {| households := households s; persons := persons s;
                  vehicles := vehicles s; mileageScale := mileageScale s;
                  details_mileage := details_mileage s;
                  details_meals := meal_expenses;
                  details_other := details_other s |} ;;;
     other_expenses <~ lift (get_prop response "other_expenses") ;;
     s <~ get_state ;;
     put_state {| households := households s; persons := persons s;
                  vehicles := vehicles s; mileageScale := mileageScale s;
                  details_mileage := details_mileage s;
                  details_meals := details_meals s;
                  details_other := other_expenses |} ;;;
     renderMileageEntries ;;;
     renderMealEntries ;;;
     renderOtherEntries ;;;
     setText ENTRY_STATUS_ID "Frais chargés.")
    (fun _ => setText ENTRY_STATUS_ID "Impossible de charger les frais.").

End WithRuntime.

(** *** The row menus

    An element, as far as the row menus go: its [id], whether its class
    list holds "row-menu", and whether it holds "is-open". *)
Record classes : Type := mkClasses {
  element_id : string;
  row_menu : bool;
  is_open : bool
}.

(** [document.querySelectorAll(".row-menu.is-open")], each losing
    "is-open". *)
Definition closeAllMenus (elements : list classes) : list classes :=
  map (fun e => if row_menu e && is_open e
                then {| element_id := element_id e; row_menu := row_menu e;
                        is_open := false |}
                else e) elements.

(** [document.getElementById(menuId)]: the first element of that [id]. *)
Fixpoint findById (menuId : string) (elements : list classes)
  : option classes :=
  match elements with
  | [] => None
  | e :: r => if String.eqb menuId (element_id e) then Some e
              else findById menuId r
  end.

(** [menu.classList.add("is-open")] on that element. *)
Fixpoint addOpen (menuId : string) (elements : list classes)
  : list classes :=
  match elements with
  | [] => []
  | e :: r =>
      if String.eqb menuId (element_id e)
      then {| element_id := element_id e; row_menu := row_menu e;
              is_open := true |} :: r
      else e :: addOpen menuId r
  end.

Definition toggleMenu (menuId : string) (elements : list classes)
  : list classes :=
  match findById menuId elements with
  | None => elements
  | Some menu =>
      let isOpen := is_open menu in
      let closed := closeAllMenus elements in
      if negb isOpen then addOpen menuId closed else closed
  end.

End Admin.

(** ** Indexed properties

    An array holds its elements under the decimal names of their indices,
    and so does a string its UTF-16 code units.  The code units of a
    string belong to the runtime. *)

Class CodeUnits : Type := {
  (** the code units of [s], each as a string of its own *)
  String_units : string -> list string
}.

(** The name of the [i]-th index property. *)
Definition index_name (i : nat) : string :=
  DecimalString.NilEmpty.string_of_uint (Nat.to_uint i).

Fixpoint indexed (i : nat) (l : list value) : object :=
  match l with
  | [] => []
  | x :: r => (index_name i, x) :: indexed (S i) r
  end.

Section Indexing.
Context {CU : CodeUnits}.

(** What [{...v}] copies: the properties of an object, the elements of an
    array and the code units of a string under their indices, nothing
    from any other value. *)
Definition own_properties (v : value) : object :=
  match v with
  | VObj o => o
  | VArr l => indexed 0 l
  | VStr s => indexed 0 (map VStr (String_units s))
  | _ => []
  end.

(** [v[i]] for an index [i]: reading from [undefined] or [null] throws;
    an array, a string and an object answer with what they hold under
    that index, [undefined] when there is nothing. *)
Definition get_index (v : value) (i : nat) : result value :=
  match v with
  | VUndefined | VNull => Throw TypeError
  | VArr l => Ok (nth i l VUndefined)
  | VStr s => Ok (nth i (map VStr (String_units s)) VUndefined)
  | VObj o => Ok (get o (index_name i))
  | VBool _ | VNum _ => Ok VUndefined
  end.

End Indexing.

(** ** The dashboard page at work ([app/static/app.js], in the revision
    that shows the annual detail of the selected person)

    The page keeps what it loaded and how it is sorted in a [state] object;
    its arrays live in the store, its elements in the document.  The
    server and the browser's own parsers are parameters. *)

Module DashboardPage.

(** What an element was made to show: the text assigned to its
    [textContent], or the markup assigned to its [innerHTML]. *)
Inductive shown : Type :=
| Text (s : string)
| Markup (html : string).

(** An element of the page: what it shows, and its [value] property (the
    text typed into an input, [undefined] on an element that has none). *)
Record node : Type := mkNode {
  shows : shown;
  control : value
}.

(** The elements of the page, by [id]. *)
Definition document : Type := list (string * node).

Fixpoint getElementById (id : string) (d : document) : option node :=
  match d with
  | [] => None
  | (i, n) :: r => if String.eqb id i then Some n else getElementById id r
  end.

Fixpoint setShown (id : string) (c : shown) (d : document) : document :=
  match d with
  | [] => []
  | (i, n) :: r =>
      if String.eqb id i
      then (i, {| shows := c; control := control n |}) :: r
      else (i, n) :: setShown id c r
  end.

(** A column header of the people table, [th[data-key]]: its key, and
    whether its class list holds "sorted". *)
Record header : Type := mkHeader {
  data_key : string;
  sorted : bool
}.

(** The [state] object of the page.  (Its [admin] lists are kept with
    the forms, in module [DashboardForms].) *)
Record state : Type := mkState {
  people : loc;
  filtered : loc;
  sortKey : string;
  sortDirection : string;
  selectedId : value;
  detail : value
}.

(** The element an event was fired on: its [data-key] attribute if it
    has one, and the [data-person-id] of the table row around it, if
    there is such a row and if the row has one. *)
Record target : Type := mkTarget {
  attribute_data_key : option string;
  closest_row : option (option string)
}.

(** An HTTP response: [ok], [status], and the text of its body. *)
Record response : Type := mkResponse {
  ok : bool;
  status : float;
  body : string
}.

(** The browser around the page: what the server answers to a [GET] (or
    the error [fetch] rejects with), and [JSON.parse]. *)
Class Browser : Type := {
  fetch : string -> result response;
  JSON_parse : string -> result value
}.

Record world : Type := mkWorld {
  st : state;
  heap : store;
  doc : document;
  headers : list header;
  requests : list string
}.

(** Statements run in a world and may throw; what they did before
    throwing stays done. *)
Definition M (A : Type) : Type := world -> result A * world.

Definition ret {A : Type} (a : A) : M A := fun w => (Ok a, w).

Definition throw {A : Type} (e : exn) : M A := fun w => (Throw e, w).

Definition lift {A : Type} (r : result A) : M A := fun w => (r, w).

Definition bindM {A B : Type} (m : M A) (k : A -> M B) : M B :=
  fun w =>
    match m w with
    | (Ok a, w') => k a w'
    | (Throw e, w') => (Throw e, w')
    end.

Definition try_catch {A : Type} (body : M A) (handler : exn -> M A) : M A :=
  fun w =>
    match body w with
    | (Ok a, w') => (Ok a, w')
    | (Throw e, w') => handler e w'
    end.

(** A call to an [async] function that is not awaited: it runs, and
    whether it fails is not observed.  (It is run to its end here: no
    other event is handled in between.) *)
Definition detached (m : M unit) : M unit :=
  fun w => (Ok tt, snd (m w)).

Definition get_state : M state := fun w => (Ok (st w), w).

Definition put_state (s : state) : M unit :=
  fun w => (Ok tt, {| st := s; heap := heap w; doc := doc w;
                      headers := headers w; requests := requests w |}).

(** A function on arrays, run on the store of the page. *)
Definition on_heap {A : Type} (f : store -> result A * store) : M A :=
  fun w =>
    let (r, h) := f (heap w) in
    (r, {| st := st w; heap := h; doc := doc w;
           headers := headers w; requests := requests w |}).

Definition read_array (l : loc) : M (list value) :=
  fun w =>
    match read (heap w) l with
    | Some a => (Ok a, w)
    | None => (Throw TypeError, w)
    end.

Definition show (id : string) (c : shown) : M unit :=
  fun w => (Ok tt, {| st := st w; heap := heap w;
                      doc := setShown id c (doc w);
                      headers := headers w; requests := requests w |}).

Notation "x <~ m ;; k" := (bindM m (fun x => k))
  (at level 61, m at next level, right associativity).
Notation "m ;;; k" := (bindM m (fun _ => k))
  (at level 61, right associativity).

Definition DASHBOARD_ENDPOINT : string := "/api/dashboard/".
Definition PERSON_DETAIL_ENDPOINT : string := "/api/people/".
Definition TABLE_BODY_ID : string := "people-table".
Definition YEAR_INPUT_ID : string := "year-input".
Definition SEARCH_INPUT_ID : string := "search-input".
Definition STATUS_MESSAGE_ID : string := "status-message".
Definition TOTAL_DEDUCTION_ID : string := "total-deduction".
Definition TOTAL_MEALS_ID : string := "total-meals".
Definition TOTAL_OTHER_ID : string := "total-other".
Definition TOTAL_VEHICLES_ID : string := "total-vehicles".
Definition DETAIL_PANEL_ID : string := "detail-panel".

(** [a.length] as a number. *)
Definition Array_length (a : list value) : float :=
  PrimFloat.of_uint63 (Uint63.of_Z (Z.of_nat (List.length a))).

Section WithRuntime.
Context {RT : Runtime} {CU : CodeUnits} {BR : Browser}.

Definition getElement (elementId : string) : M node :=
  fun w =>
    match getElementById elementId (doc w) with
    | Some n => (Ok n, w)
    | None => (Throw (Error ("Element introuvable: " ++ elementId)), w)
    end.

Definition setText (elementId text : string) : M unit :=
  _ <~ getElement elementId ;;
  show elementId (Text text).

Definition setStatusMessage (message : string) : M unit :=
  setText STATUS_MESSAGE_ID message.

Definition renderDetail (person detail : value) : M unit :=
  _ <~ getElement DETAIL_PANEL_ID ;;
  html <~ lift (Dashboard.buildDetailPanel person detail) ;;
  show DETAIL_PANEL_ID (Markup html).

Definition renderSummary (people : loc) : M unit :=
  a <~ read_array people ;;
  totals <~ lift (Dashboard.summarizeTotals a) ;;
  setText TOTAL_MEALS_ID (Dashboard.formatCurrency (Dashboard.meals totals)) ;;;
  setText TOTAL_OTHER_ID (Dashboard.formatCurrency (Dashboard.other totals)) ;;;
  setText TOTAL_VEHICLES_ID
    (Dashboard.formatCurrency (Dashboard.vehicles totals)) ;;;
  setText TOTAL_DEDUCTION_ID
    (Dashboard.formatCurrency (Dashboard.total totals)).

Definition renderTable (people : loc) (selectedId : value) : M unit :=
  _ <~ getElement TABLE_BODY_ID ;;
  a <~ read_array people ;;
  rows <~ lift (mapM (Dashboard.tableRow selectedId) a) ;;
  show TABLE_BODY_ID (Markup (join_strings EmptyString rows)).

Definition updateView : M unit :=
  input <~ getElement SEARCH_INPUT_ID ;;
  text <~ lift (as_string (control input)) ;;
  let query := String_trim text in
  s <~ get_state ;;
  matching <~ on_heap (Dashboard.filterPeople (people s) query) ;;
  s <~ get_state ;;
  ordered <~ on_heap (Dashboard.sortPeople matching (sortKey s)
                        (sortDirection s)) ;;
  s <~ get_state ;;
  put_state {| people := people s; filtered := ordered;
               sortKey := sortKey s; sortDirection := sortDirection s;
               selectedId := selectedId s; detail := detail s |} ;;;
  s <~ get_state ;;
  renderSummary (filtered s) ;;;
  s <~ get_state ;;
  renderTable (filtered s) (selectedId s) ;;;
  s <~ get_state ;;
  a <~ read_array (filtered s) ;;
  selectedPerson <~ lift (Dashboard.findSelected (selectedId s) a) ;;
  s <~ get_state ;;
  renderDetail selectedPerson (detail s).

(** The year typed into the year input, or [null]. *)
Definition getSelectedYear : M value :=
  input <~ getElement YEAR_INPUT_ID ;;
  let year := Number_parseInt (ToString (control input)) in
  if negb (Number_isFinite (VNum year)) then ret VNull else ret (VNum year).

(** [fetch(url)], which the page awaits. *)
Definition request (url : string) : M response :=
  fun w => (fetch url, {| st := st w; heap := heap w; doc := doc w;
                          headers := headers w;
                          requests := (requests w ++ [url])%list |}).

Definition fetchDashboard (year : value) : M value :=
  response <~ request (DASHBOARD_ENDPOINT ++ ToString year) ;;
  if negb (ok response)
  then throw (Error ("Erreur " ++ Number_toString (status response)))
  else lift (JSON_parse (body response)).

Definition getJson (endpoint : string) : M value :=
  response <~ request endpoint ;;
  let text := body response in
  if negb (ok response)
  then throw (Error (if String.eqb text EmptyString
                     then "Erreur " ++ Number_toString (status response)
                     else text))
  else lift (JSON_parse text).

(** The callback of [response.people.map] in [refreshDashboard]: the
    person with the names the column headers sort by. *)
Definition withSortKeys (person : value) : result value :=
  let copied := own_properties person in
  meals_deduction <- get_prop person "meals_deduction" ;;
  other_expenses <- get_prop person "other_expenses" ;;
  vehicle_deduction_total <- get_prop person "vehicle_deduction_total" ;;
  total_deduction <- get_prop person "total_deduction" ;;
  first_name <- get_prop person "first_name" ;;
  last_name <- get_prop person "last_name" ;;
  household_name <- get_prop person "household_name" ;;
  Ok (VObj (set "household" household_name
           (set "person" (VStr (ToString first_name ++ " " ++
                                ToString last_name))
           (set "total" total_deduction
           (set "vehicles" vehicle_deduction_total
           (set "other" other_expenses
           (set "meals" meals_deduction copied))))))).

Definition refreshDashboard : M unit :=
  year <~ getSelectedYear ;;
  if strict_equal year VNull then setStatusMessage "Année invalide."
  else
    setStatusMessage "Chargement des données..." ;;;
    try_catch
      (response <~ fetchDashboard year ;;
       listed <~ lift (get_prop response "people") ;;
       persons <~ lift (as_array listed) ;;
       mapped <~ lift (mapM withSortKeys persons) ;;
       stored <~ on_heap (fun h => let (l, h') := alloc h mapped in (Ok l, h')) ;;
       s <~ get_state ;;
       put_state {| people := stored; filtered := filtered s;
                    sortKey := sortKey s; sortDirection := sortDirection s;
                    selectedId := selectedId s; detail := detail s |} ;;;
       s <~ get_state ;;
       put_state {| people := people s; filtered := filtered s;
                    sortKey := sortKey s; sortDirection := sortDirection s;
                    selectedId := VNull; detail := detail s |} ;;;
       s <~ get_state ;;
       put_state {| people := people s; filtered := filtered s;
                    sortKey := sortKey s; sortDirection := sortDirection s;
                    selectedId := selectedId s; detail := VNull |} ;;;
       updateView ;;;
       s <~ get_state ;;
       a <~ read_array (people s) ;;
       setStatusMessage (Number_toString (Array_length a) ++
                         " personne(s) chargée(s) pour " ++
                         ToString year ++ "."))
      (fun _ => setStatusMessage "Impossible de charger le tableau de bord.").

Definition clearDetail : M unit :=
  s <~ get_state ;;
  put_state {| people := people s; filtered := filtered s;
               sortKey := sortKey s; sortDirection := sortDirection s;
               selectedId := selectedId s; detail := VNull |}.

Definition refreshPersonDetail (personId : value) : M unit :=
  if negb (ToBoolean personId) then clearDetail ;;; updateView
  else
    year <~ getSelectedYear ;;
    if strict_equal year VNull then setStatusMessage "Année invalide."
    else
      clearDetail ;;;
      updateView ;;;
      try_catch
        (loaded <~ getJson (PERSON_DETAIL_ENDPOINT ++ ToString personId ++
                            "/details/" ++ ToString year) ;;
         s <~ get_state ;;
         put_state {| people := people s; filtered := filtered s;
                      sortKey := sortKey s; sortDirection := sortDirection s;
                      selectedId := selectedId s; detail := loaded |} ;;;
         updateView)
        (fun _ => setStatusMessage "Impossible de charger le détail annuel.").

(** Every header whose key is the sort key gets the class "sorted", every
    other one loses it. *)
Definition updateSortIndicators : M unit :=
  fun w =>
    (Ok tt,
     {| st := st w; heap := heap w; doc := doc w;
        headers := map (fun th =>
                     {| data_key := data_key th;
                        sorted := String.eqb (data_key th) (sortKey (st w)) |})
                     (headers w);
        requests := requests w |}).

(** [event.target] is [None] when it is not an element. *)
Definition handleSort (event_target : option target) : M unit :=
  match event_target with
  | None => ret tt
  | Some clicked =>
      match attribute_data_key clicked with
      | None => ret tt
      | Some key =>
          if String.eqb key EmptyString then ret tt
          else
            s <~ get_state ;;
            (if String.eqb (sortKey s) key
             then put_state
                    {| people := people s; filtered := filtered s;
                       sortKey := sortKey s;
                       sortDirection :=
                         if String.eqb (sortDirection s) "asc"
                         then "desc" else "asc";
                       selectedId := selectedId s; detail := detail s |}
             else
               put_state
                 {| people := people s; filtered := filtered s;
                    sortKey := key; sortDirection := sortDirection s;
                    selectedId := selectedId s; detail := detail s |} ;;;
               s <~ get_state ;;
               put_state
                 {| people := people s; filtered := filtered s;
                    sortKey := sortKey s; sortDirection := "desc";
                    selectedId := selectedId s; detail := detail s |}) ;;;
            updateSortIndicators ;;;
            updateView
      end
  end.

Definition handleRowSelection (event_target : option target) : M unit :=
  match event_target with
  | None => ret tt
  | Some clicked =>
      match closest_row clicked with
      | None => ret tt
      | Some data_person_id =>
          let personId :=
            Number_parseInt
              (ToString match data_person_id with
                        | Some s => VStr s
                        | None => VUndefined
                        end) in
          if negb (Number_isFinite (VNum personId)) then ret tt
          else
            s <~ get_state ;;
            put_state {| people := people s; filtered := filtered s;
                         sortKey := sortKey s;
                         sortDirection := sortDirection s;
                         selectedId := VNum personId; detail := detail s |} ;;;
            updateView ;;;
            detached (refreshPersonDetail (VNum personId))
      end
  end.

End WithRuntime.
End DashboardPage.

(** ** The forms of the dashboard page ([app/static/app.js], in the
    revision that edits the reference data)

    A submit handler reads its form, sends one request with a method and
    a body, and reloads the dashboard and the reference lists.  The page
    of module [DashboardPage] is part of the world; the forms, the
    reference lists of [state.admin] and the requests sent with a method
    are kept beside it.  The two reloads are not awaited; they write to
    different elements and to different parts of the state, and are run
    one after the other. *)

Module DashboardForms.

(** A form of the page: its controls as they are, and as [form.reset()]
    leaves them. *)
Record form_state : Type := mkForm {
  controls : form;
  initial : form
}.

(** [fetch(endpoint, options)]: the method and the body of the options. *)
Record submission : Type := mkSubmission {
  endpoint : string;
  method : string;
  content : option string
}.

(** [state.admin]. *)
Record admin_lists : Type := mkAdmin {
  households : value;
  persons : value;
  vehicles : value
}.

(** The server behind the forms (what it answers to a request with a
    method, or the error [fetch] rejects with), [JSON.stringify], and the
    message of the [TypeError] that the browser raises. *)
Class Server : Type := {
  send : submission -> result DashboardPage.response;
  JSON_stringify : value -> string;
  TypeError_message : string
}.

Record world : Type := mkWorld {
  page : DashboardPage.world;
  forms : list (string * form_state);
  admin : admin_lists;
  submissions : list submission
}.

Definition M (A : Type) : Type := world -> result A * world.

Definition ret {A : Type} (a : A) : M A := fun w => (Ok a, w).

Definition throw {A : Type} (e : exn) : M A := fun w => (Throw e, w).

Definition lift {A : Type} (r : result A) : M A := fun w => (r, w).

Definition bindM {A B : Type} (m : M A) (k : A -> M B) : M B :=
  fun w =>
    match m w with
    | (Ok a, w') => k a w'
    | (Throw e, w') => (Throw e, w')
    end.

Definition try_catch {A : Type} (body : M A) (handler : exn -> M A) : M A :=
  fun w =>
    match body w with
    | (Ok a, w') => (Ok a, w')
    | (Throw e, w') => handler e w'
    end.

(** A call to an [async] function that is not awaited: it runs, and
    whether it fails is not observed. *)
Definition detached (m : M unit) : M unit :=
  fun w => (Ok tt, snd (m w)).

(** A statement of the dashboard page, run on the page of this world. *)
Definition on_page {A : Type} (m : DashboardPage.M A) : M A :=
  fun w =>
    let (r, p) := m (page w) in
    (r, {| page := p; forms := forms w; admin := admin w;
           submissions := submissions w |}).

Notation "x <~ m ;; k" := (bindM m (fun x => k))
  (at level 61, m at next level, right associativity).
Notation "m ;;; k" := (bindM m (fun _ => k))
  (at level 61, right associativity).

Definition FORM_STATUS_ID : string := "form-status".
Definition ADMIN_STATUS_ID : string := "admin-status".
Definition HOUSEHOLDS_TABLE_ID : string := "households-table".
Definition PERSONS_TABLE_ID : string := "persons-table".
Definition VEHICLES_TABLE_ID : string := "vehicles-table".

Module API_ENDPOINTS.
Definition households : string := "/households".
Definition persons : string := "/persons".
Definition vehicles : string := "/vehicles".
End API_ENDPOINTS.

Fixpoint find_form (formId : string) (fs : list (string * form_state))
  : option form_state :=
  match fs with
  | [] => None
  | (i, f) :: r => if String.eqb formId i then Some f else find_form formId r
  end.

Fixpoint reset_form (formId : string) (fs : list (string * form_state))
  : list (string * form_state) :=
  match fs with
  | [] => []
  | (i, f) :: r =>
      if String.eqb formId i
      then (i, {| controls := initial f; initial := initial f |}) :: r
      else (i, f) :: reset_form formId r
  end.

Section WithRuntime.
Context {RT : Runtime} {CU : CodeUnits} {BR : DashboardPage.Browser}
        {SV : Server}.

(** The form is known by its id from here on: what [getForm] returns is
    the element itself, not a copy of its controls. *)
Definition getForm (formId : string) : M string :=
  fun w =>
    match find_form formId (forms w) with
    | Some _ => (Ok formId, w)
    | None =>
        match DashboardPage.getElementById formId
                (DashboardPage.doc (page w)) with
        | None => (Throw (Error ("Formulaire introuvable: " ++ formId)), w)
        | Some _ => (Throw (Error ("Élément invalide: " ++ formId)), w)
        end
    end.

(** [buildPayload(form)] on the form as it is now.  ([getForm] has found
    the form by then.) *)
Definition build {A : Type} (buildPayload : form -> result A)
    (formId : string) : M A :=
  fun w =>
    match find_form formId (forms w) with
    | Some f => (buildPayload (controls f), w)
    | None => (Throw TypeError, w)
    end.

(** [form.reset()]. *)
Definition reset (formId : string) : M unit :=
  fun w => (Ok tt, {| page := page w; forms := reset_form formId (forms w);
                      admin := admin w; submissions := submissions w |}).

Definition setFormStatus (message : string) : M unit :=
  on_page (DashboardPage.setText FORM_STATUS_ID message).

Definition setAdminStatus (message : string) : M unit :=
  on_page (DashboardPage.setText ADMIN_STATUS_ID message).

(** Everything that is thrown here is an [Error]; the message
    "Erreur inattendue." is kept for other thrown values, and there are
    none. *)
Definition getErrorMessage (error : exn) : string :=
  match error with
  | Error message => message
  | TypeError => TypeError_message
  end.

(** [fetch(endpoint, options)], which the page awaits. *)
Definition request (options : submission) : M DashboardPage.response :=
  fun w => (send options,
            {| page := page w; forms := forms w; admin := admin w;
               submissions := (submissions w ++ [options])%list |}).

Definition sendJson (endpoint method : string) (payload : value) : M value :=
  let options :=
    {| endpoint := endpoint; method := method;
       content := if ToBoolean payload then Some (JSON_stringify payload)
                  else None |} in
  response <~ request options ;;
  let text := DashboardPage.body response in
  if negb (DashboardPage.ok response)
  then throw (Error (if String.eqb text EmptyString
                     then "Erreur " ++
                          Number_toString (DashboardPage.status response)
                     else text))
  else if String.eqb text EmptyString then ret VNull
  else lift (DashboardPage.JSON_parse text).

Definition renderHouseholdsTable (households : value) : M unit :=
  _ <~ on_page (DashboardPage.getElement HOUSEHOLDS_TABLE_ID) ;;
  listed <~ lift (as_array households) ;;
  rows <~ lift (mapM (fun household =>
    id <- get_prop household "id" ;;
    name <- get_prop household "name" ;;
    Ok ("<tr>" ++
          "<td>" ++ ToString id ++ "</td>" ++
          "<td>" ++ ToString name ++ "</td>" ++
        "</tr>")) listed) ;;
  on_page (DashboardPage.show HOUSEHOLDS_TABLE_ID
             (DashboardPage.Markup (join_strings EmptyString rows))).

Definition renderPersonsTable (people : value) : M unit :=
  _ <~ on_page (DashboardPage.getElement PERSONS_TABLE_ID) ;;
  listed <~ lift (as_array people) ;;
  rows <~ lift (mapM (fun person =>
    id <- get_prop person "id" ;;
    household_name <- get_prop person "household_name" ;;
    first_name <- get_prop person "first_name" ;;
    last_name <- get_prop person "last_name" ;;
    Ok ("<tr>" ++
          "<td>" ++ ToString id ++ "</td>" ++
          "<td>" ++ ToString household_name ++ "</td>" ++
          "<td>" ++ ToString first_name ++ " " ++ ToString last_name ++
          "</td>" ++
        "</tr>")) listed) ;;
  on_page (DashboardPage.show PERSONS_TABLE_ID
             (DashboardPage.Markup (join_strings EmptyString rows))).

Definition renderVehiclesTable (vehicles : value) : M unit :=
  _ <~ on_page (DashboardPage.getElement VEHICLES_TABLE_ID) ;;
  listed <~ lift (as_array vehicles) ;;
  rows <~ lift (mapM (fun vehicle =>
    id <- get_prop vehicle "id" ;;
    person_name <- get_prop vehicle "person_name" ;;
    name <- get_prop vehicle "name" ;;
    power_cv <- get_prop vehicle "power_cv" ;;
    Ok ("<tr>" ++
          "<td>" ++ ToString id ++ "</td>" ++
          "<td>" ++ ToString person_name ++ "</td>" ++
          "<td>" ++ ToString name ++ "</td>" ++
          "<td>" ++ ToString power_cv ++ "</td>" ++
        "</tr>")) listed) ;;
  on_page (DashboardPage.show VEHICLES_TABLE_ID
             (DashboardPage.Markup (join_strings EmptyString rows))).

(** [await Promise.all([a, b, c])] on three calls of [getJson]: the three
    requests are sent, in this order, before any answer is looked at, and
    the whole fails when one of them fails.  (Which failure is reported
    depends on the order of the answers; the one caller ignores it.) *)
Definition Promise_all (a b c : M value) : M (value * value * value) :=
  fun w =>
    let (first, w1) := a w in
    let (second, w2) := b w1 in
    let (third, w3) := c w2 in
    (match first, second, third with
     | Ok x, Ok y, Ok z => Ok (x, y, z)
     | Throw e, _, _ => Throw e
     | Ok _, Throw e, _ => Throw e
     | Ok _, Ok _, Throw e => Throw e
     end, w3).

(** [list.length] in a template, on what [map] was just called on. *)
Definition length_text (v : value) : result string :=
  listed <- as_array v ;;
  Ok (Number_toString (DashboardPage.Array_length listed)).

Definition refreshAdminData : M unit :=
  setAdminStatus "Chargement des référentiels..." ;;;
  try_catch
    (answers <~ Promise_all
                  (on_page (DashboardPage.getJson API_ENDPOINTS.households))
                  (on_page (DashboardPage.getJson API_ENDPOINTS.persons))
                  (on_page (DashboardPage.getJson API_ENDPOINTS.vehicles)) ;;
     let '(households, persons, vehicles) := answers in
     (fun w => (Ok tt, {| page := page w; forms := forms w;
                          admin := {| households := households;
                                      persons := persons;
                                      vehicles := vehicles |};
                          submissions := submissions w |})) ;;;
     renderHouseholdsTable households ;;;
     renderPersonsTable persons ;;;
     renderVehiclesTable vehicles ;;;
     h <~ lift (length_text households) ;;
     p <~ lift (length_text persons) ;;
     v <~ lift (length_text vehicles) ;;
     setAdminStatus (h ++ " foyers · " ++ p ++ " personnes · " ++ v ++
                     " véhicules."))
    (fun _ => setAdminStatus "Impossible de charger les référentiels.").

(** [event.preventDefault()] touches nothing of the world. *)
Definition handleFormSubmit (formId endpoint : string)
    (buildPayload : form -> result value) (successMessage : string)
  : M unit :=
  form <~ getForm formId ;;
  setFormStatus "Envoi des données..." ;;;
  try_catch
    (payload <~ build buildPayload form ;;
     _ <~ sendJson endpoint "POST" payload ;;
     reset form ;;;
     setFormStatus successMessage ;;;
     detached (on_page DashboardPage.refreshDashboard) ;;;
     detached refreshAdminData)
    (fun error => setFormStatus (getErrorMessage error)).

Definition handleUpdateFormSubmit (formId endpoint : string)
    (buildPayload : form -> result value) (successMessage : string)
  : M unit :=
  form <~ getForm formId ;;
  setFormStatus "Mise à jour en cours..." ;;;
  try_catch
    (built <~ build buildPayload form ;;
     id <~ lift (get_prop built "id") ;;
     payload <~ lift (get_prop built "payload") ;;
     _ <~ sendJson (endpoint ++ "/" ++ ToString id) "PUT" payload ;;
     reset form ;;;
     setFormStatus successMessage ;;;
     detached (on_page DashboardPage.refreshDashboard) ;;;
     detached refreshAdminData)
    (fun error => setFormStatus (getErrorMessage error)).

Definition handleDeleteFormSubmit (formId endpoint : string)
    (buildId : form -> result float) (successMessage : string)
  : M unit :=
  form <~ getForm formId ;;
  setFormStatus "Suppression en cours..." ;;;
  try_catch
    (id <~ build buildId form ;;
     _ <~ sendJson (endpoint ++ "/" ++ Number_toString id) "DELETE"
            VUndefined ;;
     reset form ;;;
     setFormStatus successMessage ;;;
     detached (on_page DashboardPage.refreshDashboard) ;;;
     detached refreshAdminData)
    (fun error => setFormStatus (getErrorMessage error)).

End WithRuntime.
End DashboardForms.

(** ** Administration page, in the revision that writes its tables as
    markup ([app/static/admin.js])

    There the mileage scale shows three brackets for each fiscal power,
    and the page remembers which row menu is open.  [formatCurrency] and
    [formatNumber] are those of the dashboard, word for word. *)

Module AdminMarkup.

Definition MILEAGE_SCALE_TABLE_ID : string := "admin-mileage-scale".

(** The markup of the elements of the page, by [id]. *)
Definition document : Type := list (string * string).

Fixpoint getElementById (id : string) (d : document) : option string :=
  match d with
  | [] => None
  | (i, html) :: r => if String.eqb id i then Some html else getElementById id r
  end.

Fixpoint setInnerHTML (id : string) (html : string) (d : document)
  : document :=
  match d with
  | [] => []
  | (i, old) :: r =>
      if String.eqb id i then (i, html) :: r
      else (i, old) :: setInnerHTML id html r
  end.

(** The row menus, each known by a number of its own: which of them
    carry the class "menu-open", and [state.openMenu]. *)
Record menus : Type := mkMenus {
  menu_open : nat -> bool;
  openMenu : option nat
}.

Definition closeOpenMenu (m : menus) : menus :=
  match openMenu m with
  | None => m
  | Some opened =>
      {| menu_open := fun j => if Nat.eqb j opened then false
                               else menu_open m j;
         openMenu := None |}
  end.

(** [closest] is the menu around the trigger, [trigger.closest(".row-actions")],
    if there is one. *)
Definition toggleMenu (closest : option nat) (m : menus) : menus :=
  match closest with
  | None => m
  | Some menu =>
      let m1 :=
        match openMenu m with
        | Some opened => if negb (Nat.eqb opened menu) then closeOpenMenu m
                         else m
        | None => m
        end in
      let toggled := negb (menu_open m1 menu) in
      {| menu_open := fun j => if Nat.eqb j menu then toggled
                               else menu_open m1 j;
         openMenu := if toggled then Some menu else None |}
  end.

Section WithRuntime.
Context {RT : Runtime} {CU : CodeUnits}.

Definition formatScaleLabel (rate fixed : value) : string :=
  let rateLabel := Dashboard.formatNumber rate 3 ++ " €/km" in
  if negb (ToBoolean fixed) then rateLabel
  else rateLabel ++ " + " ++ Dashboard.formatCurrency fixed.

(** The callback of [scale.map] in [renderMileageScale]. *)
Definition scaleRow (entry : value) : result string :=
  brackets <- get_prop entry "brackets" ;;
  first <- get_index brackets 0 ;;
  brackets <- get_prop entry "brackets" ;;
  second <- get_index brackets 1 ;;
  brackets <- get_prop entry "brackets" ;;
  third <- get_index brackets 2 ;;
  power_cv <- get_prop entry "power_cv" ;;
  first_rate <- get_prop first "rate" ;;
  first_fixed <- get_prop first "fixed" ;;
  second_rate <- get_prop second "rate" ;;
  second_fixed <- get_prop second "fixed" ;;
  third_rate <- get_prop third "rate" ;;
  third_fixed <- get_prop third "fixed" ;;
  Ok ("<tr>" ++
        "<td>" ++ ToString power_cv ++ "</td>" ++
        "<td>" ++ formatScaleLabel first_rate first_fixed ++ "</td>" ++
        "<td>" ++ formatScaleLabel second_rate second_fixed ++ "</td>" ++
        "<td>" ++ formatScaleLabel third_rate third_fixed ++ "</td>" ++
      "</tr>").

Definition renderMileageScale (scale : value) (d : document)
  : result unit * document :=
  match getElementById MILEAGE_SCALE_TABLE_ID d with
  | None =>
      (Throw (Error ("Element introuvable: " ++ MILEAGE_SCALE_TABLE_ID)), d)
  | Some _ =>
      match (entries <- as_array scale ;; mapM scaleRow entries) with
      | Ok rows =>
          (Ok tt, setInnerHTML MILEAGE_SCALE_TABLE_ID
                    (join_strings EmptyString rows) d)
      | Throw e => (Throw e, d)
      end
  end.

End WithRuntime.
End AdminMarkup.

(** ** A reference runtime

    An executable instance of [Runtime] for plain inputs: ASCII text,
    decimal numerals, the French number format.  Conversions between
    decimal numerals and binary64 are correctly rounded.  It is used to run
    the code on concrete inputs; no general statement depends on it. *)

Module Reference.

(** The float nearest to [sign * m * 2^e], ties to even. *)
Definition round_binary (negative : bool) (m e : Z) : float :=
  match m with
  | Z.pos p => SF2Prim (binary_round prec emax negative p e)
  | _ => if negative then (-0)%float else 0%float
  end.

(** The float nearest to [n / d], ties to even: the quotient is taken with
    at least 64 significant bits and a sticky bit for the remainder. *)
Definition float_of_fraction (negative : bool) (n d : Z) : float :=
  if (n <=? 0)%Z || (d <=? 0)%Z
  then (if negative then (-0)%float else 0%float)
  else
    let k := Z.max 0 (64 + Z.log2 d - Z.log2 n) in
    let scaled := (n * 2 ^ k)%Z in
    let sticky := if (scaled mod d =? 0)%Z then 0%Z else 1%Z in
    round_binary negative (2 * (scaled / d) + sticky) (- k - 1).

(** The float nearest to [sign * m * 10^e]. *)
Definition float_of_decimal (negative : bool) (m e : Z) : float :=
  if (0 <=? e)%Z then float_of_fraction negative (m * 10 ^ e) 1
  else float_of_fraction negative m (10 ^ (- e)).

(** *** Reading numerals *)

Definition is_digit (c : ascii) : bool :=
  let n := nat_of_ascii c in Nat.leb 48 n && Nat.leb n 57.

Definition digit_value (c : ascii) : Z := Z.of_nat (nat_of_ascii c - 48).

Definition is_space (c : ascii) : bool :=
  let n := nat_of_ascii c in
  Nat.eqb n 32 || (Nat.leb 9 n && Nat.leb n 13).

Fixpoint skip_spaces (s : string) : string :=
  match s with
  | String c r => if is_space c then skip_spaces r else s
  | EmptyString => s
  end.

(** The digits at the head of [s]: their value, how many there are, and
    what follows them. *)
Fixpoint read_digits (acc : Z) (count : nat) (s : string) : Z * nat * string :=
  match s with
  | String c r =>
      if is_digit c then read_digits (10 * acc + digit_value c) (S count) r
      else (acc, count, s)
  | EmptyString => (acc, count, s)
  end.

Definition read_sign (s : string) : bool * string :=
  match s with
  | String "-"%char r => (true, r)
  | String "+"%char r => (false, r)
  | _ => (false, s)
  end.

Definition parseInt (s : string) : float :=
  let (negative, r) := read_sign (skip_spaces s) in
  match read_digits 0 0 r with
  | (_, O, _) => PrimFloat.nan
  | (n, S _, _) => float_of_fraction negative n 1
  end.

(** An exponent part [e], [e+] or [e-] followed by digits; [0] and the
    untouched input when there is none. *)
Definition read_exponent (s : string) : Z * string :=
  match s with
  | String c r =>
      if Ascii.eqb c "e"%char || Ascii.eqb c "E"%char then
        let (negative, r') := read_sign r in
        match read_digits 0 0 r' with
        | (_, O, _) => (0%Z, s)
        | (n, S _, rest) => ((if negative then - n else n)%Z, rest)
        end
      else (0%Z, s)
  | EmptyString => (0%Z, s)
  end.

(** The longest decimal literal at the head of [s], and what follows it. *)
Definition read_decimal (s : string) : option (float * string) :=
  let (negative, r) := read_sign s in
  if prefix_of "Infinity" r
  then Some (if negative then PrimFloat.neg_infinity else PrimFloat.infinity,
             String.substring 8 (String.length r - 8) r)
  else
    match read_digits 0 0 r with
    | (int_part, int_count, after_int) =>
        let '(mantissa, frac_count, after_frac, has_point) :=
          match after_int with
          | String "."%char r' =>
              match read_digits int_part 0 r' with
              | (m, k, rest) => (m, k, rest, true)
              end
          | _ => (int_part, O, after_int, false)
          end in
        match int_count, frac_count with
        | O, O => None
        | _, _ =>
            let (exponent, rest) := read_exponent after_frac in
            Some (float_of_decimal negative mantissa
                    (exponent - Z.of_nat frac_count), rest)
        end
    end.

Definition parseFloat (s : string) : float :=
  match read_decimal (skip_spaces s) with
  | Some (x, _) => x
  | None => PrimFloat.nan
  end.

Fixpoint rev_string (acc s : string) : string :=
  match s with
  | EmptyString => acc
  | String c r => rev_string (String c acc) r
  end.

Definition trim (s : string) : string :=
  rev_string EmptyString
    (skip_spaces (rev_string EmptyString (skip_spaces s))).

(** Decimal literals only; the empty string is [0]. *)
Definition string_to_number (s : string) : float :=
  match trim s with
  | EmptyString => 0%float
  | t =>
      match read_decimal t with
      | Some (x, EmptyString) => x
      | _ => PrimFloat.nan
      end
  end.

(** *** Case and collation *)

Definition lower_ascii (c : ascii) : ascii :=
  let n := nat_of_ascii c in
  if Nat.leb 65 n && Nat.leb n 90 then ascii_of_nat (n + 32) else c.

Fixpoint toLowerCase (s : string) : string :=
  match s with
  | EmptyString => EmptyString
  | String c r => String (lower_ascii c) (toLowerCase r)
  end.

(** Letters first compare without case; lower case goes first in a tie. *)
Definition localeCompare (s t : string) : float :=
  match String.compare (toLowerCase s) (toLowerCase t) with
  | Lt => (-1)%float
  | Gt => 1%float
  | Eq =>
      match String.compare t s with
      | Lt => (-1)%float
      | Gt => 1%float
      | Eq => 0%float
      end
  end.

(** *** Writing numerals *)

Fixpoint digits_of (fuel : nat) (n : Z) (acc : string) : string :=
  match fuel with
  | O => acc
  | S fuel' =>
      let acc' := String (ascii_of_nat (48 + Z.to_nat (n mod 10))) acc in
      if (n <? 10)%Z then acc' else digits_of fuel' (n / 10) acc'
  end.

(** The decimal digits of a natural number. *)
Definition string_of_Z (n : Z) : string :=
  digits_of (S (Z.to_nat (Z.log2 n))) n EmptyString.

Fixpoint zeros (k : nat) : string :=
  match k with
  | O => EmptyString
  | S k' => String "0"%char (zeros k')
  end.

(** [|q| * 10^d] rounded to an integer, halves away from zero. *)
Definition scaled_round (q : Q) (d : nat) : Z :=
  let a := Qabs q in
  Qfloor (a * inject_Z (10 ^ Z.of_nat d) + (1 # 2)).

Definition pad_left (width : nat) (s : string) : string :=
  zeros (width - String.length s) ++ s.

Definition toFixed (x : float) (d : nat) : string :=
  if PrimFloat.is_nan x then "NaN"
  else if PrimFloat.is_infinity x
  then (if is_negative x then "-Infinity" else "Infinity")
  else
    let q := Q_of_float x in
    let digits := pad_left (S d) (string_of_Z (scaled_round q d)) in
    let int_len := (String.length digits - d)%nat in
    (if Qlt_le_dec q 0 then "-" else EmptyString) ++
    String.substring 0 int_len digits ++
    match d with
    | O => EmptyString
    | S _ => "." ++ String.substring int_len d digits
    end.

(** The narrow no-break space that separates groups of three digits, and
    the no-break space before the currency sign. *)
Definition NNBSP : string :=
  String (ascii_of_nat 226) (String (ascii_of_nat 128)
    (String (ascii_of_nat 175) EmptyString)).
Definition NBSP : string :=
  String (ascii_of_nat 194) (String (ascii_of_nat 160) EmptyString).

Fixpoint group_digits (fuel : nat) (s : string) : string :=
  match fuel with
  | O => s
  | S fuel' =>
      let n := String.length s in
      if Nat.leb n 3 then s
      else group_digits fuel' (String.substring 0 (n - 3) s) ++ NNBSP ++
           String.substring (n - 3) 3 s
  end.

Fixpoint strip_zeros (s : string) : string :=
  match s with
  | EmptyString => EmptyString
  | String c r =>
      match strip_zeros r with
      | EmptyString => if Ascii.eqb c "0"%char then EmptyString else String c EmptyString
      | r' => String c r'
      end
  end.

(** French grouping and decimal comma, between [min] and [max] fraction
    digits. *)
Definition format_french (x : float) (min max : nat) : string :=
  let q := Q_of_float x in
  let digits := pad_left (S max) (string_of_Z (scaled_round q max)) in
  let int_len := (String.length digits - max)%nat in
  let int_part := String.substring 0 int_len digits in
  let frac := String.substring int_len max digits in
  let frac := String.substring 0 min frac ++
              strip_zeros (String.substring min (max - min) frac) in
  (if is_negative x then "-" else EmptyString) ++
  group_digits (String.length int_part) int_part ++
  match frac with
  | EmptyString => EmptyString
  | _ => "," ++ frac
  end.

Definition format_currency (x : float) : string :=
  format_french x 2 2 ++ NBSP ++ "€".

Definition format_decimal (max : nat) (x : float) : string :=
  format_french x 0 max.

(** The decimal exponent [n] with [10^(n-1) <= q < 10^n], for [q > 0]. *)
Fixpoint decimal_exponent_up (fuel : nat) (q : Q) (n : Z) : Z :=
  match fuel with
  | O => n
  | S fuel' =>
      if Qle_bool (inject_Z (10 ^ n)) q then decimal_exponent_up fuel' q (n + 1)
      else n
  end.

Fixpoint decimal_exponent_down (fuel : nat) (q : Q) (n : Z) : Z :=
  match fuel with
  | O => n
  | S fuel' =>
      if Qle_bool (1 # Z.to_pos (10 ^ (1 - n))) q then n
      else decimal_exponent_down fuel' q (n - 1)
  end.

Definition decimal_exponent (q : Q) : Z :=
  if Qle_bool 1 q then decimal_exponent_up 400 q 1
  else decimal_exponent_down 400 q 0.

(** [m * 10^e] as a rational. *)
Definition decimal_value (m e : Z) : Q :=
  if (0 <=? e)%Z then inject_Z (m * 10 ^ e)
  else Qmake m (Z.to_pos (10 ^ (- e))).

(** The shortest digit string that reads back as [x] (a positive finite
    float of decimal exponent [n]): for each length the two neighbours of
    the exact value are tried, the nearer first. *)
Fixpoint shortest_digits (fuel : nat) (k : nat) (x : float) (q : Q) (n : Z)
  : Z * nat :=
  match fuel with
  | O => (0%Z, k)
  | S fuel' =>
      let e := (n - Z.of_nat k)%Z in
      let lo := Qfloor (q / decimal_value 1 e) in
      let hi := (lo + 1)%Z in
      let ok m := PrimFloat.eqb (float_of_decimal false m e) x in
      let lo_nearer :=
        Qle_bool (q - decimal_value lo e) (decimal_value hi e - q) in
      let first := if lo_nearer then lo else hi in
      let second := if lo_nearer then hi else lo in
      if ok first then (first, k)
      else if ok second then (second, k)
      else shortest_digits fuel' (S k) x q n
  end.

Definition toString (x : float) : string :=
  if PrimFloat.is_nan x then "NaN"
  else if PrimFloat.is_infinity x
  then (if is_negative x then "-Infinity" else "Infinity")
  else if PrimFloat.eqb x 0%float then "0"
  else
    let q := Qabs (Q_of_float x) in
    let n0 := decimal_exponent q in
    let (m, k) := shortest_digits 17 1 (PrimFloat.abs x) q n0 in
    let m_digits := string_of_Z m in
    (* rounding up may have produced one more digit, as in 9.5 -> 10 *)
    let n := (n0 + Z.of_nat (String.length m_digits - k))%Z in
    let digits := strip_zeros m_digits in
    let k := Z.of_nat (String.length digits) in
    let sign := if is_negative x then "-" else EmptyString in
    sign ++
    if ((k <=? n) && (n <=? 21))%Z
    then digits ++ zeros (Z.to_nat (n - k))
    else if ((0 <? n) && (n <=? 21))%Z
    then String.substring 0 (Z.to_nat n) digits ++ "." ++
         String.substring (Z.to_nat n) (Z.to_nat (k - n)) digits
    else if ((-6 <? n) && (n <=? 0))%Z
    then "0." ++ zeros (Z.to_nat (- n)) ++ digits
    else
      let exponent := (n - 1)%Z in
      let e_sign := if (exponent <? 0)%Z then "-" else "+" in
      String.substring 0 1 digits ++
      (if (k =? 1)%Z then EmptyString
       else "." ++ String.substring 1 (Z.to_nat (k - 1)) digits) ++
      "e" ++ e_sign ++ string_of_Z (Z.abs exponent).

Definition runtime : Runtime := {|
  Intl_format_currency := format_currency;
  Intl_format_decimal := format_decimal;
  Number_toString := toString;
  Number_toFixed := toFixed;
  Number_parseInt := parseInt;
  Number_parseFloat := parseFloat;
  String_trim := trim;
  String_length := String.length;
  String_toLowerCase := toLowerCase;
  String_localeCompare := localeCompare;
  StringToNumber := string_to_number
|}.

End Reference.


(** ** The computation engine (module [Core])

    The engine is the Python package behind the REST API; none of its files
    is among the sources.  Every definition of this module is written from
    the specification (sections 3, 4 and 7) and says so.  Decimals are
    rationals, so the arithmetic is exact. *)

Module Core.

Local Open Scope Q_scope.

(** Modelled from the spec: the error kinds of section 7; the engine's
    error handling is missing from the sources. *)
Inductive error : Type :=
| InvalidAmount
| UnknownFiscalPower
| InvalidPeriod.

(** Modelled from the spec: a computation that ends in a value or in one of
    the error kinds, "surfaced to the caller as distinct, recoverable
    conditions"; the engine's own result type is missing. *)
Inductive outcome (A : Type) : Type :=
| Done (a : A)
| Failed (e : error).
Arguments Done {A} a.
Arguments Failed {A} e.

(** Modelled from the spec: sequencing of steps that may fail; the first
    error ends the computation (section 7). *)
Definition and_then {A B : Type} (o : outcome A) (k : A -> outcome B)
  : outcome B :=
  match o with
  | Done a => k a
  | Failed e => Failed e
  end.

Notation "x <-- o ;; k" := (and_then o (fun x => k))
  (at level 61, o at next level, right associativity).

(** Modelled from the spec: one step per row, in row order. *)
Fixpoint for_each {A B : Type} (f : A -> outcome B) (l : list A)
  : outcome (list B) :=
  match l with
  | [] => Done []
  | x :: r => y <-- f x ;; ys <-- for_each f r ;; Done (y :: ys)
  end.

Module Vehicle.
(** Modelled from the spec: the Vehicle of section 3, as the core consumes
    it; the engine's data classes are missing. *)
Record t : Type := make { vehicle_id : Z; fiscal_power_cv : Z }.
End Vehicle.

Module MileageEntry.
(** Modelled from the spec: the MileageEntry of section 3. *)
Record t : Type := make {
  person_id : Z; vehicle_id : Z; year : Z; month : Z; km : Q
}.
End MileageEntry.

Module MealEntry.
(** Modelled from the spec: the MealEntry of section 3. *)
Record t : Type := make {
  person_id : Z; year : Z; month : Z; meal_cost : Q
}.
End MealEntry.

Module OtherExpenseEntry.
(** Modelled from the spec: the OtherExpenseEntry of section 3. *)
Record t : Type := make {
  person_id : Z; year : Z; description : string; amount : Q;
  attachment_path : option string
}.
End OtherExpenseEntry.

(** Modelled from the spec: one bracket of the MileageScale of section 3;
    [None] is the unbounded [upper_km_bound]. *)
Record Bracket : Type := mkBracket {
  upper_km_bound : option Q;
  rate_per_km : Q;
  fixed_allowance : Q
}.

(** Modelled from the spec: the scale of section 3, "keyed by [power_cv],
    each with an ordered bracket list". *)
Record ScaleEntry : Type := mkScaleEntry {
  power_cv : Z;
  brackets : list Bracket
}.

(** Modelled from the spec: the whole table, one entry per fiscal power. *)
Definition MileageScale : Type := list ScaleEntry.

(** Modelled from the spec: the MealCapConfig of section 3. *)
Record MealCapConfig : Type := mkMealCapConfig {
  daily_floor : Q;
  daily_ceiling : Q
}.

(** Modelled from the spec: the entries handed to the aggregator (section
    6), with the vehicles they refer to. *)
Record Entries : Type := mkEntries {
  vehicles : list Vehicle.t;
  mileage : list MileageEntry.t;
  meals : list MealEntry.t;
  others : list OtherExpenseEntry.t
}.

(** Modelled from the spec: the PersonAnnualDetail of section 3, with the
    field names of section 6. *)
Record PersonAnnualDetail : Type := mkPersonAnnualDetail {
  mileage_entries : list MileageEntry.t;
  meal_expenses : list MealEntry.t;
  other_expenses : list OtherExpenseEntry.t;
  mileage_total_km : Q;
  mileage_deduction_total : Q;
  meals_deduction_total : Q;
  other_expenses_total : Q;
  total_deduction : Q
}.

(** Modelled from the spec: "round the final amount to 2 decimal places
    using standard rounding (round-half-up)" (section 4.1). *)
Definition round2 (q : Q) : Q := Qfloor (q * 100 + (1 # 2)) # 100.

(** Modelled from the spec: the sums of sections 4.2 and 4.5. *)
Definition Qsum (l : list Q) : Q := fold_right Qplus 0 l.

(** Modelled from the spec: the scale entry of a fiscal power. *)
Fixpoint lookup_scale (cv : Z) (scale : MileageScale) : option (list Bracket) :=
  match scale with
  | [] => None
  | e :: r => if (power_cv e =? cv)%Z then Some (brackets e) else lookup_scale cv r
  end.

(** Modelled from the spec: [annual_km] does not exceed the bracket's
    bound, which is inclusive (section 4.1). *)
Definition covers (annual_km : Q) (b : Bracket) : bool :=
  match upper_km_bound b with
  | None => true
  | Some u => Qle_bool annual_km u
  end.

(** Modelled from the spec: "locate the bracket whose [upper_km_bound] is
    the smallest one >= [annual_km]", by the linear scan over the ordered
    list that section 9 suggests. *)
Fixpoint locate_bracket (annual_km : Q) (bs : list Bracket) : option Bracket :=
  match bs with
  | [] => None
  | b :: r => if covers annual_km b then Some b else locate_bracket annual_km r
  end.

(** Modelled from the spec: the formula of one bracket, before rounding
    (section 4.1). *)
Definition bracket_formula (b : Bracket) (annual_km : Q) : Q :=
  annual_km * rate_per_km b + fixed_allowance b.

(** Modelled from the spec: the Mileage Deduction Resolver of section 4.1.
    A fiscal power without a scale entry fails (the documented choice here
    is to fail rather than to clamp); so does a scale none of whose
    brackets covers the distance. *)
Definition resolve_mileage_deduction (fiscal_power_cv : Z) (annual_km : Q)
    (scale : MileageScale) : outcome Q :=
  if Qle_bool 0 annual_km then
    match lookup_scale fiscal_power_cv scale with
    | None => Failed UnknownFiscalPower
    | Some bs =>
        match locate_bracket annual_km bs with
        | None => Failed UnknownFiscalPower
        | Some b => Done (round2 (bracket_formula b annual_km))
        end
    end
  else Failed InvalidAmount.

(** Modelled from the spec: section 4.2, the sum of [km] over the rows of
    one vehicle and year. *)
Definition aggregate_vehicle_km (entries : list MileageEntry.t) : Q :=
  Qsum (map MileageEntry.km entries).

(** Modelled from the spec: the Meal Deduction Resolver of section 4.3,
    with the rule the specification calls dominant: nothing below the
    floor, the cost itself up to the ceiling, the ceiling above it. *)
Definition resolve_meal_deduction (meal_cost : Q) (cap_config : MealCapConfig)
  : Q :=
  if Qle_bool (daily_floor cap_config) meal_cost then
    if Qle_bool meal_cost (daily_ceiling cap_config)
    then meal_cost
    else daily_ceiling cap_config
  else 0.

(** Modelled from the spec: section 4.4, the identity with validation. *)
Definition resolve_other_expense (amount : Q) : outcome Q :=
  if Qle_bool 0 amount then Done amount else Failed InvalidAmount.

(** Modelled from the spec: the period domain of section 6. *)
Definition valid_year (y : Z) : bool := ((2000 <=? y) && (y <=? 2100))%Z.

(** Modelled from the spec: the months of section 3. *)
Definition valid_month (m : Z) : bool := ((1 <=? m) && (m <=? 12))%Z.

(** Modelled from the spec: the fiscal power of a vehicle (section 3). *)
Fixpoint vehicle_power (vehicle_id : Z) (vs : list Vehicle.t) : option Z :=
  match vs with
  | [] => None
  | v :: r =>
      if (Vehicle.vehicle_id v =? vehicle_id)%Z
      then Some (Vehicle.fiscal_power_cv v)
      else vehicle_power vehicle_id r
  end.

(** Modelled from the spec: the groups of section 4.5, that is the
    vehicles that occur in the entries, each once, in order of first
    occurrence. *)
Fixpoint vehicle_ids (seen : list Z) (entries : list MileageEntry.t) : list Z :=
  match entries with
  | [] => []
  | e :: r =>
      let v := MileageEntry.vehicle_id e in
      if existsb (Z.eqb v) seen then vehicle_ids seen r
      else v :: vehicle_ids (v :: seen) r
  end.

(** Modelled from the spec: the rows of one group. *)
Definition entries_of_vehicle (vehicle_id : Z) (entries : list MileageEntry.t)
  : list MileageEntry.t :=
  filter (fun e => (MileageEntry.vehicle_id e =? vehicle_id)%Z) entries.

(** Modelled from the spec: one group of section 4.5, that is 4.2 followed
    by 4.1 for one vehicle. *)
Definition vehicle_deduction (vs : list Vehicle.t) (scale : MileageScale)
    (entries : list MileageEntry.t) (vehicle_id : Z) : outcome Q :=
  match vehicle_power vehicle_id vs with
  | None => Failed UnknownFiscalPower
  | Some cv =>
      resolve_mileage_deduction cv
        (aggregate_vehicle_km (entries_of_vehicle vehicle_id entries)) scale
  end.

(** Modelled from the spec: the defensive validation of section 7, for a
    mileage row, a meal row and another expense. *)
Definition check_mileage (e : MileageEntry.t) : outcome unit :=
  if negb (valid_year (MileageEntry.year e) && valid_month (MileageEntry.month e))
  then Failed InvalidPeriod
  else if Qle_bool 0 (MileageEntry.km e) then Done tt
  else Failed InvalidAmount.

(** Modelled from the spec: see [check_mileage]. *)
Definition check_meal (e : MealEntry.t) : outcome unit :=
  if negb (valid_year (MealEntry.year e) && valid_month (MealEntry.month e))
  then Failed InvalidPeriod
  else if Qle_bool 0 (MealEntry.meal_cost e) then Done tt
  else Failed InvalidAmount.

(** Modelled from the spec: see [check_mileage]; the amount goes through
    the resolver of section 4.4. *)
Definition check_other (e : OtherExpenseEntry.t) : outcome Q :=
  if negb (valid_year (OtherExpenseEntry.year e))
  then Failed InvalidPeriod
  else resolve_other_expense (OtherExpenseEntry.amount e).

(** Modelled from the spec: the Annual Aggregator of section 4.5.  The
    entries of the person and year are selected, validated (section 7) and
    reduced; each category total is rounded to two decimals and the grand
    total is the rounded sum of the three rounded totals. *)
Definition compute_person_annual_detail (person_id year : Z) (entries : Entries)
    (scale : MileageScale) (cap_config : MealCapConfig)
  : outcome PersonAnnualDetail :=
  let mileage_rows :=
    filter (fun e => (MileageEntry.person_id e =? person_id)%Z &&
                     (MileageEntry.year e =? year)%Z) (mileage entries) in
  let meal_rows :=
    filter (fun e => (MealEntry.person_id e =? person_id)%Z &&
                     (MealEntry.year e =? year)%Z) (meals entries) in
  let other_rows :=
    filter (fun e => (OtherExpenseEntry.person_id e =? person_id)%Z &&
                     (OtherExpenseEntry.year e =? year)%Z) (others entries) in
  _ <-- for_each check_mileage mileage_rows ;;
  _ <-- for_each check_meal meal_rows ;;
  amounts <-- for_each check_other other_rows ;;
  deductions <-- for_each (vehicle_deduction (vehicles entries) scale mileage_rows)
                          (vehicle_ids [] mileage_rows) ;;
  let mileage_total := round2 (Qsum deductions) in
  let meals_total :=
    round2 (Qsum (map (fun e => resolve_meal_deduction (MealEntry.meal_cost e)
                                  cap_config) meal_rows)) in
  let other_total := round2 (Qsum amounts) in
  Done {| mileage_entries := mileage_rows;
          meal_expenses := meal_rows;
          other_expenses := other_rows;
          mileage_total_km := aggregate_vehicle_km mileage_rows;
          mileage_deduction_total := mileage_total;
          meals_deduction_total := meals_total;
          other_expenses_total := other_total;
          total_deduction := round2 (mileage_total + meals_total + other_total) |}.

(** Modelled from the spec: the invariant of section 3 on the brackets of
    one fiscal power, strictly increasing bounds and the last one
    unbounded. *)
Fixpoint well_formed (bs : list Bracket) : bool :=
  match bs with
  | [] => false
  | b :: r =>
      match r with
      | [] => match upper_km_bound b with None => true | Some _ => false end
      | b' :: _ =>
          match upper_km_bound b with
          | None => false
          | Some u =>
              match upper_km_bound b' with
              | None => true
              | Some u' => negb (Qle_bool u' u)
              end && well_formed r
          end
      end
  end.

(** Modelled from the spec: the order on bounds, [None] being the
    unbounded one. *)
Definition bound_le (a b : option Q) : Prop :=
  match a, b with
  | _, None => True
  | None, Some _ => False
  | Some x, Some y => x <= y
  end.

End Core.

(** ** Vocabulary of the statements *)

Set Warnings "-inexact-float".

(** [Subsequence s l]: [s] is [l] with some elements left out, the others
    in their order. *)
Inductive Subsequence {A : Type} : list A -> list A -> Prop :=
| Subsequence_nil : Subsequence [] []
| Subsequence_keep (x : A) (s l : list A) :
    Subsequence s l -> Subsequence (x :: s) (x :: l)
| Subsequence_drop (x : A) (s l : list A) :
    Subsequence s l -> Subsequence s (x :: l).

(** Two objects agree on a list of names. *)
Definition agree_on (names : list string) (a b : object) : Prop :=
  forall k, In k names -> get a k = get b k.

(** A comparator answers on a set of values when it does not throw on any
    two of them. *)
Definition answers (cmp : value -> value -> result float) (P : value -> Prop)
  : Prop :=
  forall x y, P x -> P y -> exists c, cmp x y = Ok c.

(** What [formatCurrency] treats as invalid: [NaN], an infinity, or a value
    that is not a number. *)
Definition not_a_finite_number (v : value) : Prop :=
  match v with
  | VNum n => PrimFloat.is_nan n = true \/ PrimFloat.is_infinity n = true
  | _ => True
  end.

(** *** Form submissions *)

Section FormRules.
Context {RT : Runtime}.

(** The trimmed text of the input control called [name], if the form has
    one. *)
Definition field (f : form) (name : string) : option string :=
  match namedItem name f with
  | Some (HTMLInputElement v) => Some (String_trim v)
  | _ => None
  end.

(** [s] reads, with [Number.parseInt], as a finite number between [lo]
    and [hi] (no upper limit when [hi] is [None]). *)
Definition integer_within (lo : float) (hi : option float) (s : string)
  : bool :=
  let n := Number_parseInt s in
  Number_isFinite (VNum n) && PrimFloat.leb lo n &&
  match hi with Some h => PrimFloat.leb n h | None => true end.

(** [s] reads, with [Number.parseFloat], as a finite number that is at
    least [lo]. *)
Definition decimal_at_least (lo : float) (s : string) : bool :=
  let x := Number_parseFloat s in
  Number_isFinite (VNum x) && PrimFloat.leb lo x.

(** [s] is not empty and has at most [maxLength] code units. *)
Definition text_within (maxLength : nat) (s : string) : bool :=
  negb (String.eqb s EmptyString) && Nat.leb (String_length s) maxLength.

(** What the mileage form is accepted with: every one of its five
    controls is an input, the identifiers are integers from 1, the year
    lies in 2000..2100, the month in 1..12, and the distance is a finite
    number from 0. *)
Definition accepted_mileage (f : form) : option value :=
  match field f "person_id", field f "vehicle_id", field f "year",
        field f "month", field f "km" with
  | Some p, Some v, Some y, Some m, Some k =>
      if integer_within 1 None p && integer_within 1 None v &&
         integer_within 2000 (Some 2100%float) y &&
         integer_within 1 (Some 12%float) m && decimal_at_least 0 k
      then Some (VObj [("person_id", VNum (Number_parseInt p));
                       ("vehicle_id", VNum (Number_parseInt v));
                       ("year", VNum (Number_parseInt y));
                       ("month", VNum (Number_parseInt m));
                       ("km", VNum (Number_parseFloat k))])
      else None
  | _, _, _, _, _ => None
  end.

(** The same for a meal: person, year, month and a cost from 0. *)
Definition accepted_meal (f : form) : option value :=
  match field f "person_id", field f "year", field f "month",
        field f "meal_cost" with
  | Some p, Some y, Some m, Some c =>
      if integer_within 1 None p &&
         integer_within 2000 (Some 2100%float) y &&
         integer_within 1 (Some 12%float) m && decimal_at_least 0 c
      then Some (VObj [("person_id", VNum (Number_parseInt p));
                       ("year", VNum (Number_parseInt y));
                       ("month", VNum (Number_parseInt m));
                       ("meal_cost", VNum (Number_parseFloat c))])
      else None
  | _, _, _, _ => None
  end.

(** Another expense has no month; its description is required and holds
    at most 160 code units; an empty attachment path is sent as [null]. *)
Definition accepted_other (f : form) : option value :=
  match field f "person_id", field f "year", field f "description",
        field f "amount", field f "attachment_path" with
  | Some p, Some y, Some d, Some a, Some path =>
      if integer_within 1 None p &&
         integer_within 2000 (Some 2100%float) y &&
         text_within 160 d && decimal_at_least 0 a
      then Some (VObj [("person_id", VNum (Number_parseInt p));
                       ("year", VNum (Number_parseInt y));
                       ("description", VStr d);
                       ("amount", VNum (Number_parseFloat a));
                       ("attachment_path",
                        if String.eqb path EmptyString
                        then VNull else VStr path)])
      else None
  | _, _, _, _, _ => None
  end.

(** A builder agrees with an acceptance rule when it returns the accepted
    payload and throws an [Error] on every other form. *)
Definition agrees (built : result value) (accepted : option value) : Prop :=
  match built with
  | Ok payload => accepted = Some payload
  | Throw (Error _) => accepted = None
  | Throw TypeError => False
  end.

(** The rule as the specification words it: only the month, the year and
    the decimal amount decide. *)
Definition period_and_amount_valid (amount_field : string) (f : form) : bool :=
  match field f "month", field f "year", field f amount_field with
  | Some m, Some y, Some a =>
      integer_within 1 (Some 12%float) m &&
      integer_within 2000 (Some 2100%float) y &&
      decimal_at_least 0 a
  | _, _, _ => false
  end.

End FormRules.

(** A mileage form whose month, year and distance are fine and whose
    person identifier is 0. *)
Definition form_with_person_zero : form :=
  [("person_id", HTMLInputElement "0");
   ("vehicle_id", HTMLInputElement "1");
   ("year", HTMLInputElement "2024");
   ("month", HTMLInputElement "5");
   ("km", HTMLInputElement "1200")].

(** *** People *)

Section PeopleRules.
Context {RT : Runtime}.

(** A person summary as the dashboard endpoint sends it: an object whose
    [household_name] is a string and whose [vehicle_summaries] is an
    array of objects. *)
Definition is_person_summary (p : value) : bool :=
  match p with
  | VObj o =>
      match get o "household_name", get o "vehicle_summaries" with
      | VStr _, VArr l =>
          forallb (fun v => match v with VObj _ => true | _ => false end) l
      | _, _ => false
      end
  | _ => false
  end.

(** The name of a vehicle summary. *)
Definition vehicle_name (vehicle : value) : value :=
  match vehicle with
  | VObj o => get o "vehicle_name"
  | _ => VUndefined
  end.

(** The texts a person is searched by: full name, household name, and
    the vehicle names joined by single spaces. *)
Definition searched_texts (person : value) : list string :=
  match person with
  | VObj o =>
      [ToString (get o "first_name") ++ " " ++ ToString (get o "last_name");
       match get o "household_name" with VStr s => s | _ => EmptyString end;
       match get o "vehicle_summaries" with
       | VArr l => Array_join " " (map vehicle_name l)
       | _ => EmptyString
       end]
  | _ => []
  end.

(** One of the searched texts contains the query, case apart. *)
Definition person_matches (query : string) (person : value) : bool :=
  existsb (fun text => includes (String_toLowerCase text)
                                (String_toLowerCase query))
          (searched_texts person).

(** The search as the specification words it: the full name, the
    household name, or one of the vehicle names contains the query. *)
Definition matches_some_name (query : string) (person : value) : bool :=
  match person with
  | VObj o =>
      let q := String_toLowerCase query in
      includes (String_toLowerCase
                  (ToString (get o "first_name") ++ " " ++
                   ToString (get o "last_name"))) q ||
      match get o "household_name" with
      | VStr s => includes (String_toLowerCase s) q
      | _ => false
      end ||
      match get o "vehicle_summaries" with
      | VArr l =>
          existsb (fun vehicle =>
                     includes (String_toLowerCase
                                 (ToString (vehicle_name vehicle))) q) l
      | _ => false
      end
  | _ => false
  end.

(** The equation of a person summary, as JavaScript evaluates it. *)
Definition total_is_sum (person : value) : bool :=
  match person with
  | VObj o =>
      strict_equal (get o "total_deduction")
        (add (add (get o "vehicle_deduction_total") (get o "meals_deduction"))
             (get o "other_expenses"))
  | _ => false
  end.

End PeopleRules.

(** The four amounts of a person summary, when all four are numbers. *)
Module Summary.
Record amounts : Type := make {
  meals_deduction : float;
  other_expenses : float;
  vehicle_deduction_total : float;
  total_deduction : float
}.
End Summary.

Definition amounts_of (person : value) : option Summary.amounts :=
  match person with
  | VObj o =>
      match get o "meals_deduction", get o "other_expenses",
            get o "vehicle_deduction_total", get o "total_deduction" with
      | VNum m, VNum x, VNum v, VNum t =>
          Some {| Summary.meals_deduction := m; Summary.other_expenses := x;
                  Summary.vehicle_deduction_total := v;
                  Summary.total_deduction := t |}
      | _, _, _, _ => None
      end
  | _ => None
  end.

(** [l.reduce((acc, x) => acc + x, start)] on numbers. *)
Definition float_sum (start : float) (l : list float) : float :=
  fold_left PrimFloat.add l start.

(** Every addition of the running sum is exact: the float it returns
    stands for the sum of the numbers its arguments stand for. *)
Fixpoint adds_exactly (acc : float) (l : list float) : Prop :=
  match l with
  | [] => True
  | x :: r =>
      (Q_of_float (acc + x)%float == Q_of_float acc + Q_of_float x)%Q /\
      adds_exactly (acc + x)%float r
  end.

(** A person summary as [refreshDashboard] stores it: the fields of the
    response, then the aliases the table headers sort by. *)
Definition person_summary (id : float) (first_name last_name household : string)
    (meals other vehicles total : float) (vehicle_names : list string) : value :=
  VObj [("person_id", VNum id);
        ("first_name", VStr first_name);
        ("last_name", VStr last_name);
        ("household_name", VStr household);
        ("meals_deduction", VNum meals);
        ("other_expenses", VNum other);
        ("vehicle_deduction_total", VNum vehicles);
        ("total_deduction", VNum total);
        ("vehicle_summaries",
         VArr (map (fun n => VObj [("vehicle_name", VStr n)]) vehicle_names));
        ("meals", VNum meals);
        ("other", VNum other);
        ("vehicles", VNum vehicles);
        ("total", VNum total);
        ("person", VStr (first_name ++ " " ++ last_name));
        ("household", VStr household)].

(** Two summaries whose totals are the sums of their parts, in cents that
    binary64 cannot hold exactly. *)
Definition drifting_people : list value :=
  [person_summary 1 "Alice" "Martin" "Foyer Martin" 18.5 10.1 18.5 47.1 [];
   person_summary 2 "Bob" "Durand" "Foyer Durand" 0.05 5.2 0.7 5.95 []]%float.

(** Two summaries in whole euros. *)
Definition whole_euro_people : list value :=
  [person_summary 1 "Alice" "Martin" "Foyer Martin" 18 10 635 663
     ["Peugeot 308"];
   person_summary 2 "Bob" "Durand" "Foyer Durand" 20 250 2645 2915
     ["Clio"; "Peugeot 308"]]%float.

(** *** The detail record *)

(** The names under which the detail record is read. *)
Definition detail_total_fields : list string :=
  ["mileage_total_km"; "mileage_deduction_total"; "meals_deduction_total";
   "other_expenses_total"; "total_deduction"].
Definition detail_list_fields : list string :=
  ["mileage_entries"; "meal_expenses"; "other_expenses"].
Definition detail_fields : list string :=
  (detail_total_fields ++ detail_list_fields)%list.

Definition same_rendering (a b : result string) : bool :=
  match a, b with
  | Ok x, Ok y => String.eqb x y
  | Throw TypeError, Throw TypeError => true
  | Throw (Error x), Throw (Error y) => String.eqb x y
  | _, _ => false
  end.

Definition sample_person : value :=
  VObj [("person_id", VNum 1); ("first_name", VStr "Alice");
        ("last_name", VStr "Martin")].

Definition sample_detail : object :=
  [("mileage_total_km", VNum 1200.5);
   ("mileage_deduction_total", VNum 635.06);
   ("meals_deduction_total", VNum 18.5);
   ("other_expenses_total", VNum 249.9);
   ("total_deduction", VNum 903.46);
   ("mileage_entries",
    VArr [VObj [("id", VNum 1); ("vehicle_id", VNum 1);
                ("vehicle_name", VStr "Peugeot 308");
                ("month", VNum 5); ("km", VNum 1200.5)]]);
   ("meal_expenses",
    VArr [VObj [("id", VNum 1); ("month", VNum 5); ("meal_cost", VNum 18.5);
                ("deductible_amount", VNum 18.5)]]);
   ("other_expenses",
    VArr [VObj [("id", VNum 1); ("description", VStr "Materiel");
                ("amount", VNum 249.9); ("attachment_path", VNull)]])]%float.

(** *** The mileage scale as the administration page reads it *)

Module ScaleView.

Record Bracket : Type := mkBracket {
  max_km : option float;
  rate : float;
  fixed : float
}.

Record ScaleEntry : Type := mkScaleEntry {
  power_cv : float;
  brackets : list Bracket
}.

(** [v] is a JSON object for the bracket [b]: whatever else it holds,
    its [max_km] is the bound or [null], and [rate] and [fixed] are the
    two numbers. *)
Definition bracket_object (v : value) (b : Bracket) : Prop :=
  exists o, v = VObj o /\
    get o "max_km" = match max_km b with Some u => VNum u | None => VNull end /\
    get o "rate" = VNum (rate b) /\
    get o "fixed" = VNum (fixed b).

Definition entry_object (v : value) (e : ScaleEntry) : Prop :=
  exists o bs, v = VObj o /\
    get o "power_cv" = VNum (power_cv e) /\
    get o "brackets" = VArr bs /\
    Forall2 bracket_object bs (brackets e).

Definition scale_array (v : value) (scale : list ScaleEntry) : Prop :=
  exists es, v = VArr es /\ Forall2 entry_object es scale.

Section Rows.
Context {RT : Runtime}.

(** The table row of one bracket. *)
Definition bracket_cells (e : ScaleEntry) (b : Bracket) : Admin.row :=
  Admin.Row
    [Admin.TextCell (VStr (Number_toString (power_cv e)));
     Admin.TextCell (VStr match max_km b with
                          | Some u => Number_toString u
                          | None => "Au-delà"
                          end);
     Admin.TextCell (VStr (Number_toFixed (rate b) 3));
     Admin.TextCell (VStr (Number_toFixed (fixed b) 2))].

(** One row per bracket, entry after entry, bracket after bracket. *)
Definition scale_table (scale : list ScaleEntry) : list Admin.row :=
  flat_map (fun e => map (bracket_cells e) (brackets e)) scale.
End Rows.

(** The JSON of a bracket and of a scale, with the names the page reads. *)
Definition bracket_json (b : Bracket) : value :=
  VObj [("max_km", match max_km b with Some u => VNum u | None => VNull end);
        ("rate", VNum (rate b));
        ("fixed", VNum (fixed b))].

Definition scale_json (scale : list ScaleEntry) : value :=
  VArr (map (fun e => VObj [("power_cv", VNum (power_cv e));
                            ("brackets", VArr (map bracket_json (brackets e)))])
            scale).

End ScaleView.

(** The scale of a 5 CV vehicle, three brackets. *)
Definition scale_5cv : list ScaleView.ScaleEntry :=
  [ {| ScaleView.power_cv := 5%float;
       ScaleView.brackets :=
         [ {| ScaleView.max_km := Some 5000%float;
              ScaleView.rate := 0.529%float; ScaleView.fixed := 0%float |};
           {| ScaleView.max_km := Some 20000%float;
              ScaleView.rate := 0.316%float; ScaleView.fixed := 1065%float |};
           {| ScaleView.max_km := None;
              ScaleView.rate := 0.37%float; ScaleView.fixed := 0%float |} ] |} ].

(** The same scale in the shape the specification words: brackets that
    carry [upper_km_bound], [rate_per_km] and [fixed_allowance]. *)
Definition spec_worded_scale : value :=
  VArr [VObj [("power_cv", VNum 5);
              ("brackets",
               VArr [VObj [("upper_km_bound", VNum 5000);
                           ("rate_per_km", VNum 0.529);
                           ("fixed_allowance", VNum 0)];
                     VObj [("upper_km_bound", VNum 20000);
                           ("rate_per_km", VNum 0.316);
                           ("fixed_allowance", VNum 1065)];
                     VObj [("upper_km_bound", VNull);
                           ("rate_per_km", VNum 0.37);
                           ("fixed_allowance", VNum 0)]])]]%float.

(** The administration page with its tables and status line, nothing
    loaded yet but the given scale. *)
Definition page_with_scale (scale : value) : Admin.world :=
  {| Admin.st :=
       {| Admin.households := VArr []; Admin.persons := VArr [];
          Admin.vehicles := VArr []; Admin.mileageScale := scale;
          Admin.details_mileage := VArr []; Admin.details_meals := VArr [];
          Admin.details_other := VArr [] |};
     Admin.doc :=
       [(Admin.MILEAGE_SCALE_TABLE_ID, Admin.Rows []);
        (Admin.ENTRY_STATUS_ID, Admin.Text EmptyString);
        (Admin.MILEAGE_TABLE_ID, Admin.Rows []);
        (Admin.MEAL_TABLE_ID, Admin.Rows []);
        (Admin.OTHER_TABLE_ID, Admin.Rows [])] |}.

(** *** Data of the specification's scenarios *)

Definition scenario_scale : Core.MileageScale :=
  [ {| Core.power_cv := 5;
       Core.brackets :=
         [ {| Core.upper_km_bound := Some 5000%Q;
              Core.rate_per_km := (529 # 1000)%Q;
              Core.fixed_allowance := 0%Q |};
           {| Core.upper_km_bound := Some 20000%Q;
              Core.rate_per_km := (316 # 1000)%Q;
              Core.fixed_allowance := 1065%Q |};
           {| Core.upper_km_bound := None;
              Core.rate_per_km := (370 # 1000)%Q;
              Core.fixed_allowance := 0%Q |} ] |} ].

Definition scenario_caps : Core.MealCapConfig :=
  {| Core.daily_floor := (520 # 100)%Q; Core.daily_ceiling := (2070 # 100)%Q |}.

(** One vehicle, two mileage rows in the same month, three meals and one
    other expense, for person 1 in 2024. *)
Definition scenario_entries : Core.Entries :=
  {| Core.vehicles := [Core.Vehicle.make 1 5];
     Core.mileage := [Core.MileageEntry.make 1 1 2024 3 100%Q;
                      Core.MileageEntry.make 1 1 2024 3 50%Q];
     Core.meals := [Core.MealEntry.make 1 2024 5 4%Q;
                    Core.MealEntry.make 1 2024 5 10%Q;
                    Core.MealEntry.make 1 2024 6 25%Q];
     Core.others := [Core.OtherExpenseEntry.make 1 2024 "Materiel"
                       (2499 # 10)%Q None] |}.

(** *** The forms of the reference data, updates and deletions *)

Section ReferenceFormRules.
Context {RT : Runtime}.

(** A household form is accepted with a name of 1 to 100 code units. *)
Definition accepted_household (f : form) : option value :=
  match field f "name" with
  | Some n =>
      if text_within 100 n then Some (VObj [("name", VStr n)]) else None
  | None => None
  end.

(** A person form: the household identifier is an integer from 1, and
    both names hold 1 to 80 code units. *)
Definition accepted_person (f : form) : option value :=
  match field f "household_id", field f "first_name", field f "last_name" with
  | Some h, Some first, Some last =>
      if integer_within 1 None h && text_within 80 first &&
         text_within 80 last
      then Some (VObj [("household_id", VNum (Number_parseInt h));
                       ("first_name", VStr first);
                       ("last_name", VStr last)])
      else None
  | _, _, _ => None
  end.

(** A vehicle form: owner and fiscal power are integers from 1, the name
    holds 1 to 100 code units. *)
Definition accepted_vehicle (f : form) : option value :=
  match field f "person_id", field f "name", field f "power_cv" with
  | Some p, Some n, Some cv =>
      if integer_within 1 None p && text_within 100 n &&
         integer_within 1 None cv
      then Some (VObj [("person_id", VNum (Number_parseInt p));
                       ("name", VStr n);
                       ("power_cv", VNum (Number_parseInt cv))])
      else None
  | _, _, _ => None
  end.

End ReferenceFormRules.

(** What an update form is sent as: the identifier of the record, and the
    payload that replaces it. *)
Definition update_request (id : float) (payload : value) : value :=
  VObj [("id", VNum id); ("payload", payload)].

(** *** Sort keys *)

(** The number a person is sorted by under a numeric sort key: the field
    of that name, [0] when the person has no such field or holds [null]
    there.  There is none when the person is not an object or the field
    holds anything but a number that is not [NaN]. *)
Definition sort_number (sortKey : string) (person : value) : option float :=
  match person with
  | VObj o =>
      match nullish (get o sortKey) (VNum 0%float) with
      | VNum x => if PrimFloat.is_nan x then None else Some x
      | _ => None
      end
  | _ => None
  end.

(** [p] may stand before [q] in the given direction: its number is at
    most that of [q] when ascending, at least that of [q] otherwise. *)
Definition in_order (sortKey direction : string) (p q : value) : Prop :=
  match sort_number sortKey p, sort_number sortKey q with
  | Some x, Some y =>
      if String.eqb direction "asc"
      then PrimFloat.leb x y = true
      else PrimFloat.leb y x = true
  | _, _ => False
  end.

(** *** Amounts that spoil a total *)

(** What [+=] cannot add as a number: [undefined] makes the sum [NaN],
    and a string, an array or an object turns it into a string.  ([null]
    and the booleans are added as [0] and [1].) *)
Definition spoils_sum (v : value) : bool :=
  match v with
  | VUndefined | VStr _ | VArr _ | VObj _ => true
  | VNull | VBool _ | VNum _ => false
  end.

(** The person has no array of vehicle summaries to search in. *)
Definition lacks_vehicle_summaries (person : value) : bool :=
  match get_prop person "vehicle_summaries" with
  | Ok (VArr _) => false
  | _ => true
  end.

(** *** The dashboard page *)

(** What the element called [id] shows, if the page has such an element. *)
Definition shown_by (id : string) (w : DashboardPage.world)
  : option DashboardPage.shown :=
  option_map DashboardPage.shows
    (DashboardPage.getElementById id (DashboardPage.doc w)).

(** What the user typed into the element called [id]. *)
Definition typed_into (id : string) (w : DashboardPage.world) : option value :=
  option_map DashboardPage.control
    (DashboardPage.getElementById id (DashboardPage.doc w)).

(** The page has every element of the list. *)
Definition has_elements (ids : list string) (w : DashboardPage.world) : Prop :=
  Forall (fun id => DashboardPage.getElementById id (DashboardPage.doc w)
                    <> None) ids.

(** The elements [updateView] writes to: the four cards, the table body
    and the detail panel. *)
Definition view_elements : list string :=
  [DashboardPage.TOTAL_MEALS_ID; DashboardPage.TOTAL_OTHER_ID;
   DashboardPage.TOTAL_VEHICLES_ID; DashboardPage.TOTAL_DEDUCTION_ID;
   DashboardPage.TABLE_BODY_ID; DashboardPage.DETAIL_PANEL_ID].

(** [w'] has the elements of [w], with what was typed into them. *)
Definition same_controls (w w' : DashboardPage.world) : Prop :=
  forall id, typed_into id w' = typed_into id w.

(** Every array of [w] is still there in [w'], with the same elements. *)
Definition same_arrays (w w' : DashboardPage.world) : Prop :=
  forall l a, read (DashboardPage.heap w) l = Some a ->
              read (DashboardPage.heap w') l = Some a.

(** From [w] to [w'] only the view changed: what elements show, and the
    array of the displayed people. *)
Definition only_view_changed (w w' : DashboardPage.world) : Prop :=
  DashboardPage.people (DashboardPage.st w') =
    DashboardPage.people (DashboardPage.st w) /\
  DashboardPage.sortKey (DashboardPage.st w') =
    DashboardPage.sortKey (DashboardPage.st w) /\
  DashboardPage.sortDirection (DashboardPage.st w') =
    DashboardPage.sortDirection (DashboardPage.st w) /\
  DashboardPage.selectedId (DashboardPage.st w') =
    DashboardPage.selectedId (DashboardPage.st w) /\
  DashboardPage.detail (DashboardPage.st w') =
    DashboardPage.detail (DashboardPage.st w) /\
  DashboardPage.headers w' = DashboardPage.headers w /\
  DashboardPage.requests w' = DashboardPage.requests w /\
  same_arrays w w' /\
  same_controls w w'.

(** A statement that relates every world to the one it leaves behind,
    whether it returns or throws. *)
Definition always {W A : Type} (R : W -> W -> Prop) (m : W -> result A * W)
  : Prop :=
  forall w, R w (snd (m w)).

(** The people [updateView] displays for a query: all of them when the
    query is empty. *)
Definition displayed {RT : Runtime} (query : string) (a : list value)
  : list value :=
  if String.eqb query EmptyString then a
  else filter (person_matches query) a.

(** [person.person_id === selectedId], [false] when the person has no
    properties to read. *)
Definition is_selected (selectedId : value) (person : value) : bool :=
  match get_prop person "person_id" with
  | Ok id => strict_equal id selectedId
  | Throw _ => false
  end.

(** The two hints of the detail panel. *)
Definition hint_select : string :=
  "<p class=" ++ quoted "hint" ++ ">Sélectionnez une personne.</p>".
Definition hint_loading : string :=
  "<p class=" ++ quoted "hint" ++ ">Chargement des opérations...</p>".

(** A value with properties of its own to read: an object. *)
Definition is_object (p : value) : Prop := exists o, p = VObj o.

(** The sort key that a click on the table head names: the [data-key]
    attribute of the element clicked, unless it is empty. *)
Definition sort_key_clicked (event_target : option DashboardPage.target)
  : option string :=
  match event_target with
  | Some clicked =>
      match DashboardPage.attribute_data_key clicked with
      | Some key => if String.eqb key EmptyString then None else Some key
      | None => None
      end
  | None => None
  end.

(** The column headers with the class "sorted" on those of key [key] and
    on no other. *)
Definition marked (key : string) (hs : list DashboardPage.header)
  : list DashboardPage.header :=
  map (fun th => {| DashboardPage.data_key := DashboardPage.data_key th;
                    DashboardPage.sorted :=
                      String.eqb (DashboardPage.data_key th) key |}) hs.

(** The direction a click on the header of [key] leaves: the other one
    when the table is sorted by [key] already, descending otherwise. *)
Definition next_direction (s : DashboardPage.state) (key : string) : string :=
  if String.eqb (DashboardPage.sortKey s) key
  then (if String.eqb (DashboardPage.sortDirection s) "asc"
        then "desc" else "asc")
  else "desc".

(** The year read from what the year input holds, if it is a number. *)
Definition year_read {RT : Runtime} (typed : value) : option float :=
  let year := Number_parseInt (ToString typed) in
  if Number_isFinite (VNum year) then Some year else None.

(** The address the detail of a person is requested from. *)
Definition detail_url {RT : Runtime} (personId : value) (year : float)
  : string :=
  DashboardPage.PERSON_DETAIL_ENDPOINT ++ ToString personId ++
  "/details/" ++ Number_toString year.

(** The address the dashboard of a year is requested from. *)
Definition dashboard_url {RT : Runtime} (year : float) : string :=
  DashboardPage.DASHBOARD_ENDPOINT ++ Number_toString year.

(** The status line after a successful load. *)
Definition loaded_message {RT : Runtime} (count : nat) (year : float)
  : string :=
  Number_toString (PrimFloat.of_uint63 (Uint63.of_Z (Z.of_nat count))) ++
  " personne(s) chargée(s) pour " ++ Number_toString year ++ ".".

(** From [w] to [w'] nothing was typed and nothing was requested. *)
Definition quiet (w w' : DashboardPage.world) : Prop :=
  same_controls w w' /\
  DashboardPage.requests w' = DashboardPage.requests w.

(** The person whose row was clicked: the number read from the
    [data-person-id] of the table row around the element clicked. *)
Definition person_clicked {RT : Runtime}
    (event_target : option DashboardPage.target) : option float :=
  match event_target with
  | Some clicked =>
      match DashboardPage.closest_row clicked with
      | Some data_person_id =>
          let personId :=
            Number_parseInt
              (ToString match data_person_id with
                        | Some s => VStr s
                        | None => VUndefined
                        end) in
          if Number_isFinite (VNum personId) then Some personId else None
      | None => None
      end
  | None => None
  end.

(** From [w] to [w'] the people loaded, the order of the table and the
    selection are the same. *)
Definition same_selection (w w' : DashboardPage.world) : Prop :=
  DashboardPage.people (DashboardPage.st w') =
    DashboardPage.people (DashboardPage.st w) /\
  DashboardPage.sortKey (DashboardPage.st w') =
    DashboardPage.sortKey (DashboardPage.st w) /\
  DashboardPage.sortDirection (DashboardPage.st w') =
    DashboardPage.sortDirection (DashboardPage.st w) /\
  DashboardPage.selectedId (DashboardPage.st w') =
    DashboardPage.selectedId (DashboardPage.st w) /\
  DashboardPage.headers w' = DashboardPage.headers w.

(** From [w] to [w'] the detail that is loaded is the same. *)
Definition same_detail (w w' : DashboardPage.world) : Prop :=
  DashboardPage.detail (DashboardPage.st w') =
  DashboardPage.detail (DashboardPage.st w).

(** The names [refreshDashboard] adds to a person. *)
Definition sort_key_names : list string :=
  ["meals"; "other"; "vehicles"; "total"; "person"; "household"].

(** [stored] is the person [received] with the names the column headers
    sort by: the four amounts, the full name, the household name; every
    other property is as received. *)
Definition has_sort_keys {RT : Runtime} (received stored : value) : Prop :=
  exists o o',
    received = VObj o /\ stored = VObj o' /\
    get o' "meals" = get o "meals_deduction" /\
    get o' "other" = get o "other_expenses" /\
    get o' "vehicles" = get o "vehicle_deduction_total" /\
    get o' "total" = get o "total_deduction" /\
    get o' "person" = VStr (ToString (get o "first_name") ++ " " ++
                            ToString (get o "last_name")) /\
    get o' "household" = get o "household_name" /\
    forall k, ~ In k sort_key_names -> get o' k = get o k.

(** The amount a person holds under [name] cannot be added as a number. *)
Definition amount_spoils (name : string) (person : value) : bool :=
  match get_prop person name with
  | Ok v => spoils_sum v
  | Throw _ => false
  end.

(** A value whose properties can be read: anything but [undefined] and
    [null]. *)
Definition has_properties (v : value) : bool :=
  match v with
  | VUndefined | VNull => false
  | _ => true
  end.

(** *** The administration page *)

(** The rows a table is given: those of its entries, or the one row that
    says there are none. *)
Definition rows_or (message : string) (rows : list Admin.row)
  : list Admin.row :=
  match rows with
  | [] => [Admin.EmptyRow message 4%float]
  | _ :: _ => rows
  end.

(** Either the table called [id] was given one row for each of
    [entries], in their order, and nothing else changed; or the statement
    threw and nothing changed at all. *)
Definition all_or_nothing (id message : string) (entries : value)
    (w : Admin.world) (outcome : result unit * Admin.world) : Prop :=
  match outcome with
  | (Ok _, w') =>
      exists (l : list value) (rows : list Admin.row),
        entries = VArr l /\
        List.length rows = List.length l /\
        Admin.getElementById id (Admin.doc w') =
          Some (Admin.Rows (rows_or message rows)) /\
        Admin.doc w' =
          Admin.setContent id (Admin.Rows (rows_or message rows))
            (Admin.doc w) /\
        Admin.st w' = Admin.st w
  | (Throw _, w') => w' = w
  end.

(** Every element of [w] is still an element of [w']. *)
Definition same_elements (w w' : Admin.world) : Prop :=
  forall id, Admin.getElementById id (Admin.doc w) <> None ->
             Admin.getElementById id (Admin.doc w') <> None.

(** *** Row menus *)

(** [state.openMenu] is the one menu that is open, if any is. *)
Definition one_menu_open (m : AdminMarkup.menus) : Prop :=
  forall i, AdminMarkup.menu_open m i = true <-> AdminMarkup.openMenu m = Some i.

(** The row menus that are open, by their place in the document. *)
Definition open_menu_at (elements : list Admin.classes) (i : nat) : Prop :=
  exists e, nth_error elements i = Some e /\
            Admin.row_menu e = true /\ Admin.is_open e = true.

(** *** Running totals *)

(** A running total that is no number any more: a string or [NaN]. *)
Definition spoiled (v : value) : bool :=
  match v with
  | VStr _ => true
  | VNum n => PrimFloat.is_nan n
  | _ => false
  end.

(** What [+=] leaves in a total that started as a number: a number or a
    string. *)
Definition sum_like (v : value) : bool :=
  match v with
  | VStr _ | VNum _ => true
  | _ => false
  end.

(** The order of [SFcompare] on the floats that are not [NaN]. *)
Definition SFle (x y : spec_float) : Prop :=
  match SFcompare x y with
  | Some Lt | Some Eq => True
  | _ => False
  end.

(** *** The forms of the dashboard page *)

(** What the element called [id] shows in [w'] is what it showed in [w]. *)
Definition same_shown (id : string) (w w' : DashboardPage.world) : Prop :=
  shown_by id w' = shown_by id w.

(** The three ways of submitting a form, each with its builder. *)
Inductive submit : Type :=
| Create (buildPayload : form -> result value)
| Update (buildPayload : form -> result value)
| Delete (buildId : form -> result float).

(** [w] with [message] in the form status and nothing else changed. *)
Definition with_form_status (message : string) (w : DashboardForms.world)
  : DashboardForms.world :=
  {| DashboardForms.page :=
       snd (DashboardPage.show DashboardForms.FORM_STATUS_ID
              (DashboardPage.Text message) (DashboardForms.page w));
     DashboardForms.forms := DashboardForms.forms w;
     DashboardForms.admin := DashboardForms.admin w;
     DashboardForms.submissions := DashboardForms.submissions w |}.

(** [w] with one more request sent and nothing else changed. *)
Definition with_submission (sent : DashboardForms.submission)
    (w : DashboardForms.world) : DashboardForms.world :=
  {| DashboardForms.page := DashboardForms.page w;
     DashboardForms.forms := DashboardForms.forms w;
     DashboardForms.admin := DashboardForms.admin w;
     DashboardForms.submissions :=
       (DashboardForms.submissions w ++ [sent])%list |}.

Section FormsVocabulary.
Context {RT : Runtime} {CU : CodeUnits} {BR : DashboardPage.Browser}
        {SV : DashboardForms.Server}.

(** The handler of each way of submitting. *)
Definition handler (how : submit) (formId endpoint successMessage : string)
  : DashboardForms.M unit :=
  match how with
  | Create buildPayload =>
      DashboardForms.handleFormSubmit formId endpoint buildPayload
        successMessage
  | Update buildPayload =>
      DashboardForms.handleUpdateFormSubmit formId endpoint buildPayload
        successMessage
  | Delete buildId =>
      DashboardForms.handleDeleteFormSubmit formId endpoint buildId
        successMessage
  end.

(** The body a payload is sent as: none for a payload that is falsy. *)
Definition body_of (payload : value) : option string :=
  if ToBoolean payload then Some (DashboardForms.JSON_stringify payload)
  else None.

(** The request a form is submitted as, when its builder accepts it: a
    creation is posted to the endpoint; an update is put, and a deletion
    sent without a body, to the endpoint followed by the identifier. *)
Definition request_built (how : submit) (endpoint : string) (f : form)
  : result DashboardForms.submission :=
  match how with
  | Create buildPayload =>
      payload <- buildPayload f ;;
      Ok {| DashboardForms.endpoint := endpoint;
            DashboardForms.method := "POST";
            DashboardForms.content := body_of payload |}
  | Update buildPayload =>
      built <- buildPayload f ;;
      id <- get_prop built "id" ;;
      payload <- get_prop built "payload" ;;
      Ok {| DashboardForms.endpoint := endpoint ++ "/" ++ ToString id;
            DashboardForms.method := "PUT";
            DashboardForms.content := body_of payload |}
  | Delete buildId =>
      id <- buildId f ;;
      Ok {| DashboardForms.endpoint := endpoint ++ "/" ++ Number_toString id;
            DashboardForms.method := "DELETE";
            DashboardForms.content := None |}
  end.

(** Why a request fails, if it does: with the error [fetch] rejects
    with; with the text of an answer that is not OK, or its status when
    it has no text; or with the error of [JSON.parse] on a text that is
    not empty. *)
Definition refusal (sent : DashboardForms.submission) : option exn :=
  match DashboardForms.send sent with
  | Throw e => Some e
  | Ok answer =>
      let text := DashboardPage.body answer in
      if negb (DashboardPage.ok answer)
      then Some (Error (if String.eqb text EmptyString
                        then "Erreur " ++
                             Number_toString (DashboardPage.status answer)
                        else text))
      else if String.eqb text EmptyString then None
      else match DashboardPage.JSON_parse text with
           | Ok _ => None
           | Throw e => Some e
           end
  end.

(** What the three handlers do once the server accepted the request:
    the form is reset, the success is reported, and the two reloads are
    started. *)
Definition once_sent (formId successMessage : string)
  : DashboardForms.M unit :=
  DashboardForms.bindM (DashboardForms.reset formId) (fun _ =>
  DashboardForms.bindM (DashboardForms.setFormStatus successMessage) (fun _ =>
  DashboardForms.bindM
    (DashboardForms.detached
       (DashboardForms.on_page DashboardPage.refreshDashboard)) (fun _ =>
  DashboardForms.detached DashboardForms.refreshAdminData))).

(** The message a handler shows while the request is under way. *)
Definition progress (how : submit) : string :=
  match how with
  | Create _ => "Envoi des données..."
  | Update _ => "Mise à jour en cours..."
  | Delete _ => "Suppression en cours..."
  end.

(** The status line of the reference lists once they are loaded. *)
Definition lists_loaded (households persons vehicles : list value) : string :=
  Number_toString (DashboardPage.Array_length households) ++ " foyers · " ++
  Number_toString (DashboardPage.Array_length persons) ++ " personnes · " ++
  Number_toString (DashboardPage.Array_length vehicles) ++ " véhicules.".

End FormsVocabulary.

(** The ids the reloads write to. *)
Definition reload_elements : list string :=
  DashboardPage.STATUS_MESSAGE_ID :: DashboardForms.ADMIN_STATUS_ID ::
  DashboardForms.HOUSEHOLDS_TABLE_ID :: DashboardForms.PERSONS_TABLE_ID ::
  DashboardForms.VEHICLES_TABLE_ID :: view_elements.

(** From [w] to [w'] no form changed, nothing was submitted, and the
    element called [id] shows what it showed. *)
Definition forms_untouched (id : string) (w w' : DashboardForms.world)
  : Prop :=
  DashboardForms.forms w' = DashboardForms.forms w /\
  DashboardForms.submissions w' = DashboardForms.submissions w /\
  same_shown id (DashboardForms.page w) (DashboardForms.page w').

(** The reference lists of [w'] are those of [w]. *)
Definition same_lists (w w' : DashboardForms.world) : Prop :=
  DashboardForms.admin w' = DashboardForms.admin w.

(** From [w] to [w'] nothing was requested or submitted, no form
    changed, and the element called [id] is still there. *)
Definition settled (id : string) (w w' : DashboardForms.world) : Prop :=
  DashboardPage.requests (DashboardForms.page w') =
    DashboardPage.requests (DashboardForms.page w) /\
  DashboardForms.forms w' = DashboardForms.forms w /\
  DashboardForms.submissions w' = DashboardForms.submissions w /\
  (DashboardPage.getElementById id
     (DashboardPage.doc (DashboardForms.page w)) <> None ->
   DashboardPage.getElementById id
     (DashboardPage.doc (DashboardForms.page w')) <> None).

(** *** A dashboard page with its browser, for the examples *)

(** The code units of a string of ASCII characters: its characters. *)
Definition ascii_units : CodeUnits :=
  {| String_units :=
       fun s => map (fun c => String c EmptyString) (list_ascii_of_string s) |}.

(** A person summary as the dashboard endpoint sends it. *)
Definition summary_sent (id : float) (first_name last_name household : string)
    (meals other vehicles total : value) (vehicle_names : list string) : value :=
  VObj [("person_id", VNum id);
        ("first_name", VStr first_name);
        ("last_name", VStr last_name);
        ("household_name", VStr household);
        ("meals_deduction", meals);
        ("other_expenses", other);
        ("vehicle_deduction_total", vehicles);
        ("total_deduction", total);
        ("vehicle_summaries",
         VArr (map (fun n => VObj [("vehicle_name", VStr n)]) vehicle_names))].

(** The answer of the dashboard endpoint for 2024, parsed. *)
Definition people_2024 : list value :=
  [summary_sent 1 "Alice" "Martin" "Foyer Martin"
     (VNum 18) (VNum 10) (VNum 635) (VNum 663) ["Peugeot 308"];
   summary_sent 2 "Bob" "Durand" "Foyer Durand"
     (VNum 20) (VNum 250) (VNum 2645) (VNum 2915)
     ["Clio"; "Peugeot 308"]]%float.

Definition dashboard_2024 : value :=
  VObj [("year", VNum 2024%float); ("people", VArr people_2024)].

(** The reference lists the server holds. *)
Definition households_listed : list value :=
  [VObj [("id", VNum 1%float); ("name", VStr "Foyer Martin")]].
Definition persons_listed : list value :=
  [VObj [("id", VNum 1%float); ("household_name", VStr "Foyer Martin");
         ("first_name", VStr "Alice"); ("last_name", VStr "Martin")];
   VObj [("id", VNum 2%float); ("household_name", VStr "Foyer Martin");
         ("first_name", VStr "Bob"); ("last_name", VStr "Martin")]].
Definition vehicles_listed : list value :=
  [VObj [("id", VNum 1%float); ("person_name", VStr "Alice Martin");
         ("name", VStr "Clio"); ("power_cv", VNum 5%float)]].

(** A server that knows the dashboard of 2024, the detail of person 1
    for 2024 and the three reference lists, and nothing else; and the
    parser on the bodies it sends (each text stands for the JSON of the
    value it is read as). *)
Definition browser_2024 : DashboardPage.Browser :=
  {| DashboardPage.fetch := fun url =>
       if String.eqb url "/api/dashboard/2024"
       then Ok {| DashboardPage.ok := true;
                  DashboardPage.status := 200%float;
                  DashboardPage.body := "dashboard of 2024" |}
       else if String.eqb url "/api/people/1/details/2024"
       then Ok {| DashboardPage.ok := true;
                  DashboardPage.status := 200%float;
                  DashboardPage.body := "detail of 1 in 2024" |}
       else if String.eqb url "/households" || String.eqb url "/persons" ||
               String.eqb url "/vehicles"
       then Ok {| DashboardPage.ok := true;
                  DashboardPage.status := 200%float;
                  DashboardPage.body := "list of " ++ url |}
       else Ok {| DashboardPage.ok := false;
                  DashboardPage.status := 404%float;
                  DashboardPage.body := EmptyString |};
     DashboardPage.JSON_parse := fun text =>
       if String.eqb text "dashboard of 2024" then Ok dashboard_2024
       else if String.eqb text "detail of 1 in 2024"
       then Ok (VObj sample_detail)
       else if String.eqb text "list of /households"
       then Ok (VArr households_listed)
       else if String.eqb text "list of /persons"
       then Ok (VArr persons_listed)
       else if String.eqb text "list of /vehicles"
       then Ok (VArr vehicles_listed)
       else Throw (Error "Unexpected end of JSON input") |}.

(** An element that shows nothing yet and has no [value]; an input with
    what was typed into it. *)
Definition blank : DashboardPage.node :=
  {| DashboardPage.shows := DashboardPage.Text EmptyString;
     DashboardPage.control := VUndefined |}.
Definition input_holding (typed : string) : DashboardPage.node :=
  {| DashboardPage.shows := DashboardPage.Text EmptyString;
     DashboardPage.control := VStr typed |}.

(** The page as it is loaded, sorted by descending total, with [people]
    loaded and the two inputs filled in. *)
Definition page_holding (people : list value) (year search : string)
  : DashboardPage.world :=
  {| DashboardPage.st :=
       {| DashboardPage.people := 0%nat; DashboardPage.filtered := 1%nat;
          DashboardPage.sortKey := "total";
          DashboardPage.sortDirection := "desc";
          DashboardPage.selectedId := VNull;
          DashboardPage.detail := VNull |};
     DashboardPage.heap := [people; []];
     DashboardPage.doc :=
       [(DashboardPage.YEAR_INPUT_ID, input_holding year);
        (DashboardPage.SEARCH_INPUT_ID, input_holding search);
        (DashboardPage.STATUS_MESSAGE_ID, blank);
        (DashboardPage.TOTAL_MEALS_ID, blank);
        (DashboardPage.TOTAL_OTHER_ID, blank);
        (DashboardPage.TOTAL_VEHICLES_ID, blank);
        (DashboardPage.TOTAL_DEDUCTION_ID, blank);
        (DashboardPage.TABLE_BODY_ID, blank);
        (DashboardPage.DETAIL_PANEL_ID, blank)];
     DashboardPage.headers :=
       map (fun key => {| DashboardPage.data_key := key;
                          DashboardPage.sorted := String.eqb key "total" |})
           ["person"; "household"; "meals"; "other"; "vehicles"; "total"];
     DashboardPage.requests := [] |}.

(** Two summaries, the first with its meals amount sent as a string. *)
Definition people_with_a_string_amount : list value :=
  [summary_sent 1 "Alice" "Martin" "Foyer Martin"
     (VStr "18") (VNum 10) (VNum 635) (VNum 663) ["Peugeot 308"];
   summary_sent 2 "Bob" "Durand" "Foyer Durand"
     (VNum 20) (VNum 250) (VNum 2645) (VNum 2915) ["Clio"]]%float.

(** A person that came without vehicle summaries. *)
Definition person_without_vehicles : value :=
  VObj [("person_id", VNum 3%float); ("first_name", VStr "Chloé");
        ("last_name", VStr "Petit"); ("household_name", VStr "Foyer Petit")].

(** *** The forms and their server, for the examples *)

(** [JSON.stringify] on the payloads of the forms: objects of finite
    numbers, of [null] and of strings that need no escape. *)
Fixpoint payload_text (v : value) : string :=
  match v with
  | VUndefined | VNull => "null"
  | VBool b => if b then "true" else "false"
  | VNum n => if Number_isFinite (VNum n) then Reference.toString n
              else "null"
  | VStr s => quoted s
  | VArr l => "[" ++ join_strings "," (map payload_text l) ++ "]"
  | VObj o =>
      "{" ++ join_strings ","
               (map (fun '(k, x) => quoted k ++ ":" ++ payload_text x) o) ++
      "}"
  end.

(** A server that creates households, answering without a body, and
    knows no household to update or delete. *)
Definition forms_server : DashboardForms.Server :=
  {| DashboardForms.send := fun sent =>
       if String.eqb (DashboardForms.endpoint sent) "/households" &&
          String.eqb (DashboardForms.method sent) "POST"
       then Ok {| DashboardPage.ok := true;
                  DashboardPage.status := 201%float;
                  DashboardPage.body := EmptyString |}
       else Ok {| DashboardPage.ok := false;
                  DashboardPage.status := 404%float;
                  DashboardPage.body := "Foyer introuvable" |};
     DashboardForms.JSON_stringify := payload_text;
     DashboardForms.TypeError_message := "Failed to fetch" |}.

(** The dashboard page with its status lines and reference tables, the
    form that creates a household and the form that deletes one, filled
    in with [name] and [id]. *)
Definition page_with_forms (name id : string) : DashboardForms.world :=
  let p := page_holding [] "2024" EmptyString in
  {| DashboardForms.page :=
       {| DashboardPage.st := DashboardPage.st p;
          DashboardPage.heap := DashboardPage.heap p;
          DashboardPage.doc :=
            (DashboardPage.doc p ++
             [(DashboardForms.FORM_STATUS_ID, blank);
              (DashboardForms.ADMIN_STATUS_ID, blank);
              (DashboardForms.HOUSEHOLDS_TABLE_ID, blank);
              (DashboardForms.PERSONS_TABLE_ID, blank);
              (DashboardForms.VEHICLES_TABLE_ID, blank)])%list;
          DashboardPage.headers := DashboardPage.headers p;
          DashboardPage.requests := [] |};
     DashboardForms.forms :=
       [("household-form",
         {| DashboardForms.controls := [("name", HTMLInputElement name)];
            DashboardForms.initial :=
              [("name", HTMLInputElement EmptyString)] |});
        ("household-delete-form",
         {| DashboardForms.controls := [("id", HTMLInputElement id)];
            DashboardForms.initial :=
              [("id", HTMLInputElement EmptyString)] |})];
     DashboardForms.admin :=
       {| DashboardForms.households := VArr [];
          DashboardForms.persons := VArr [];
          DashboardForms.vehicles := VArr [] |};
     DashboardForms.submissions := [] |}.

(** *** Row menus and scales, for the examples *)

(** No menu is open. *)
Definition menus_closed : AdminMarkup.menus :=
  {| AdminMarkup.menu_open := fun _ => false; AdminMarkup.openMenu := None |}.

(** Two row menus, the first one open, and a button between them. *)
Definition two_row_menus : list Admin.classes :=
  [ {| Admin.element_id := "menu-1"; Admin.row_menu := true;
       Admin.is_open := true |};
    {| Admin.element_id := "submit"; Admin.row_menu := false;
       Admin.is_open := false |};
    {| Admin.element_id := "menu-2"; Admin.row_menu := true;
       Admin.is_open := false |} ].

(** A scale entry of 5 CV with the given brackets. *)
Definition scale_entry (brackets : list value) : object :=
  [("power_cv", VNum 5%float); ("brackets", VArr brackets)].

(** A bracket as the markup revision reads it. *)
Definition bracket (rate fixed : float) : value :=
  VObj [("rate", VNum rate); ("fixed", VNum fixed)].

(** * Properties *)

From Stdlib Require Import Lqa.

(** ** Numbers *)

Lemma is_nan_spec (x : float) :
  PrimFloat.is_nan x = false -> Prim2SF x <> S754_nan.
Proof.
  unfold PrimFloat.is_nan. rewrite FloatAxioms.eqb_spec. intros H E.
  rewrite E in H. discriminate H.
Qed.

Lemma compare_cont_antisym (p q : positive) :
  Pos.compare_cont Eq q p = CompOpp (Pos.compare_cont Eq p q).
Proof. apply Pos.compare_antisym. Qed.

Lemma SFcompare_antisym (x y : spec_float) :
  SFcompare y x =
  match SFcompare x y with Some c => Some (CompOpp c) | None => None end.
Proof.
  destruct x as [sx|sx| |sx mx ex], y as [sy|sy| |sy my ey]; cbn [SFcompare];
    try reflexivity; try (destruct sx; reflexivity);
    try (destruct sy; reflexivity); try (destruct sx, sy; reflexivity).
  rewrite (Z.compare_antisym ex ey).
  change (PosDef.Pos.compare_cont Eq my mx) with (Pos.compare_cont Eq my mx).
  change (PosDef.Pos.compare_cont Eq mx my) with (Pos.compare_cont Eq mx my).
  rewrite (compare_cont_antisym mx my).
  destruct sx, sy; try reflexivity;
    destruct (ex ?= ey)%Z; cbn [CompOpp]; try reflexivity;
    destruct (Pos.compare_cont Eq mx my); reflexivity.
Qed.

Lemma SFcompare_defined (x y : spec_float) :
  x <> S754_nan -> y <> S754_nan -> SFcompare x y <> None.
Proof.
  destruct x, y; cbn [SFcompare]; congruence.
Qed.

(** For numbers that are not [NaN], "not below" is "at least". *)
Lemma not_ltb_leb (x y : float) :
  PrimFloat.is_nan x = false -> PrimFloat.is_nan y = false ->
  negb (PrimFloat.ltb x y) = PrimFloat.leb y x.
Proof.
  intros Hx Hy. apply is_nan_spec in Hx. apply is_nan_spec in Hy.
  rewrite ltb_spec, leb_spec. unfold SFltb, SFleb.
  rewrite (SFcompare_antisym (Prim2SF x) (Prim2SF y)).
  pose proof (SFcompare_defined _ _ Hx Hy) as Hd.
  destruct (SFcompare (Prim2SF x) (Prim2SF y)) as [[| |]|]; try reflexivity.
  congruence.
Qed.

Lemma isFinite_not_nan (n : float) :
  Number_isFinite (VNum n) = true -> PrimFloat.is_nan n = false.
Proof.
  cbn [Number_isFinite]. intro H. apply negb_true_iff in H.
  apply orb_false_iff in H. exact (proj1 H).
Qed.

Lemma not_a_finite_number_spec (v : value) :
  not_a_finite_number v <-> Number_isFinite v = false.
Proof.
  destruct v as [| | |n| | |]; cbn [not_a_finite_number Number_isFinite];
    try (split; [reflexivity|exact (fun _ => I)]).
  rewrite negb_false_iff, orb_true_iff. reflexivity.
Qed.

Lemma float_sum_exact (l : list float) (acc : float) :
  adds_exactly acc l ->
  (Q_of_float (float_sum acc l) ==
   Q_of_float acc + Core.Qsum (map Q_of_float l))%Q.
Proof.
  revert acc. induction l as [|x r IH]; intros acc H.
  - cbn. lra.
  - destruct H as [Hx Hr]. cbn [float_sum fold_left map Core.Qsum fold_right].
    change (fold_left PrimFloat.add r (acc + x)%float)
      with (float_sum (acc + x) r).
    rewrite (IH _ Hr), Hx. unfold Core.Qsum. lra.
Qed.

Lemma Qsum_of_parts (ams : list Summary.amounts) :
  (forall a, In a ams ->
     Q_of_float (Summary.total_deduction a) ==
     Q_of_float (Summary.vehicle_deduction_total a) +
     Q_of_float (Summary.meals_deduction a) +
     Q_of_float (Summary.other_expenses a))%Q ->
  (Core.Qsum (map Q_of_float (map Summary.total_deduction ams)) ==
   Core.Qsum (map Q_of_float (map Summary.vehicle_deduction_total ams)) +
   Core.Qsum (map Q_of_float (map Summary.meals_deduction ams)) +
   Core.Qsum (map Q_of_float (map Summary.other_expenses ams)))%Q.
Proof.
  induction ams as [|a r IH]; intro H.
  - cbn. lra.
  - cbn [map Core.Qsum fold_right].
    rewrite (H a (or_introl eq_refl)).
    unfold Core.Qsum in IH. rewrite IH; [lra|].
    intros b Hb. apply H. right. exact Hb.
Qed.

(** ** Lists and results *)

Lemma filter_Subsequence {A : Type} (f : A -> bool) (l : list A) :
  Subsequence (filter f l) l.
Proof.
  induction l as [|x r IH]; [constructor|].
  cbn [filter]. destruct (f x); constructor; exact IH.
Qed.

Lemma filter_none {A : Type} (f : A -> bool) (l : list A) :
  (forall x, In x l -> f x = false) -> filter f l = [].
Proof.
  induction l as [|x r IH]; intro H; [reflexivity|].
  cbn [filter]. rewrite (H x (or_introl eq_refl)). apply IH.
  intros y Hy. apply H. right. exact Hy.
Qed.

Lemma filterM_pure {A : Type} (f : A -> result bool) (g : A -> bool)
    (l : list A) :
  Forall (fun x => f x = Ok (g x)) l -> filterM f l = Ok (filter g l).
Proof.
  induction 1 as [|x r Hx Hr IH]; [reflexivity|].
  cbn [filterM filter]. rewrite Hx, IH. cbn [bind]. reflexivity.
Qed.

Lemma mapM_pure {A B : Type} (f : A -> result B) (g : A -> B) (l : list A) :
  Forall (fun x => f x = Ok (g x)) l -> mapM f l = Ok (map g l).
Proof.
  induction 1 as [|x r Hx Hr IH]; [reflexivity|].
  cbn [mapM map]. rewrite Hx, IH. cbn [bind]. reflexivity.
Qed.

Lemma same_rendering_false (a b : result string) :
  same_rendering a b = false -> a <> b.
Proof.
  intros H E. subst b. destruct a as [x|[|x]]; cbn in H;
    try discriminate; rewrite String.eqb_refl in H; discriminate.
Qed.

(** ** The store *)

Lemma read_some_lt (h : store) (l : loc) (a : list value) :
  read h l = Some a -> (l < List.length h)%nat.
Proof. unfold read. intro H. apply nth_error_Some. congruence. Qed.

Lemma read_alloc_old (h : store) (a : list value) (l : loc) :
  (l < List.length h)%nat -> read (snd (alloc h a)) l = read h l.
Proof.
  intro H. unfold read, alloc. cbn [snd]. apply nth_error_app1. exact H.
Qed.

Lemma read_alloc_new (h : store) (a : list value) :
  read (snd (alloc h a)) (fst (alloc h a)) = Some a.
Proof.
  unfold read, alloc. cbn [fst snd]. rewrite nth_error_app2 by lia.
  rewrite Nat.sub_diag. reflexivity.
Qed.

Lemma read_alloc_other (h : store) (a : list value) (l : loc) :
  l <> List.length h -> read (snd (alloc h a)) l = read h l.
Proof.
  intro Hl. unfold read, alloc. cbn [snd].
  destruct (Nat.lt_ge_cases l (List.length h)) as [Hlt|Hge].
  - apply nth_error_app1. exact Hlt.
  - assert (Hnone : nth_error h l = None) by (apply nth_error_None; exact Hge).
    rewrite Hnone. apply nth_error_None. rewrite length_app.
    cbn [List.length]. lia.
Qed.

Lemma read_write_same (h : store) (l : loc) (a : list value) :
  (l < List.length h)%nat -> read (write h l a) l = Some a.
Proof.
  unfold read. revert l.
  induction h as [|b r IH]; intros l Hl; [inversion Hl|].
  destruct l as [|l]; [reflexivity|]. cbn [write nth_error]. apply IH.
  cbn [List.length] in Hl. lia.
Qed.

Lemma read_write_other (h : store) (l l' : loc) (a : list value) :
  l <> l' -> read (write h l a) l' = read h l'.
Proof.
  unfold read. revert l l'.
  induction h as [|b r IH]; intros l l' Hne; [reflexivity|].
  destruct l as [|l], l' as [|l']; try reflexivity; [congruence|].
  cbn [write nth_error]. apply IH. congruence.
Qed.

(** ** Sorting *)

Lemma sort_insert_permutation (cmp : value -> value -> result float)
    (x : value) (l r : list value) :
  sort_insert cmp x l = Ok r -> Permutation (x :: l) r.
Proof.
  revert r. induction l as [|y t IH]; intros r H.
  - injection H as <-. apply Permutation_refl.
  - cbn [sort_insert] in H.
    destruct (SortCompare cmp x y) as [c|e]; [|discriminate].
    cbn [bind] in H. destruct (PrimFloat.ltb 0 c).
    + destruct (sort_insert cmp x t) as [r'|e] eqn:Hr; [|discriminate].
      cbn [bind] in H. injection H as <-.
      apply perm_trans with (y :: x :: t); [apply perm_swap|].
      apply perm_skip. apply IH. reflexivity.
    + injection H as <-. apply Permutation_refl.
Qed.

Lemma Array_sort_permutation (cmp : value -> value -> result float)
    (l r : list value) :
  Array_sort cmp l = Ok r -> Permutation l r.
Proof.
  revert r. induction l as [|x t IH]; intros r H.
  - injection H as <-. apply perm_nil.
  - cbn [Array_sort] in H.
    destruct (Array_sort cmp t) as [s|e]; [|discriminate].
    cbn [bind] in H. apply perm_trans with (x :: s).
    + apply perm_skip. apply IH. reflexivity.
    + apply sort_insert_permutation with cmp. exact H.
Qed.

Lemma SortCompare_answers (cmp : value -> value -> result float)
    (P : value -> Prop) (x y : value) :
  answers cmp P -> P x -> P y -> exists c, SortCompare cmp x y = Ok c.
Proof.
  intros Hc Hx Hy. unfold SortCompare.
  destruct x, y; try (eexists; reflexivity); apply Hc; assumption.
Qed.

Lemma sort_insert_total (cmp : value -> value -> result float)
    (P : value -> Prop) (x : value) (l : list value) :
  answers cmp P -> P x -> Forall P l -> exists r, sort_insert cmp x l = Ok r.
Proof.
  intros Hc Hx Hl. induction Hl as [|y t Hy Ht IH].
  - eexists; reflexivity.
  - cbn [sort_insert].
    destruct (SortCompare_answers cmp P x y Hc Hx Hy) as [c ->].
    cbn [bind]. destruct (PrimFloat.ltb 0 c).
    + destruct IH as [r ->]. eexists; reflexivity.
    + eexists; reflexivity.
Qed.

(** A comparator that answers makes the sort return. *)
Lemma Array_sort_total (cmp : value -> value -> result float)
    (P : value -> Prop) (l : list value) :
  answers cmp P -> Forall P l -> exists r, Array_sort cmp l = Ok r.
Proof.
  intros Hc Hl. induction Hl as [|x t Hx Ht IH].
  - eexists; reflexivity.
  - cbn [Array_sort]. destruct IH as [s Hs]. rewrite Hs. cbn [bind].
    apply sort_insert_total with P; [exact Hc|exact Hx|].
    apply Array_sort_permutation in Hs.
    rewrite Forall_forall in *. intros z Hz. apply Ht.
    apply Permutation_in with s; [apply Permutation_sym; exact Hs|exact Hz].
Qed.

(** ** The computation engine *)

Module CoreFacts.
Import Core.
Local Open Scope Q_scope.

Lemma Qle_bool_false (x y : Q) : Qle_bool x y = false -> y < x.
Proof.
  intro H. apply Qnot_le_lt. intro Hle. apply Qle_bool_iff in Hle. congruence.
Qed.

(** In a well-formed list the head's bound lies strictly below every later
    bound. *)
Lemma well_formed_head_below (b : Bracket) (r : list Bracket) :
  well_formed (b :: r) = true ->
  forall b', In b' r ->
    exists u, upper_km_bound b = Some u /\
      match upper_km_bound b' with Some u' => u < u' | None => True end.
Proof.
  revert b. induction r as [|c r IH]; intros b Hwf b' Hin; [destruct Hin|].
  cbn [well_formed] in Hwf.
  destruct (upper_km_bound b) as [u|] eqn:Hb; [|discriminate].
  apply andb_true_iff in Hwf. destruct Hwf as [Hlt Hwf].
  exists u. split; [reflexivity|].
  destruct Hin as [->|Hin].
  - destruct (upper_km_bound b') as [u'|]; [|exact I].
    apply negb_true_iff in Hlt. apply Qle_bool_false. exact Hlt.
  - destruct (IH c Hwf b' Hin) as (uc & Hc & Hlater).
    rewrite Hc in Hlt. apply negb_true_iff in Hlt.
    apply Qle_bool_false in Hlt.
    destruct (upper_km_bound b') as [u'|]; [|exact I]. lra.
Qed.

Lemma well_formed_tail (b c : Bracket) (r : list Bracket) :
  well_formed (b :: c :: r) = true -> well_formed (c :: r) = true.
Proof.
  cbn [well_formed]. destruct (upper_km_bound b); [|discriminate].
  intro H. apply andb_true_iff in H. exact (proj2 H).
Qed.

(** The scan of a well-formed list always finds a bracket; it covers the
    distance and no bracket that covers the distance has a smaller bound. *)
Lemma locate_bracket_smallest (km : Q) (bs : list Bracket) :
  well_formed bs = true ->
  exists b, locate_bracket km bs = Some b /\ In b bs /\ covers km b = true /\
    forall b', In b' bs -> covers km b' = true ->
      bound_le (upper_km_bound b) (upper_km_bound b').
Proof.
  induction bs as [|b r IH]; intro Hwf; [discriminate|].
  cbn [locate_bracket]. destruct (covers km b) eqn:Hc.
  - exists b. split; [reflexivity|]. split; [left; reflexivity|].
    split; [exact Hc|].
    intros b' [<-|Hin] _.
    + unfold bound_le. destruct (upper_km_bound b); [apply Qle_refl|exact I].
    + destruct (well_formed_head_below b r Hwf b' Hin) as (u & Hu & Hlt).
      rewrite Hu. unfold bound_le. destruct (upper_km_bound b'); [lra|exact I].
  - destruct r as [|c r].
    + cbn [well_formed] in Hwf. unfold covers in Hc.
      destruct (upper_km_bound b); discriminate.
    + destruct (IH (well_formed_tail _ _ _ Hwf)) as (x & Hx & Hin & Hcov & Hmin).
      exists x. split; [exact Hx|]. split; [right; exact Hin|].
      split; [exact Hcov|].
      intros b' [<-|Hin'] Hcov'; [congruence|]. apply Hmin; assumption.
Qed.

(** A distance equal to a bracket's bound is located in that bracket. *)
Lemma locate_bracket_at_bound (bs : list Bracket) (b : Bracket) (u : Q) :
  well_formed bs = true -> In b bs -> upper_km_bound b = Some u ->
  locate_bracket u bs = Some b.
Proof.
  induction bs as [|h r IH]; intros Hwf Hin Hu; [destruct Hin|].
  cbn [locate_bracket]. destruct Hin as [->|Hin].
  - unfold covers. rewrite Hu.
    replace (Qle_bool u u) with true; [reflexivity|].
    symmetry. apply Qle_bool_iff. apply Qle_refl.
  - destruct (well_formed_head_below h r Hwf b Hin) as (uh & Hh & Hlt).
    rewrite Hu in Hlt. unfold covers. rewrite Hh.
    destruct (Qle_bool u uh) eqn:Hle.
    + apply Qle_bool_iff in Hle. lra.
    + destruct r as [|c r]; [destruct Hin|].
      apply IH; [exact (well_formed_tail _ _ _ Hwf)|exact Hin|exact Hu].
Qed.

Lemma Qfloor_cents_half (z : Z) : Qfloor ((z # 100) * 100 + (1 # 2)) = z.
Proof.
  unfold Qfloor, Qplus, Qmult. cbn [Qnum Qden].
  symmetry. apply Z.div_unique with (r := 100%Z); lia.
Qed.

(** Rounding an amount that is a whole number of cents changes nothing. *)
Lemma round2_cents (q : Q) (z : Z) : q == z # 100 -> round2 q == z # 100.
Proof.
  intro H. unfold round2. rewrite H, Qfloor_cents_half. reflexivity.
Qed.

Lemma cents_plus (a b : Z) : (a # 100) + (b # 100) == (a + b) # 100.
Proof. unfold Qeq, Qplus. simpl. lia. Qed.

(** Rounding the sum of three rounded amounts changes nothing. *)
Lemma round2_sum_of_rounded (a b c : Q) :
  round2 (round2 a + round2 b + round2 c) == round2 a + round2 b + round2 c.
Proof.
  set (s := round2 a + round2 b + round2 c).
  assert (E : s == (Qfloor (a * 100 + (1 # 2)) + Qfloor (b * 100 + (1 # 2)) +
                    Qfloor (c * 100 + (1 # 2))) # 100).
  { unfold s, round2. rewrite !cents_plus. reflexivity. }
  rewrite (round2_cents s _ E). symmetry. exact E.
Qed.

(** A sum of whole numbers of cents is one. *)
Lemma Qsum_cents (l : list Q) :
  (forall q, In q l -> exists z, q == z # 100) ->
  exists z, Qsum l == z # 100.
Proof.
  induction l as [|q r IH]; intro H.
  - exists 0%Z. reflexivity.
  - destruct (H q (or_introl eq_refl)) as [zq Hq].
    destruct IH as [zr Hr]; [intros x Hx; apply H; right; exact Hx|].
    exists (zq + zr)%Z. cbn [Qsum fold_right]. unfold Qsum in Hr.
    rewrite Hq, Hr. apply cents_plus.
Qed.

(** What the aggregator returns, when it returns. *)
Lemma compute_done (person_id year : Z) (entries : Entries)
    (scale : MileageScale) (cap : MealCapConfig) (d : PersonAnnualDetail) :
  compute_person_annual_detail person_id year entries scale cap = Done d ->
  exists m o : Q,
    mileage_deduction_total d = round2 m /\
    meals_deduction_total d =
      round2 (Qsum (map (fun e => resolve_meal_deduction (MealEntry.meal_cost e) cap)
                        (meal_expenses d))) /\
    other_expenses_total d = round2 o /\
    total_deduction d =
      round2 (mileage_deduction_total d + meals_deduction_total d +
              other_expenses_total d).
Proof.
  unfold compute_person_annual_detail, and_then.
  destruct (for_each check_mileage _); [|discriminate].
  destruct (for_each check_meal _); [|discriminate].
  destruct (for_each check_other _) as [amounts|]; [|discriminate].
  destruct (for_each (vehicle_deduction _ _ _) _) as [deductions|];
    [|discriminate].
  intro H. injection H as <-.
  exists (Qsum deductions), (Qsum amounts). repeat split.
Qed.

(** Without a row of the person and year, every list is empty and every
    total is the rounding of an empty sum. *)
Lemma compute_without_rows (person_id year : Z) (entries : Entries)
    (scale : MileageScale) (cap : MealCapConfig) :
  (forall e, In e (mileage entries) ->
     MileageEntry.person_id e <> person_id \/ MileageEntry.year e <> year) ->
  (forall e, In e (meals entries) ->
     MealEntry.person_id e <> person_id \/ MealEntry.year e <> year) ->
  (forall e, In e (others entries) ->
     OtherExpenseEntry.person_id e <> person_id \/
     OtherExpenseEntry.year e <> year) ->
  compute_person_annual_detail person_id year entries scale cap =
  Done {| mileage_entries := []; meal_expenses := []; other_expenses := [];
          mileage_total_km := 0;
          mileage_deduction_total := round2 0;
          meals_deduction_total := round2 0;
          other_expenses_total := round2 0;
          total_deduction := round2 (round2 0 + round2 0 + round2 0) |}.
Proof.
  intros Hm Hl Ho. unfold compute_person_annual_detail.
  rewrite (filter_none _ (mileage entries)).
  2: { intros e He. apply andb_false_iff.
       destruct (Hm e He) as [H|H]; [left|right]; apply Z.eqb_neq; exact H. }
  rewrite (filter_none _ (meals entries)).
  2: { intros e He. apply andb_false_iff.
       destruct (Hl e He) as [H|H]; [left|right]; apply Z.eqb_neq; exact H. }
  rewrite (filter_none _ (others entries)).
  2: { intros e He. apply andb_false_iff.
       destruct (Ho e He) as [H|H]; [left|right]; apply Z.eqb_neq; exact H. }
  reflexivity.
Qed.

End CoreFacts.

(** The scenarios of section 8 of the specification. *)

Example scenario_5000_km :
  Core.resolve_mileage_deduction 5 5000%Q scenario_scale
  = Core.Done (264500 # 100)%Q.
Proof. reflexivity. Qed.

Example scenario_5001_km :
  Core.resolve_mileage_deduction 5 5001%Q scenario_scale
  = Core.Done (264532 # 100)%Q.
Proof. reflexivity. Qed.

Example scenario_meals :
  map (fun cost => Core.resolve_meal_deduction cost scenario_caps)
      [4%Q; 10%Q; 25%Q]
  = [0%Q; 10%Q; (2070 # 100)%Q].
Proof. reflexivity. Qed.

Example scenario_same_month_rows_add_up :
  (Core.aggregate_vehicle_km (Core.mileage scenario_entries) == 150)%Q.
Proof. reflexivity. Qed.

Example scenario_detail :
  match Core.compute_person_annual_detail 1 2024 scenario_entries
          scenario_scale scenario_caps with
  | Core.Done d =>
      Core.mileage_deduction_total d = (7935 # 100)%Q /\
      Core.meals_deduction_total d = (3070 # 100)%Q /\
      Core.other_expenses_total d = (24990 # 100)%Q /\
      Core.total_deduction d = (35995 # 100)%Q
  | Core.Failed _ => False
  end.
Proof. vm_compute. repeat split. Qed.

(** C1. For a scale entry with well-formed brackets and a distance that is
    not negative, the mileage deduction is the formula of one bracket,
    [annual_km * rate_per_km + fixed_allowance], rounded to cents: the
    bracket covers the distance and no bracket that covers it has a smaller
    bound.  In particular a distance equal to a bracket's bound is computed
    with that bracket (the bound is inclusive), not with the next one. *)
Theorem mileage_deduction_bracket :
  forall (scale : Core.MileageScale) (fiscal_power_cv : Z)
         (bs : list Core.Bracket) (annual_km : Q),
    Core.lookup_scale fiscal_power_cv scale = Some bs ->
    Core.well_formed bs = true ->
    (0 <= annual_km)%Q ->
    (exists b,
        In b bs /\ Core.covers annual_km b = true /\
        (forall b', In b' bs -> Core.covers annual_km b' = true ->
           Core.bound_le (Core.upper_km_bound b) (Core.upper_km_bound b')) /\
        Core.resolve_mileage_deduction fiscal_power_cv annual_km scale =
        Core.Done (Core.round2 (annual_km * Core.rate_per_km b +
                                Core.fixed_allowance b)%Q)) /\
    (forall b u,
        In b bs -> Core.upper_km_bound b = Some u -> (0 <= u)%Q ->
        Core.resolve_mileage_deduction fiscal_power_cv u scale =
        Core.Done (Core.round2 (u * Core.rate_per_km b +
                                Core.fixed_allowance b)%Q)).
Proof.
  intros scale cv bs km Hscale Hwf Hkm. split.
  - destruct (CoreFacts.locate_bracket_smallest km bs Hwf)
      as (b & Hloc & Hin & Hcov & Hmin).
    exists b. repeat split; try assumption.
    unfold Core.resolve_mileage_deduction.
    replace (Qle_bool 0 km) with true by (symmetry; apply Qle_bool_iff; exact Hkm).
    rewrite Hscale, Hloc. reflexivity.
  - intros b u Hin Hu Hpos.
    unfold Core.resolve_mileage_deduction.
    replace (Qle_bool 0 u) with true by (symmetry; apply Qle_bool_iff; exact Hpos).
    rewrite Hscale, (CoreFacts.locate_bracket_at_bound bs b u Hwf Hin Hu).
    reflexivity.
Qed.

Lemma mileage_deduction_bracket_witness :
  Core.resolve_mileage_deduction 5 5000%Q scenario_scale =
  Core.Done (Core.round2 (5000 * (529 # 1000) + 0)%Q).
Proof.
  refine (proj2 (mileage_deduction_bracket scenario_scale 5 _ 5000%Q
                   eq_refl eq_refl _)
                {| Core.upper_km_bound := Some 5000%Q;
                   Core.rate_per_km := (529 # 1000)%Q;
                   Core.fixed_allowance := 0%Q |}
                5000%Q _ eq_refl _).
  - unfold Qle. simpl. lia.
  - simpl. left. reflexivity.
  - unfold Qle. simpl. lia.
Defined.



(** ** Form submissions *)

Section FormFacts.
Context {RT : Runtime}.

Lemma getFormValue_spec (f : form) (name : string) :
  match Dashboard.getFormValue f name with
  | Ok s => field f name = Some s
  | Throw (Error _) => field f name = None
  | Throw TypeError => False
  end.
Proof.
  unfold Dashboard.getFormValue, field.
  destruct (namedItem name f) as [[v|]|]; reflexivity.
Qed.

Lemma parseIntegerField_spec (value label : string) (lo : float)
    (hi : option float) :
  PrimFloat.is_nan lo = false ->
  match hi with Some h => PrimFloat.is_nan h = false | None => True end ->
  match Dashboard.parseIntegerField value label (Some lo) hi with
  | Ok n => integer_within lo hi value = true /\ n = Number_parseInt value
  | Throw (Error _) => integer_within lo hi value = false
  | Throw TypeError => False
  end.
Proof.
  intros Hlo Hhi. unfold Dashboard.parseIntegerField, integer_within.
  destruct (Number_isFinite (VNum (Number_parseInt value))) eqn:Hfin;
    cbn [negb andb].
  2: reflexivity.
  pose proof (isFinite_not_nan _ Hfin) as Hn.
  rewrite <- (not_ltb_leb (Number_parseInt value) lo Hn Hlo).
  destruct (PrimFloat.ltb (Number_parseInt value) lo); cbn [negb andb].
  1: reflexivity.
  destruct hi as [h|]; [|split; reflexivity].
  rewrite <- (not_ltb_leb h (Number_parseInt value) Hhi Hn).
  destruct (PrimFloat.ltb h (Number_parseInt value)); cbn [negb];
    [reflexivity|split; reflexivity].
Qed.

Lemma parseDecimalField_spec (value label : string) (lo : float) :
  PrimFloat.is_nan lo = false ->
  match Dashboard.parseDecimalField value label (Some lo) with
  | Ok x => decimal_at_least lo value = true /\ x = Number_parseFloat value
  | Throw (Error _) => decimal_at_least lo value = false
  | Throw TypeError => False
  end.
Proof.
  intros Hlo. unfold Dashboard.parseDecimalField, decimal_at_least.
  destruct (Number_isFinite (VNum (Number_parseFloat value))) eqn:Hfin;
    cbn [negb andb].
  2: reflexivity.
  pose proof (isFinite_not_nan _ Hfin) as Hn.
  rewrite <- (not_ltb_leb (Number_parseFloat value) lo Hn Hlo).
  destruct (PrimFloat.ltb (Number_parseFloat value) lo); cbn [negb];
    [reflexivity|split; reflexivity].
Qed.

Lemma parseTextField_spec (value label : string) (maxLength : nat) :
  maxLength <> 0%nat ->
  match Dashboard.parseTextField value label maxLength with
  | Ok s => text_within maxLength value = true /\ s = value
  | Throw (Error _) => text_within maxLength value = false
  | Throw TypeError => False
  end.
Proof.
  intro Hm. unfold Dashboard.parseTextField, text_within.
  destruct (String.eqb value EmptyString); cbn [negb andb]; [reflexivity|].
  destruct maxLength as [|m]; [congruence|]. cbn [Nat.eqb negb andb].
  destruct (Nat.ltb (S m) (String_length value)) eqn:Hlt.
  - apply Nat.ltb_lt in Hlt. apply Nat.leb_gt. exact Hlt.
  - apply Nat.ltb_ge in Hlt. split; [|reflexivity].
    apply Nat.leb_le. exact Hlt.
Qed.

Ltac failed f H :=
  repeat match goal with
         | |- context [field f ?n] => destruct (field f n)
         end;
  rewrite ?H; cbn [andb]; rewrite ?andb_false_r; reflexivity.

Ltac read_field f name :=
  let H := fresh "Hfield" in
  pose proof (getFormValue_spec f name) as H;
  destruct (Dashboard.getFormValue f name) as [?s|[|?msg]]; cbn [bind] in *;
  [ rewrite H | contradiction
  | rewrite H; repeat match goal with
                      | |- context [field f ?n] => destruct (field f n)
                      end; reflexivity ].

Ltac parse_integer f value label lo hi :=
  let H := fresh "Hparse" in
  pose proof (parseIntegerField_spec value label lo hi eq_refl) as H;
  destruct (Dashboard.parseIntegerField value label (Some lo) hi)
    as [?n|[|?msg]];
  cbn [bind] in *;
  [ specialize (H ltac:(first [exact I | reflexivity]));
    destruct H as [H ->]; rewrite H; cbn [andb]
  | exact (H ltac:(first [exact I | reflexivity]))
  | specialize (H ltac:(first [exact I | reflexivity])); failed f H ].

Ltac parse_decimal f value label lo :=
  let H := fresh "Hparse" in
  pose proof (parseDecimalField_spec value label lo eq_refl) as H;
  destruct (Dashboard.parseDecimalField value label (Some lo))
    as [?x|[|?msg]];
  cbn [bind] in *;
  [ destruct H as [H ->]; rewrite H; cbn [andb]
  | exact H
  | failed f H ].

Ltac parse_text f value label n :=
  let H := fresh "Hparse" in
  pose proof (parseTextField_spec value label n ltac:(discriminate)) as H;
  destruct (Dashboard.parseTextField value label n) as [?t|[|?msg]];
  cbn [bind] in *;
  [ destruct H as [H ->]; rewrite H; cbn [andb]
  | exact H
  | failed f H ].

Lemma buildMileagePayload_agrees (f : form) :
  agrees (Dashboard.buildMileagePayload f) (accepted_mileage f).
Proof.
  unfold agrees, Dashboard.buildMileagePayload, accepted_mileage.
  read_field f "person_id".
  parse_integer f s "ID de la personne" 1%float (@None float).
  read_field f "vehicle_id".
  parse_integer f s0 "ID du véhicule" 1%float (@None float).
  read_field f "year".
  parse_integer f s1 "Année" 2000%float (Some 2100%float).
  read_field f "month".
  parse_integer f s2 "Mois" 1%float (Some 12%float).
  read_field f "km".
  parse_decimal f s3 "Kilomètres" 0%float.
  reflexivity.
Qed.

Lemma buildMealPayload_agrees (f : form) :
  agrees (Dashboard.buildMealPayload f) (accepted_meal f).
Proof.
  unfold agrees, Dashboard.buildMealPayload, accepted_meal.
  read_field f "person_id".
  parse_integer f s "ID de la personne" 1%float (@None float).
  read_field f "year".
  parse_integer f s0 "Année" 2000%float (Some 2100%float).
  read_field f "month".
  parse_integer f s1 "Mois" 1%float (Some 12%float).
  read_field f "meal_cost".
  parse_decimal f s2 "Montant repas" 0%float.
  reflexivity.
Qed.

Lemma buildOtherExpensePayload_agrees (f : form) :
  agrees (Dashboard.buildOtherExpensePayload f) (accepted_other f).
Proof.
  unfold agrees, Dashboard.buildOtherExpensePayload, accepted_other.
  read_field f "person_id".
  parse_integer f s "ID de la personne" 1%float (@None float).
  read_field f "year".
  parse_integer f s0 "Année" 2000%float (Some 2100%float).
  read_field f "description".
  parse_text f s1 "Description" 160%nat.
  read_field f "amount".
  parse_decimal f s2 "Montant" 0%float.
  read_field f "attachment_path".
  reflexivity.
Qed.
End FormFacts.

(** C4, as the code has it.  Each payload builder returns its payload on
    exactly the forms it accepts and throws an [Error] on all others.  A
    mileage form is accepted when its five controls are inputs, the person
    and vehicle identifiers are integers from 1, the year lies in
    2000..2100, the month in 1..12, and the distance is a finite number
    from 0; a meal form likewise, without the vehicle; another expense has
    no month, and needs a description of 1 to 160 code units. *)
Theorem payload_builders_accept_exactly :
  forall (RT : Runtime) (f : form),
    agrees (Dashboard.buildMileagePayload f) (accepted_mileage f) /\
    agrees (Dashboard.buildMealPayload f) (accepted_meal f) /\
    agrees (Dashboard.buildOtherExpensePayload f) (accepted_other f).
Proof.
  intros RT f. split; [|split].
  - apply buildMileagePayload_agrees.
  - apply buildMealPayload_agrees.
  - apply buildOtherExpensePayload_agrees.
Qed.

(** C4 as stated fails: with a valid month, year and distance, the mileage
    builder still throws when the person identifier is 0. *)
Lemma valid_period_and_amount_rejected :
  period_and_amount_valid (RT := Reference.runtime) "km" form_with_person_zero
    = true /\
  Dashboard.buildMileagePayload (RT := Reference.runtime) form_with_person_zero
    = Throw (Error "ID de la personne doit être ≥ 1.").
Proof. split; vm_compute; reflexivity. Qed.

(** The builders on ordinary input. *)
Example mileage_payload_built :
  Dashboard.buildMileagePayload (RT := Reference.runtime)
    [("person_id", HTMLInputElement "1");
     ("vehicle_id", HTMLInputElement "1");
     ("year", HTMLInputElement "2024");
     ("month", HTMLInputElement " 5 ");
     ("km", HTMLInputElement "1200.5")]
  = Ok (VObj [("person_id", VNum 1); ("vehicle_id", VNum 1);
              ("year", VNum 2024); ("month", VNum 5);
              ("km", VNum 1200.5)]%float).
Proof. vm_compute. reflexivity. Qed.

Example negative_distance_rejected :
  Dashboard.buildMileagePayload (RT := Reference.runtime)
    [("person_id", HTMLInputElement "1");
     ("vehicle_id", HTMLInputElement "1");
     ("year", HTMLInputElement "2024");
     ("month", HTMLInputElement "5");
     ("km", HTMLInputElement "-3")]
  = Throw (Error "Kilomètres doit être ≥ 0.").
Proof. vm_compute. reflexivity. Qed.

(** The parsers read the numeral at the head of the text: a month typed as
    "5.9x" is accepted as 5. *)
Example numeric_prefix_accepted :
  Dashboard.buildMealPayload (RT := Reference.runtime)
    [("person_id", HTMLInputElement "1");
     ("year", HTMLInputElement "2024");
     ("month", HTMLInputElement "5.9x");
     ("meal_cost", HTMLInputElement "18.5 EUR")]
  = Ok (VObj [("person_id", VNum 1); ("year", VNum 2024);
              ("month", VNum 5); ("meal_cost", VNum 18.5)]%float).
Proof. vm_compute. reflexivity. Qed.

Example month_13_rejected :
  Dashboard.buildMealPayload (RT := Reference.runtime)
    [("person_id", HTMLInputElement "1");
     ("year", HTMLInputElement "2024");
     ("month", HTMLInputElement "13");
     ("meal_cost", HTMLInputElement "18.5")]
  = Throw (Error "Mois doit être ≤ 12.").
Proof. vm_compute. reflexivity. Qed.

(** ** Formatting *)

(** C10. Whenever the argument is not a finite number, that is [NaN], an
    infinity, or a value that is not a number at all, [formatCurrency]
    returns the fallback string "0 €" and does not reach the locale
    formatter. *)
Theorem formatCurrency_fallback :
  forall (RT : Runtime) (v : value),
    not_a_finite_number v -> Dashboard.formatCurrency v = "0 €".
Proof.
  intros RT v H. apply not_a_finite_number_spec in H.
  unfold Dashboard.formatCurrency. rewrite H. reflexivity.
Qed.

Lemma formatCurrency_fallback_witness :
  Dashboard.formatCurrency (RT := Reference.runtime) (VNum PrimFloat.nan) = "0 €" /\
  Dashboard.formatCurrency (RT := Reference.runtime) (VNum PrimFloat.infinity) = "0 €" /\
  Dashboard.formatCurrency (RT := Reference.runtime) (VNum PrimFloat.neg_infinity) = "0 €" /\
  Dashboard.formatCurrency (RT := Reference.runtime) VUndefined = "0 €" /\
  Dashboard.formatCurrency (RT := Reference.runtime) (VStr "12.5") = "0 €".
Proof.
  split; [|split; [|split; [|split]]]; apply formatCurrency_fallback; cbn;
    first [exact I | left; reflexivity | right; reflexivity].
Defined.

Example formatCurrency_finite :
  Dashboard.formatCurrency (RT := Reference.runtime) (VNum 2645.32%float)
  = "2" ++ Reference.NNBSP ++ "645,32" ++ Reference.NBSP ++ "€".
Proof. vm_compute. reflexivity. Qed.

(** ** Searching and sorting the people table *)

Section PeopleFacts.
Context {RT : Runtime}.

Lemma matchesQuery_pure (query : string) (person : value) :
  is_person_summary person = true ->
  Dashboard.matchesQuery (String_toLowerCase query) person =
  Ok (person_matches query person).
Proof.
  unfold is_person_summary, Dashboard.matchesQuery, person_matches,
    searched_texts.
  destruct person as [| | | | | |o]; try discriminate.
  cbn [get_prop bind].
  destruct (get o "household_name") as [| | | |hn| |]; try discriminate.
  destruct (get o "vehicle_summaries") as [| | | | |l|]; try discriminate.
  intro Hl. cbn [as_array bind as_string].
  rewrite (mapM_pure (fun vehicle => get_prop vehicle "vehicle_name")
             vehicle_name).
  - cbn [bind existsb]. rewrite orb_false_r.
    destruct (includes _ _); [reflexivity|]. cbn [orb].
    destruct (includes _ _); reflexivity.
  - rewrite forallb_forall in Hl. apply Forall_forall. intros v Hv.
    specialize (Hl v Hv). destruct v; try discriminate. reflexivity.
Qed.

Lemma filterPeople_filters (h : store) (people : loc) (a : list value)
    (query : string) :
  read h people = Some a ->
  Forall (fun p => is_person_summary p = true) a ->
  query <> EmptyString ->
  Dashboard.filterPeople people query h =
    (Ok (List.length h), snd (alloc h (filter (person_matches query) a))).
Proof.
  intros Hr Hp Hq. unfold Dashboard.filterPeople.
  destruct (String.eqb query EmptyString) eqn:E.
  - apply String.eqb_eq in E. contradiction.
  - rewrite Hr. rewrite (filterM_pure _ (person_matches query)).
    + reflexivity.
    + apply Forall_forall. intros p Hin. rewrite Forall_forall in Hp.
      apply matchesQuery_pure. apply Hp. exact Hin.
Qed.

Lemma comparePeople_answers (sortKey direction : string) :
  answers (Dashboard.comparePeople sortKey direction)
          (fun p => is_person_summary p = true).
Proof.
  intros x y Hx Hy. unfold is_person_summary in Hx, Hy.
  destruct x as [| | | | | |ox]; try discriminate.
  destruct y as [| | | | | |oy]; try discriminate.
  destruct (get ox "household_name") as [| | | |sx| |] eqn:Ex;
    try discriminate.
  destruct (get oy "household_name") as [| | | |sy| |] eqn:Ey;
    try discriminate.
  unfold Dashboard.comparePeople. cbn [get_prop bind].
  destruct (String.eqb sortKey "person"); [eexists; reflexivity|].
  destruct (String.eqb sortKey "household").
  - rewrite Ex, Ey. cbn [as_string bind].
    destruct (String.eqb direction "asc"); eexists; reflexivity.
  - destruct (strict_equal _ _); [eexists; reflexivity|].
    destruct (String.eqb direction "asc"); eexists; reflexivity.
Qed.

(** The input array is never modified, whatever it holds and whether or
    not the comparator throws. *)
Lemma sortPeople_input_unmodified (h : store) (people : loc)
    (a : list value) (sortKey direction : string) :
  read h people = Some a ->
  read (snd (Dashboard.sortPeople people sortKey direction h)) people
  = Some a.
Proof.
  intro Hr. unfold Dashboard.sortPeople. rewrite Hr.
  pose proof (read_some_lt _ _ _ Hr) as Hlt.
  change (alloc h a) with (List.length h, (h ++ [a])%list).
  destruct (Array_sort _ a) as [a'|e]; cbn [snd].
  - rewrite read_write_other by lia.
    rewrite <- Hr. apply (read_alloc_old h a people Hlt).
  - rewrite <- Hr. apply (read_alloc_old h a people Hlt).
Qed.

Lemma sortPeople_permutation (h : store) (people : loc) (a : list value)
    (sortKey direction : string) :
  read h people = Some a ->
  Forall (fun p => is_person_summary p = true) a ->
  exists (sorted : loc) (a' : list value) (h' : store),
    Dashboard.sortPeople people sortKey direction h = (Ok sorted, h') /\
    sorted <> people /\
    read h' sorted = Some a' /\
    Permutation a a' /\
    forall l, l <> sorted -> read h' l = read h l.
Proof.
  intros Hr Hp. unfold Dashboard.sortPeople. rewrite Hr.
  pose proof (read_some_lt _ _ _ Hr) as Hlt.
  change (alloc h a) with (List.length h, (h ++ [a])%list).
  destruct (Array_sort_total _ _ a (comparePeople_answers sortKey direction) Hp)
    as [a' Ha'].
  rewrite Ha'.
  exists (List.length h), a', (write (h ++ [a])%list (List.length h) a').
  split; [reflexivity|]. split; [lia|]. split.
  - apply read_write_same. rewrite length_app. cbn [List.length]. lia.
  - split; [exact (Array_sort_permutation _ _ _ Ha')|].
    intros l Hl. rewrite read_write_other by congruence.
    exact (read_alloc_other h a l Hl).
Qed.

(** With a numeric sort key, a person that lacks the field compares like
    the same person with the field set to [0], on either side. *)
Lemma comparePeople_missing_left (sortKey direction : string)
    (left : object) (right : value) :
  String.eqb sortKey "person" = false ->
  String.eqb sortKey "household" = false ->
  lookup sortKey left = None ->
  Dashboard.comparePeople sortKey direction (VObj left) right =
  Dashboard.comparePeople sortKey direction
    (VObj (set sortKey (VNum 0%float) left)) right.
Proof.
  intros Hp Hh Hl. unfold Dashboard.comparePeople. rewrite Hp, Hh.
  cbn [get_prop bind]. unfold get, set. cbn [lookup].
  rewrite Hl, String.eqb_refl. reflexivity.
Qed.

Lemma comparePeople_missing_right (sortKey direction : string)
    (left : value) (right : object) :
  String.eqb sortKey "person" = false ->
  String.eqb sortKey "household" = false ->
  lookup sortKey right = None ->
  Dashboard.comparePeople sortKey direction left (VObj right) =
  Dashboard.comparePeople sortKey direction left
    (VObj (set sortKey (VNum 0%float) right)).
Proof.
  intros Hp Hh Hl. unfold Dashboard.comparePeople. rewrite Hp, Hh.
  destruct (get_prop left sortKey) as [lv|e]; [|reflexivity].
  cbn [get_prop bind]. unfold get, set. cbn [lookup].
  rewrite Hl, String.eqb_refl. reflexivity.
Qed.
End PeopleFacts.



Example sortPeople_by_total_descending :
  Dashboard.sortPeople (RT := Reference.runtime) 0%nat "total" "desc"
    [whole_euro_people]
  = (Ok 1%nat, [whole_euro_people; rev whole_euro_people]).
Proof. vm_compute. reflexivity. Qed.



Example filterPeople_by_vehicle :
  Dashboard.filterPeople (RT := Reference.runtime) 0%nat "CLIO"
    [whole_euro_people]
  = (Ok 1%nat, [whole_euro_people; tl whole_euro_people]).
Proof. vm_compute. reflexivity. Qed.


(** ** Totals *)

Section TotalsFacts.
Context {RT : Runtime}.

Lemma add_numbers (x y : float) : add (VNum x) (VNum y) = VNum (x + y)%float.
Proof. reflexivity. Qed.

Lemma summarizeTotals_from (people : list value)
    (ams : list Summary.amounts) (t : Dashboard.totals) :
  map amounts_of people = map Some ams ->
  fold_left
    (fun acc person =>
       t <- acc ;;
       meals_deduction <- get_prop person "meals_deduction" ;;
       other_expenses <- get_prop person "other_expenses" ;;
       vehicle_deduction_total <- get_prop person "vehicle_deduction_total" ;;
       total_deduction <- get_prop person "total_deduction" ;;
       Ok {| Dashboard.meals := add (Dashboard.meals t) meals_deduction;
             Dashboard.other := add (Dashboard.other t) other_expenses;
             Dashboard.vehicles :=
               add (Dashboard.vehicles t) vehicle_deduction_total;
             Dashboard.total := add (Dashboard.total t) total_deduction |})
    people (Ok t) =
  Ok (fold_left (fun t a =>
        {| Dashboard.meals :=
             add (Dashboard.meals t) (VNum (Summary.meals_deduction a));
           Dashboard.other :=
             add (Dashboard.other t) (VNum (Summary.other_expenses a));
           Dashboard.vehicles :=
             add (Dashboard.vehicles t)
                 (VNum (Summary.vehicle_deduction_total a));
           Dashboard.total :=
             add (Dashboard.total t) (VNum (Summary.total_deduction a)) |})
        ams t).
Proof.
  revert ams t. induction people as [|p r IH]; intros ams t H.
  - destruct ams; [reflexivity|discriminate].
  - destruct ams as [|a ams]; [discriminate|].
    cbn [map] in H. injection H as Hp Hr.
    cbn [fold_left bind]. unfold amounts_of in Hp.
    destruct p as [| | | | | |o]; try discriminate.
    cbn [get_prop bind].
    destruct (get o "meals_deduction") as [| | |m| | |]; try discriminate.
    destruct (get o "other_expenses") as [| | |x| | |]; try discriminate.
    destruct (get o "vehicle_deduction_total") as [| | |v| | |];
      try discriminate.
    destruct (get o "total_deduction") as [| | |tt| | |]; try discriminate.
    injection Hp as <-.
    cbn [Summary.meals_deduction Summary.other_expenses
         Summary.vehicle_deduction_total Summary.total_deduction].
    apply IH. exact Hr.
Qed.

Lemma fold_amounts (ams : list Summary.amounts) (m x v t : float) :
  fold_left (fun t a =>
        {| Dashboard.meals :=
             add (Dashboard.meals t) (VNum (Summary.meals_deduction a));
           Dashboard.other :=
             add (Dashboard.other t) (VNum (Summary.other_expenses a));
           Dashboard.vehicles :=
             add (Dashboard.vehicles t)
                 (VNum (Summary.vehicle_deduction_total a));
           Dashboard.total :=
             add (Dashboard.total t) (VNum (Summary.total_deduction a)) |})
    ams
    {| Dashboard.meals := VNum m; Dashboard.other := VNum x;
       Dashboard.vehicles := VNum v; Dashboard.total := VNum t |} =
  {| Dashboard.meals := VNum (float_sum m (map Summary.meals_deduction ams));
     Dashboard.other := VNum (float_sum x (map Summary.other_expenses ams));
     Dashboard.vehicles :=
       VNum (float_sum v (map Summary.vehicle_deduction_total ams));
     Dashboard.total := VNum (float_sum t (map Summary.total_deduction ams)) |}.
Proof.
  revert m x v t. induction ams as [|a r IH]; intros m x v t; [reflexivity|].
  cbn [fold_left map Dashboard.meals Dashboard.other Dashboard.vehicles
       Dashboard.total].
  rewrite !add_numbers. rewrite IH. reflexivity.
Qed.

(** On summaries whose amounts are numbers, each total is the running
    float sum of its field, from [0], in list order. *)
Lemma summarizeTotals_sums (people : list value)
    (ams : list Summary.amounts) :
  map amounts_of people = map Some ams ->
  Dashboard.summarizeTotals people =
  Ok {| Dashboard.meals :=
          VNum (float_sum 0 (map Summary.meals_deduction ams));
        Dashboard.other :=
          VNum (float_sum 0 (map Summary.other_expenses ams));
        Dashboard.vehicles :=
          VNum (float_sum 0 (map Summary.vehicle_deduction_total ams));
        Dashboard.total :=
          VNum (float_sum 0 (map Summary.total_deduction ams)) |}.
Proof.
  intro H. unfold Dashboard.summarizeTotals.
  rewrite (summarizeTotals_from people ams _ H).
  rewrite fold_amounts. reflexivity.
Qed.
End TotalsFacts.




(** C5. Without any entry of the person and year, the engine returns a
    detail, not an error: its three lists are empty and its kilometres,
    its three category totals and its total deduction are all zero.  On
    the dashboard, [summarizeTotals] of an empty list returns zero for all
    four totals, and each detail table of an empty list is the one row
    built by [buildEmptyRow]. *)
Theorem no_entries_no_error_all_zero :
  (forall person_id year entries scale cap_config,
      (forall e, In e (Core.mileage entries) ->
         Core.MileageEntry.person_id e <> person_id \/
         Core.MileageEntry.year e <> year) ->
      (forall e, In e (Core.meals entries) ->
         Core.MealEntry.person_id e <> person_id \/
         Core.MealEntry.year e <> year) ->
      (forall e, In e (Core.others entries) ->
         Core.OtherExpenseEntry.person_id e <> person_id \/
         Core.OtherExpenseEntry.year e <> year) ->
      exists d,
        Core.compute_person_annual_detail person_id year entries scale
          cap_config = Core.Done d /\
        Core.mileage_entries d = [] /\ Core.meal_expenses d = [] /\
        Core.other_expenses d = [] /\
        (Core.mileage_total_km d == 0)%Q /\
        (Core.mileage_deduction_total d == 0)%Q /\
        (Core.meals_deduction_total d == 0)%Q /\
        (Core.other_expenses_total d == 0)%Q /\
        (Core.total_deduction d == 0)%Q) /\
  (forall RT : Runtime,
      Dashboard.summarizeTotals [] =
        Ok {| Dashboard.meals := VNum 0; Dashboard.other := VNum 0;
              Dashboard.vehicles := VNum 0; Dashboard.total := VNum 0 |} /\
      Dashboard.buildMileageTable (VArr []) =
        Ok (Dashboard.buildDetailTable "Kilométrage détaillé"
              ["ID"; "Véhicule"; "Mois"; "Km"]
              (Dashboard.buildEmptyRow "Aucune entrée." 4)) /\
      Dashboard.buildMealTable (VArr []) =
        Ok (Dashboard.buildDetailTable "Repas"
              ["ID"; "Mois"; "Montant"; "Déductible"]
              (Dashboard.buildEmptyRow "Aucun repas." 4)) /\
      Dashboard.buildOtherTable (VArr []) =
        Ok (Dashboard.buildDetailTable "Autres frais"
              ["ID"; "Description"; "Montant"; "Justificatif"]
              (Dashboard.buildEmptyRow "Aucun frais." 4))).
Proof.
  split.
  - intros person_id year entries scale cap Hm Hl Ho.
    eexists. split.
    + apply CoreFacts.compute_without_rows; assumption.
    + cbn. repeat split; reflexivity.
  - intro RT. repeat split; reflexivity.
Qed.

Lemma no_entries_no_error_all_zero_witness :
  exists d,
    Core.compute_person_annual_detail 2 2024 scenario_entries scenario_scale
      scenario_caps = Core.Done d /\
    Core.mileage_entries d = [] /\ Core.meal_expenses d = [] /\
    Core.other_expenses d = [] /\
    (Core.mileage_total_km d == 0)%Q /\
    (Core.mileage_deduction_total d == 0)%Q /\
    (Core.meals_deduction_total d == 0)%Q /\
    (Core.other_expenses_total d == 0)%Q /\
    (Core.total_deduction d == 0)%Q.
Proof.
  apply (proj1 no_entries_no_error_all_zero).
  - intros e He. left. cbn in He.
    destruct He as [<-|[<-|[]]]; discriminate.
  - intros e He. left. cbn in He.
    destruct He as [<-|[<-|[<-|[]]]]; discriminate.
  - intros e He. left. cbn in He.
    destruct He as [<-|[]]; discriminate.
Defined.

Example empty_dashboard_cards :
  match Dashboard.summarizeTotals (RT := Reference.runtime) [] with
  | Ok t => map (Dashboard.formatCurrency (RT := Reference.runtime))
              [Dashboard.meals t; Dashboard.other t; Dashboard.vehicles t;
               Dashboard.total t]
  | Throw _ => []
  end
  = let zero := "0,00" ++ Reference.NBSP ++ "€" in [zero; zero; zero; zero].
Proof. vm_compute. reflexivity. Qed.

(** ** The detail record *)

Section DetailFacts.
Context {RT : Runtime}.

Lemma buildDetailPanel_reads_only (person : value) (d1 d2 : object) :
  agree_on detail_fields d1 d2 ->
  Dashboard.buildDetailPanel person (VObj d1) =
  Dashboard.buildDetailPanel person (VObj d2).
Proof.
  intro H. unfold Dashboard.buildDetailPanel.
  cbn [ToBoolean negb get_prop bind].
  rewrite !(H _) by (cbn; tauto).
  reflexivity.
Qed.

Lemma loadPersonDetails_reads_only (fetch1 fetch2 : string -> result value)
    (personId year : value) (r1 r2 : object) (w : Admin.world) :
  let url := Admin.API_ENDPOINTS_details ++ "/" ++ ToString personId ++
             "/details/" ++ ToString year in
  fetch1 url = Ok (VObj r1) -> fetch2 url = Ok (VObj r2) ->
  agree_on detail_list_fields r1 r2 ->
  Admin.loadPersonDetails fetch1 personId year w =
  Admin.loadPersonDetails fetch2 personId year w.
Proof.
  intros url H1 H2 H. unfold Admin.loadPersonDetails.
  fold url. rewrite H1, H2.
  unfold Admin.bindM, Admin.try_catch, Admin.lift.
  destruct (Admin.setText _ _ w) as [[u|e] w1]; [|reflexivity].
  cbn [get_prop].
  rewrite !(H _) by (cbn; tauto).
  reflexivity.
Qed.
End DetailFacts.

Lemma every_detail_field_is_read :
  forall k, In k detail_fields ->
    Dashboard.buildDetailPanel (RT := Reference.runtime) sample_person
      (VObj sample_detail) <>
    Dashboard.buildDetailPanel (RT := Reference.runtime) sample_person
      (VObj (set k (VNum 1%float) sample_detail)).
Proof.
  intros k Hk. apply same_rendering_false.
  cbn in Hk. repeat (destruct Hk as [<-|Hk]; [vm_compute; reflexivity|]).
  destruct Hk.
Qed.



Example loadPersonDetails_stores_the_three_lists :
  let w := snd (Admin.loadPersonDetails (RT := Reference.runtime)
                  (fun _ => Ok (VObj sample_detail)) (VNum 1%float)
                  (VNum 2024%float) (page_with_scale (VArr []))) in
  Admin.details_mileage (Admin.st w) = get sample_detail "mileage_entries" /\
  Admin.details_meals (Admin.st w) = get sample_detail "meal_expenses" /\
  Admin.details_other (Admin.st w) = get sample_detail "other_expenses" /\
  Admin.getElementById Admin.ENTRY_STATUS_ID (Admin.doc w)
    = Some (Admin.Text "Frais chargés.").
Proof. vm_compute. repeat split. Qed.

(** ** The mileage scale table *)

Section ScaleFacts.
Context {RT : Runtime}.
Import ScaleView.

Lemma bracketRow_typed (sv bv : value) (o : object) (e : ScaleEntry)
    (b : Bracket) :
  sv = VObj o -> get o "power_cv" = VNum (power_cv e) ->
  bracket_object bv b ->
  Admin.bracketRow sv bv = Ok (bracket_cells e b).
Proof.
  intros -> Hcv (bo & -> & Hmax & Hrate & Hfixed).
  unfold Admin.bracketRow, bracket_cells. cbn [get_prop bind].
  rewrite Hmax, Hrate, Hfixed, Hcv. cbn [as_number bind].
  destruct (max_km b); reflexivity.
Qed.

Lemma mapM_bracketRow_typed (o : object) (e : ScaleEntry)
    (bvs : list value) (bl : list Bracket) :
  get o "power_cv" = VNum (power_cv e) ->
  Forall2 bracket_object bvs bl ->
  mapM (Admin.bracketRow (VObj o)) bvs = Ok (map (bracket_cells e) bl).
Proof.
  intros Hcv Hall.
  induction Hall as [|bv b bvs bl Hb Hall IH]; [reflexivity|].
  cbn [mapM map].
  rewrite (bracketRow_typed (VObj o) bv o e b eq_refl Hcv Hb).
  cbn [bind]. rewrite IH. reflexivity.
Qed.

Lemma scaleRows_typed (v : value) (e : ScaleEntry) :
  entry_object v e ->
  Admin.scaleRows v = Ok (map (bracket_cells e) (brackets e)).
Proof.
  intros (o & bs & -> & Hcv & Hbs & Hall). unfold Admin.scaleRows.
  cbn [get_prop bind]. rewrite Hbs. cbn [as_array bind].
  apply mapM_bracketRow_typed; assumption.
Qed.

Lemma mapM_scaleRows_typed (es : list value) (scale : list ScaleEntry) :
  Forall2 entry_object es scale ->
  mapM Admin.scaleRows es =
  Ok (map (fun e => map (bracket_cells e) (brackets e)) scale).
Proof.
  induction 1 as [|v e vs sl He Hall IH]; [reflexivity|].
  cbn [mapM map]. rewrite (scaleRows_typed v e He). cbn [bind].
  rewrite IH. reflexivity.
Qed.

Lemma scale_json_is_scale_array (scale : list ScaleEntry) :
  scale_array (scale_json scale) scale.
Proof.
  exists (map (fun e => VObj [("power_cv", VNum (power_cv e));
                              ("brackets", VArr (map bracket_json (brackets e)))])
              scale).
  split; [reflexivity|].
  induction scale as [|e r IH]; constructor; [|exact IH].
  eexists _, _. split; [reflexivity|]. split; [reflexivity|].
  split; [reflexivity|].
  induction (brackets e) as [|b bl IHb]; constructor; [|exact IHb].
  eexists. split; [reflexivity|]. repeat split.
Qed.
End ScaleFacts.




(** * Further properties *)

(** ** More on numbers *)

Lemma SFcompare_refl (x : spec_float) :
  x <> S754_nan -> SFcompare x x = Some Eq.
Proof.
  destruct x as [s|s| |s m e]; cbn [SFcompare]; try congruence; intros _.
  - destruct s; reflexivity.
  - rewrite Z.compare_refl.
    change (PosDef.Pos.compare_cont Eq m m) with (Pos.compare m m).
    rewrite Pos.compare_refl. destruct s; reflexivity.
Qed.

Lemma is_nan_true_spec (x : float) :
  PrimFloat.is_nan x = true -> Prim2SF x = S754_nan.
Proof.
  unfold PrimFloat.is_nan. rewrite FloatAxioms.eqb_spec. unfold SFeqb.
  intro H. destruct (Prim2SF x) as [s|s| |s m e] eqn:E; try reflexivity;
    rewrite SFcompare_refl in H by discriminate; discriminate H.
Qed.

Lemma is_nan_of_spec (x : float) :
  Prim2SF x = S754_nan -> PrimFloat.is_nan x = true.
Proof.
  intro E. unfold PrimFloat.is_nan. rewrite FloatAxioms.eqb_spec, E.
  reflexivity.
Qed.

Lemma nan_add_l (x y : float) :
  PrimFloat.is_nan x = true -> PrimFloat.is_nan (x + y) = true.
Proof.
  intro H. apply is_nan_of_spec. rewrite FloatAxioms.add_spec.
  rewrite (is_nan_true_spec x H). reflexivity.
Qed.

Lemma nan_add_r (x y : float) :
  PrimFloat.is_nan y = true -> PrimFloat.is_nan (x + y) = true.
Proof.
  intro H. apply is_nan_of_spec. rewrite FloatAxioms.add_spec.
  rewrite (is_nan_true_spec y H).
  unfold FloatAxioms.SF64add, SFadd. destruct (Prim2SF x); reflexivity.
Qed.

Lemma eqb_sym (x y : float) : PrimFloat.eqb x y = PrimFloat.eqb y x.
Proof.
  rewrite !FloatAxioms.eqb_spec. unfold SFeqb.
  rewrite (SFcompare_antisym (Prim2SF x) (Prim2SF y)).
  destruct (SFcompare (Prim2SF x) (Prim2SF y)) as [[| |]|]; reflexivity.
Qed.

Lemma eqb_leb (x y : float) :
  PrimFloat.eqb x y = true -> PrimFloat.leb x y = true.
Proof.
  rewrite FloatAxioms.eqb_spec, FloatAxioms.leb_spec. unfold SFeqb, SFleb.
  destruct (SFcompare (Prim2SF x) (Prim2SF y)) as [[| |]|];
    congruence.
Qed.

Lemma ltb_leb (x y : float) :
  PrimFloat.ltb x y = true -> PrimFloat.leb x y = true.
Proof.
  rewrite FloatAxioms.ltb_spec, FloatAxioms.leb_spec. unfold SFltb, SFleb.
  destruct (SFcompare (Prim2SF x) (Prim2SF y)) as [[| |]|];
    congruence.
Qed.

Lemma eqb_not_ltb (x y : float) :
  PrimFloat.eqb x y = true -> PrimFloat.ltb x y = false.
Proof.
  rewrite FloatAxioms.eqb_spec, FloatAxioms.ltb_spec. unfold SFeqb, SFltb.
  destruct (SFcompare (Prim2SF x) (Prim2SF y)) as [[| |]|];
    congruence.
Qed.

Lemma SFle_trans (x y z : spec_float) : SFle x y -> SFle y z -> SFle x z.
Proof.
  unfold SFle.
  destruct x as [sx|sx| |sx mx ex], y as [sy|sy| |sy my ey],
           z as [sz|sz| |sz mz ez]; cbn [SFcompare];
    repeat match goal with s : bool |- _ => destruct s end;
    try (intros; exact I); try contradiction.
  all: repeat match goal with
         | |- context [Z.compare ?a ?b] => destruct (Z.compare_spec a b)
         | |- context [PosDef.Pos.compare_cont Eq ?a ?b] =>
             change (PosDef.Pos.compare_cont Eq a b) with (Pos.compare a b);
             destruct (Pos.compare_spec a b)
         end;
       cbn [CompOpp]; try (intros; exact I); try contradiction; lia.
Qed.

Lemma leb_SFle (x y : float) :
  PrimFloat.leb x y = true <-> SFle (Prim2SF x) (Prim2SF y).
Proof.
  rewrite FloatAxioms.leb_spec. unfold SFleb, SFle.
  destruct (SFcompare (Prim2SF x) (Prim2SF y)) as [[| |]|]; intuition congruence.
Qed.

Lemma leb_trans (x y z : float) :
  PrimFloat.leb x y = true -> PrimFloat.leb y z = true ->
  PrimFloat.leb x z = true.
Proof.
  rewrite !leb_SFle. apply SFle_trans.
Qed.

(** ** The forms of the reference data *)

Section ReferenceFormFacts.
Context {RT : Runtime}.

Ltac rejected f H :=
  repeat match goal with
         | |- context [field f ?n] => destruct (field f n)
         end;
  rewrite ?H; cbn [andb]; rewrite ?andb_false_r; reflexivity.

Ltac reads f name :=
  let H := fresh "Hfield" in
  pose proof (getFormValue_spec f name) as H;
  destruct (Dashboard.getFormValue f name) as [?s|[|?msg]]; cbn [bind] in *;
  [ rewrite H | contradiction
  | rewrite H; repeat match goal with
                      | |- context [field f ?n] => destruct (field f n)
                      end; reflexivity ].

Ltac reads_identifier f value label :=
  let H := fresh "Hparse" in
  pose proof (parseIntegerField_spec value label 1%float None eq_refl I) as H;
  destruct (Dashboard.parseIntegerField value label (Some 1%float) None)
    as [?n|[|?msg]];
  cbn [bind] in *;
  [ destruct H as [H ->]; rewrite H; cbn [andb]
  | exact H
  | rejected f H ].

Ltac reads_text f value label n :=
  let H := fresh "Hparse" in
  pose proof (parseTextField_spec value label n ltac:(discriminate)) as H;
  destruct (Dashboard.parseTextField value label n) as [?t|[|?msg]];
  cbn [bind] in *;
  [ destruct H as [H ->]; rewrite H; cbn [andb]
  | exact H
  | rejected f H ].

Lemma buildHouseholdPayload_agrees (f : form) :
  agrees (Dashboard.buildHouseholdPayload f) (accepted_household f).
Proof.
  unfold agrees, Dashboard.buildHouseholdPayload, accepted_household.
  reads f "name".
  reads_text f s "Nom du foyer" 100%nat.
  reflexivity.
Qed.

Lemma buildPersonPayload_agrees (f : form) :
  agrees (Dashboard.buildPersonPayload f) (accepted_person f).
Proof.
  unfold agrees, Dashboard.buildPersonPayload, accepted_person.
  reads f "household_id".
  reads_identifier f s "ID du foyer".
  reads f "first_name".
  reads_text f s0 "Prénom" 80%nat.
  reads f "last_name".
  reads_text f s1 "Nom" 80%nat.
  reflexivity.
Qed.

Lemma buildVehiclePayload_agrees (f : form) :
  agrees (Dashboard.buildVehiclePayload f) (accepted_vehicle f).
Proof.
  unfold agrees, Dashboard.buildVehiclePayload, accepted_vehicle.
  reads f "person_id".
  reads_identifier f s "ID de la personne".
  reads f "name".
  reads_text f s0 "Nom du véhicule" 100%nat.
  reads f "power_cv".
  reads_identifier f s1 "Puissance fiscale".
  reflexivity.
Qed.

End ReferenceFormFacts.

(** X1. The builders of the household, person and vehicle forms return a
    payload exactly for the forms whose fields are all present and within
    their bounds (a household or vehicle name of 1 to 100 code units once
    trimmed, first and last names of 1 to 80, identifiers and the fiscal
    power integers from 1), and the payload holds the trimmed texts and
    the parsed integers; on every other form they throw an [Error]. *)
Theorem reference_builders_accept_exactly :
  forall (RT : Runtime) (f : form),
    agrees (Dashboard.buildHouseholdPayload f) (accepted_household f) /\
    agrees (Dashboard.buildPersonPayload f) (accepted_person f) /\
    agrees (Dashboard.buildVehiclePayload f) (accepted_vehicle f).
Proof.
  intros RT f. split; [|split].
  - apply buildHouseholdPayload_agrees.
  - apply buildPersonPayload_agrees.
  - apply buildVehiclePayload_agrees.
Qed.

(** Runs the calls of a builder one after the other. *)
Ltac run_builder :=
  repeat match goal with
         | |- context [bind ?m _] =>
             lazymatch m with
             | bind _ _ => fail
             | Ok _ => fail
             | Throw _ => fail
             | _ => destruct m
             end; cbn [bind]
         end;
  try reflexivity.

(** X2. Each of the six update builders reads the identifier of the
    record first, as the delete builder does under the same label, then
    builds the payload as the create builder of that form does, and
    returns the two as [{ id, payload }]; it throws what the first of the
    two throws. *)
Theorem update_builders_extend_create_builders :
  forall (RT : Runtime) (f : form),
    Dashboard.buildHouseholdUpdatePayload f =
      (id <- Dashboard.buildDeletePayload f "ID du foyer" ;;
       payload <- Dashboard.buildHouseholdPayload f ;;
       Ok (update_request id payload)) /\
    Dashboard.buildPersonUpdatePayload f =
      (id <- Dashboard.buildDeletePayload f "ID de la personne" ;;
       payload <- Dashboard.buildPersonPayload f ;;
       Ok (update_request id payload)) /\
    Dashboard.buildVehicleUpdatePayload f =
      (id <- Dashboard.buildDeletePayload f "ID du véhicule" ;;
       payload <- Dashboard.buildVehiclePayload f ;;
       Ok (update_request id payload)) /\
    Dashboard.buildMileageUpdatePayload f =
      (id <- Dashboard.buildDeletePayload f "ID du kilométrage" ;;
       payload <- Dashboard.buildMileagePayload f ;;
       Ok (update_request id payload)) /\
    Dashboard.buildMealUpdatePayload f =
      (id <- Dashboard.buildDeletePayload f "ID du repas" ;;
       payload <- Dashboard.buildMealPayload f ;;
       Ok (update_request id payload)) /\
    Dashboard.buildOtherUpdatePayload f =
      (id <- Dashboard.buildDeletePayload f "ID du frais" ;;
       payload <- Dashboard.buildOtherExpensePayload f ;;
       Ok (update_request id payload)).
Proof.
  intros RT f.
  unfold Dashboard.buildHouseholdUpdatePayload, Dashboard.buildPersonUpdatePayload,
    Dashboard.buildVehicleUpdatePayload, Dashboard.buildMileageUpdatePayload,
    Dashboard.buildMealUpdatePayload, Dashboard.buildOtherUpdatePayload,
    Dashboard.buildDeletePayload, Dashboard.buildHouseholdPayload,
    Dashboard.buildPersonPayload, Dashboard.buildVehiclePayload,
    Dashboard.buildMileagePayload, Dashboard.buildMealPayload,
    Dashboard.buildOtherExpensePayload, update_request.
  repeat split; run_builder.
Qed.

(** X3. Whatever the number of digits asked for, [formatNumber] returns
    "0" for [NaN], the infinities and every value that is not a number,
    without reaching the locale formatter. *)
Theorem formatNumber_fallback :
  forall (RT : Runtime) (v : value) (maximumDigits : nat),
    not_a_finite_number v -> Dashboard.formatNumber v maximumDigits = "0".
Proof.
  intros RT v d H. apply not_a_finite_number_spec in H.
  unfold Dashboard.formatNumber. rewrite H. reflexivity.
Qed.

Lemma formatNumber_fallback_witness :
  Dashboard.formatNumber (RT := Reference.runtime) (VNum PrimFloat.nan) 3 = "0" /\
  Dashboard.formatNumber (RT := Reference.runtime) (VNum PrimFloat.infinity) 2 = "0" /\
  Dashboard.formatNumber (RT := Reference.runtime) VNull 1 = "0" /\
  Dashboard.formatNumber (RT := Reference.runtime) (VStr "0.529") 3 = "0".
Proof.
  split; [|split; [|split]]; apply formatNumber_fallback; cbn;
    first [exact I | left; reflexivity | right; reflexivity].
Defined.

(** ** The order of the people table *)

Lemma strict_equal_sym (a b : value) : strict_equal a b = strict_equal b a.
Proof.
  destruct a, b; cbn [strict_equal]; try reflexivity.
  - destruct b0, b; reflexivity.
  - apply eqb_sym.
  - apply String.eqb_sym.
Qed.

Section OrderFacts.
Context {RT : Runtime}.

(** X4. In every direction but "asc" the comparator of [sortPeople]
    answers, under every sort key and on any two values, what it answers
    in the direction "asc" to the same two taken the other way round, and
    it throws when that throws. *)
Theorem comparePeople_descending (sortKey direction : string)
    (left right : value) :
  String.eqb direction "asc" = false ->
  Dashboard.comparePeople sortKey direction left right =
  Dashboard.comparePeople sortKey "asc" right left.
Proof.
  intro Hd. unfold Dashboard.comparePeople. rewrite Hd.
  change (String.eqb "asc" "asc") with true. cbv iota.
  destruct (String.eqb sortKey "person").
  - destruct left, right; reflexivity.
  - destruct (String.eqb sortKey "household"); [reflexivity|].
    destruct (get_prop left sortKey) as [lv|[|m]] eqn:El,
             (get_prop right sortKey) as [rv|[|m']] eqn:Er; cbn [bind];
      try reflexivity;
      try (destruct left; discriminate); try (destruct right; discriminate).
    rewrite (strict_equal_sym (nullish rv (VNum 0)) (nullish lv (VNum 0))).
    reflexivity.
Qed.

End OrderFacts.

Lemma comparePeople_descending_witness :
  Dashboard.comparePeople (RT := Reference.runtime) "total" "desc"
    (nth 0 whole_euro_people VNull) (nth 1 whole_euro_people VNull) =
  Dashboard.comparePeople (RT := Reference.runtime) "total" "asc"
    (nth 1 whole_euro_people VNull) (nth 0 whole_euro_people VNull).
Proof.
  apply (comparePeople_descending (RT := Reference.runtime)). reflexivity.
Defined.

Example comparePeople_by_total_descending :
  Dashboard.comparePeople (RT := Reference.runtime) "total" "desc"
    (nth 0 whole_euro_people VNull) (nth 1 whole_euro_people VNull)
  = Ok 1%float.
Proof. vm_compute. reflexivity. Qed.

Section SortFacts.
Context {RT : Runtime}.
Variables sortKey direction : string.
Hypothesis Hperson : String.eqb sortKey "person" = false.
Hypothesis Hhousehold : String.eqb sortKey "household" = false.

Lemma sort_number_object (p : value) (x : float) :
  sort_number sortKey p = Some x ->
  exists o, p = VObj o /\ nullish (get o sortKey) (VNum 0) = VNum x /\
            PrimFloat.is_nan x = false.
Proof.
  unfold sort_number. destruct p as [| | | | | |o]; try discriminate.
  destruct (nullish (get o sortKey) (VNum 0)) as [| | |n| | |] eqn:Eo;
    try discriminate.
  destruct (PrimFloat.is_nan n) eqn:En; [discriminate|].
  intro H. injection H as <-. exists o.
  split; [reflexivity|]. split; [exact Eo|exact En].
Qed.

(** The comparator on two persons that have a number under the key. *)
Lemma comparePeople_numbers (p q : value) (x y : float) :
  sort_number sortKey p = Some x -> sort_number sortKey q = Some y ->
  Dashboard.comparePeople sortKey direction p q =
  Ok (if PrimFloat.eqb x y then 0%float
      else if String.eqb direction "asc"
           then (if PrimFloat.ltb y x then 1%float else (-1)%float)
           else (if PrimFloat.ltb x y then 1%float else (-1)%float)).
Proof.
  intros Hp Hq.
  destruct (sort_number_object p x Hp) as [o [-> [Ho _]]].
  destruct (sort_number_object q y Hq) as [o' [-> [Ho' _]]].
  unfold Dashboard.comparePeople. rewrite Hperson, Hhousehold.
  cbn [get_prop bind]. rewrite Ho, Ho'. cbn [strict_equal].
  destruct (PrimFloat.eqb x y); [reflexivity|].
  destruct (String.eqb direction "asc"); reflexivity.
Qed.

Lemma in_order_trans (p q r : value) :
  in_order sortKey direction p q -> in_order sortKey direction q r ->
  in_order sortKey direction p r.
Proof.
  unfold in_order.
  destruct (sort_number sortKey p) as [x|]; [|contradiction].
  destruct (sort_number sortKey q) as [y|]; [|contradiction].
  destruct (sort_number sortKey r) as [z|]; [|intros _ []].
  destruct (String.eqb direction "asc"); intros H1 H2.
  - exact (leb_trans x y z H1 H2).
  - exact (leb_trans z y x H2 H1).
Qed.

(** Whether [sort] moves [p] behind [q], and what holds either way. *)
Lemma comparePeople_decides (p q : value) :
  sort_number sortKey p <> None -> sort_number sortKey q <> None ->
  exists c, SortCompare (Dashboard.comparePeople sortKey direction) p q = Ok c /\
            if PrimFloat.ltb 0 c
            then in_order sortKey direction q p
            else in_order sortKey direction p q.
Proof.
  intros Hp Hq.
  destruct (sort_number sortKey p) as [x|] eqn:Ep; [|congruence].
  destruct (sort_number sortKey q) as [y|] eqn:Eq; [|congruence].
  destruct (sort_number_object p x Ep) as [o [Eo [_ Hx]]].
  destruct (sort_number_object q y Eq) as [o' [Eo' [_ Hy]]].
  assert (Hc : SortCompare (Dashboard.comparePeople sortKey direction) p q =
               Dashboard.comparePeople sortKey direction p q)
    by (subst p q; reflexivity).
  rewrite Hc, (comparePeople_numbers p q x y Ep Eq).
  eexists. split; [reflexivity|].
  unfold in_order. rewrite Ep, Eq.
  destruct (PrimFloat.eqb x y) eqn:Exy.
  - change (PrimFloat.ltb 0 0) with false. cbv iota.
    destruct (String.eqb direction "asc").
    + apply eqb_leb. exact Exy.
    + apply eqb_leb. rewrite eqb_sym. exact Exy.
  - destruct (String.eqb direction "asc").
    + destruct (PrimFloat.ltb y x) eqn:L.
      * change (PrimFloat.ltb 0 1) with true. cbv iota.
        apply ltb_leb. exact L.
      * change (PrimFloat.ltb 0 (-1)) with false. cbv iota.
        rewrite <- (not_ltb_leb y x Hy Hx), L. reflexivity.
    + destruct (PrimFloat.ltb x y) eqn:L.
      * change (PrimFloat.ltb 0 1) with true. cbv iota.
        apply ltb_leb. exact L.
      * change (PrimFloat.ltb 0 (-1)) with false. cbv iota.
        rewrite <- (not_ltb_leb x y Hx Hy), L. reflexivity.
Qed.

Lemma sort_insert_sorted (x : value) (l : list value) :
  sort_number sortKey x <> None ->
  Forall (fun p => sort_number sortKey p <> None) l ->
  StronglySorted (in_order sortKey direction) l ->
  exists r, sort_insert (Dashboard.comparePeople sortKey direction) x l = Ok r /\
            StronglySorted (in_order sortKey direction) r.
Proof.
  intros Hx Hl Hs. induction Hs as [|y t Ht IH Hy].
  - exists [x]. split; [reflexivity|]. repeat constructor.
  - apply Forall_cons_iff in Hl. destruct Hl as [Hny Hnt].
    cbn [sort_insert].
    destruct (comparePeople_decides x y Hx Hny) as [c [-> Hc]]. cbn [bind].
    destruct (PrimFloat.ltb 0 c).
    + destruct (IH Hnt) as [r [Hr Hsr]]. rewrite Hr. cbn [bind].
      exists (y :: r). split; [reflexivity|].
      constructor; [exact Hsr|].
      apply sort_insert_permutation in Hr.
      apply (Permutation_Forall Hr). constructor; assumption.
    + exists (x :: y :: t). split; [reflexivity|].
      constructor; [constructor; assumption|].
      constructor; [exact Hc|].
      rewrite Forall_forall in *. intros z Hz.
      apply in_order_trans with y; [exact Hc|apply Hy; exact Hz].
Qed.

Lemma Array_sort_sorted (l : list value) :
  Forall (fun p => sort_number sortKey p <> None) l ->
  exists r, Array_sort (Dashboard.comparePeople sortKey direction) l = Ok r /\
            StronglySorted (in_order sortKey direction) r.
Proof.
  induction 1 as [|x t Hx Ht IH].
  - exists []. split; [reflexivity|constructor].
  - destruct IH as [s [Hs Hss]]. cbn [Array_sort]. rewrite Hs. cbn [bind].
    apply sort_insert_sorted; [exact Hx| |exact Hss].
    apply Array_sort_permutation in Hs. apply (Permutation_Forall Hs). exact Ht.
Qed.

End SortFacts.



(** ** Searching *)

Lemma filterM_again {A : Type} (f : A -> result bool) (l kept : list A) :
  filterM f l = Ok kept -> filterM f kept = Ok kept.
Proof.
  revert kept. induction l as [|x r IH]; intros kept H.
  - injection H as <-. reflexivity.
  - cbn [filterM] in H. destruct (f x) as [keep|e] eqn:Ex; [|discriminate].
    cbn [bind] in H. destruct (filterM f r) as [ys|e]; [|discriminate].
    cbn [bind] in H. injection H as <-.
    destruct keep; [|apply IH; reflexivity].
    cbn [filterM]. rewrite Ex. cbn [bind]. rewrite (IH ys eq_refl).
    reflexivity.
Qed.

Lemma filterM_throws {A : Type} (f : A -> result bool) (l : list A) :
  (forall x e, f x = Throw e -> e = TypeError) ->
  Exists (fun x => f x = Throw TypeError) l ->
  filterM f l = Throw TypeError.
Proof.
  intros Hf H. induction l as [|x r IH]; [inversion H|].
  cbn [filterM]. destruct (f x) as [keep|e] eqn:Ex; cbn [bind].
  - rewrite IH; [reflexivity|].
    inversion H as [? ? Hx|? ? Hr]; subst; [congruence|exact Hr].
  - rewrite (Hf x e Ex). reflexivity.
Qed.

Lemma mapM_throws_TypeError {A B : Type} (f : A -> result B) (l : list A)
    (e : exn) :
  (forall x e, f x = Throw e -> e = TypeError) ->
  mapM f l = Throw e -> e = TypeError.
Proof.
  intros Hf. induction l as [|x r IH]; [discriminate|].
  cbn [mapM]. destruct (f x) as [y|e'] eqn:Ex; cbn [bind].
  - destruct (mapM f r) as [ys|e'']; cbn [bind]; [discriminate|].
    intro H. injection H as <-. apply IH. reflexivity.
  - intro H. injection H as <-. exact (Hf x e' Ex).
Qed.

Lemma get_prop_throws (v : value) (k : string) (e : exn) :
  get_prop v k = Throw e -> e = TypeError.
Proof. destruct v; cbn; congruence. Qed.

Section SearchFacts.
Context {RT : Runtime}.

Lemma matchesQuery_throws (lower : string) (person : value) (e : exn) :
  Dashboard.matchesQuery lower person = Throw e -> e = TypeError.
Proof.
  unfold Dashboard.matchesQuery.
  destruct (get_prop person "first_name") as [fn|e1] eqn:E1; cbn [bind];
    [|intro H; injection H as <-; exact (get_prop_throws _ _ _ E1)].
  destruct (get_prop person "last_name") as [ln|e2] eqn:E2; cbn [bind];
    [|intro H; injection H as <-; exact (get_prop_throws _ _ _ E2)].
  destruct (get_prop person "vehicle_summaries") as [vs|e3] eqn:E3; cbn [bind];
    [|intro H; injection H as <-; exact (get_prop_throws _ _ _ E3)].
  destruct vs as [| | | | |l|]; cbn [as_array bind]; try congruence.
  destruct (mapM (fun vehicle => get_prop vehicle "vehicle_name") l)
    as [names|e4] eqn:E4; cbn [bind].
  - destruct (includes _ lower); [discriminate|].
    destruct (get_prop person "household_name") as [hn|e5] eqn:E5;
      cbn [bind];
      [|intro H; injection H as <-; exact (get_prop_throws _ _ _ E5)].
    destruct hn; cbn [as_string bind]; try congruence.
    destruct (includes _ lower); discriminate.
  - intro H. injection H as <-.
    apply (mapM_throws_TypeError _ l e4
             (fun x e => get_prop_throws x "vehicle_name" e) E4).
Qed.

Lemma matchesQuery_needs_vehicle_summaries (lower : string) (person : value) :
  lacks_vehicle_summaries person = true ->
  Dashboard.matchesQuery lower person = Throw TypeError.
Proof.
  unfold lacks_vehicle_summaries, Dashboard.matchesQuery.
  destruct person as [| | | | | |o]; try reflexivity;
    cbn [get_prop bind]; try reflexivity.
  destruct (get o "vehicle_summaries"); cbn [as_array bind];
    try reflexivity; discriminate.
Qed.

End SearchFacts.

(** X6. Filtering what [filterPeople] returned once more by the same
    query keeps every person: the second array holds the same people in
    the same order as the first. *)
Theorem filterPeople_twice :
  forall (RT : Runtime) (h h1 : store) (people filtered : loc)
         (query : string),
    Dashboard.filterPeople people query h = (Ok filtered, h1) ->
    exists (again : loc) (h2 : store),
      Dashboard.filterPeople filtered query h1 = (Ok again, h2) /\
      read h2 again = read h1 filtered.
Proof.
  intros RT h h1 people filtered query. unfold Dashboard.filterPeople.
  destruct (String.eqb query EmptyString).
  - intro H. injection H as <- <-. exists people, h. split; reflexivity.
  - destruct (read h people) as [a|]; [|discriminate].
    destruct (filterM _ a) as [kept|e] eqn:Ek; [|discriminate].
    change (alloc h kept) with (List.length h, (h ++ [kept])%list).
    intro H. injection H as <- <-.
    pose proof (read_alloc_new h kept) as Hnew.
    change (fst (alloc h kept)) with (List.length h) in Hnew.
    change (snd (alloc h kept)) with (h ++ [kept])%list in Hnew.
    rewrite Hnew, (filterM_again _ a kept Ek).
    change (alloc (h ++ [kept])%list kept)
      with (List.length (h ++ [kept])%list, ((h ++ [kept]) ++ [kept])%list).
    eexists _, _. split; [reflexivity|].
    pose proof (read_alloc_new (h ++ [kept])%list kept) as Hnew2.
    exact Hnew2.
Qed.

Lemma filterPeople_twice_witness :
  exists (again : loc) (h2 : store),
    Dashboard.filterPeople (RT := Reference.runtime) 1%nat "CLIO"
      [whole_euro_people; tl whole_euro_people] = (Ok again, h2) /\
    read h2 again = read [whole_euro_people; tl whole_euro_people] 1%nat.
Proof.
  apply (filterPeople_twice Reference.runtime [whole_euro_people]
           [whole_euro_people; tl whole_euro_people] 0%nat 1%nat "CLIO").
  vm_compute. reflexivity.
Defined.

(** X7. With a query that is not empty, [filterPeople] throws a
    [TypeError] and leaves the store as it was as soon as one person of the
    list has no array under [vehicle_summaries], whether or not another
    field of that person matches the query. *)
Theorem filterPeople_needs_vehicle_summaries :
  forall (RT : Runtime) (h : store) (people : loc) (a : list value)
         (query : string),
    read h people = Some a ->
    query <> EmptyString ->
    Exists (fun p => lacks_vehicle_summaries p = true) a ->
    Dashboard.filterPeople people query h = (Throw TypeError, h).
Proof.
  intros RT h people a query Hr Hq Hex. unfold Dashboard.filterPeople.
  destruct (String.eqb query EmptyString) eqn:E;
    [apply String.eqb_eq in E; contradiction|].
  rewrite Hr. rewrite filterM_throws; [reflexivity| |].
  - intros x e. apply matchesQuery_throws.
  - apply Exists_exists. apply Exists_exists in Hex.
    destruct Hex as [p [Hin Hp]]. exists p. split; [exact Hin|].
    apply matchesQuery_needs_vehicle_summaries. exact Hp.
Qed.

Lemma filterPeople_needs_vehicle_summaries_witness :
  Dashboard.filterPeople (RT := Reference.runtime) 0%nat "petit"
    [whole_euro_people ++ [person_without_vehicles]]%list
  = (Throw TypeError, [whole_euro_people ++ [person_without_vehicles]]%list).
Proof.
  apply (filterPeople_needs_vehicle_summaries Reference.runtime _ 0%nat
           (whole_euro_people ++ [person_without_vehicles])%list "petit").
  - reflexivity.
  - discriminate.
  - apply Exists_exists. exists person_without_vehicles.
    split; [right; right; left; reflexivity|reflexivity].
Defined.

(** ** Totals that cannot be added *)

Section SpoiledTotals.
Context {RT : Runtime}.

Lemma add_sum_like (acc v : value) : sum_like (add acc v) = true.
Proof.
  unfold add. destruct (ToPrimitive acc), (ToPrimitive v); reflexivity.
Qed.

Lemma ToPrimitive_sum_like (acc : value) :
  sum_like acc = true -> ToPrimitive acc = acc.
Proof. destruct acc; try discriminate; reflexivity. Qed.

Lemma add_spoiled (acc v : value) :
  sum_like acc = true -> spoiled acc || spoils_sum v = true ->
  spoiled (add acc v) = true.
Proof.
  intros Hs H. unfold add. rewrite (ToPrimitive_sum_like acc Hs).
  destruct acc as [| | |x|s| |]; try discriminate.
  - cbn [spoiled] in H.
    destruct v as [| | |y|t|l|o]; cbn [ToPrimitive spoils_sum] in *;
      rewrite ?orb_false_r, ?orb_true_r in H;
      cbn [ToNumber ToPrimitive spoiled];
      try reflexivity;
      try (apply nan_add_l; exact H);
      try (apply nan_add_r; reflexivity);
      try (destruct b; apply nan_add_l; exact H).
  - reflexivity.
Qed.

Lemma formatCurrency_spoiled (v : value) :
  spoiled v = true -> Dashboard.formatCurrency v = "0 €".
Proof.
  intro H. unfold Dashboard.formatCurrency.
  destruct v as [| | |n| | |]; try discriminate; try reflexivity.
  cbn [Number_isFinite spoiled] in *. rewrite H. reflexivity.
Qed.

Lemma summarizeTotals_spoiled_from (people : list value) (t : Dashboard.totals) :
  Forall (fun p => has_properties p = true) people ->
  sum_like (Dashboard.meals t) = true ->
  sum_like (Dashboard.other t) = true ->
  sum_like (Dashboard.vehicles t) = true ->
  sum_like (Dashboard.total t) = true ->
  exists t',
    fold_left
      (fun acc person =>
         t <- acc ;;
         meals_deduction <- get_prop person "meals_deduction" ;;
         other_expenses <- get_prop person "other_expenses" ;;
         vehicle_deduction_total <- get_prop person "vehicle_deduction_total" ;;
         total_deduction <- get_prop person "total_deduction" ;;
         Ok {| Dashboard.meals := add (Dashboard.meals t) meals_deduction;
               Dashboard.other := add (Dashboard.other t) other_expenses;
               Dashboard.vehicles :=
                 add (Dashboard.vehicles t) vehicle_deduction_total;
               Dashboard.total := add (Dashboard.total t) total_deduction |})
      people (Ok t) = Ok t' /\
    (spoiled (Dashboard.meals t) ||
       existsb (amount_spoils "meals_deduction") people = true ->
     spoiled (Dashboard.meals t') = true) /\
    (spoiled (Dashboard.other t) ||
       existsb (amount_spoils "other_expenses") people = true ->
     spoiled (Dashboard.other t') = true) /\
    (spoiled (Dashboard.vehicles t) ||
       existsb (amount_spoils "vehicle_deduction_total") people = true ->
     spoiled (Dashboard.vehicles t') = true) /\
    (spoiled (Dashboard.total t) ||
       existsb (amount_spoils "total_deduction") people = true ->
     spoiled (Dashboard.total t') = true).
Proof.
  intro Hp. revert t. induction Hp as [|p r Hp Hr IH]; intros t Hm Ho Hv Ht.
  - exists t. cbn [fold_left existsb]. rewrite !orb_false_r. repeat split; auto.
  - cbn [fold_left bind].
    assert (Hget : forall k, exists v, get_prop p k = Ok v)
      by (intro k; destruct p; try discriminate; eexists; reflexivity).
    destruct (Hget "meals_deduction") as [m Em].
    destruct (Hget "other_expenses") as [o Eo].
    destruct (Hget "vehicle_deduction_total") as [v Ev].
    destruct (Hget "total_deduction") as [tt' Et].
    rewrite Em, Eo, Ev, Et. cbn [bind].
    destruct (IH {| Dashboard.meals := add (Dashboard.meals t) m;
                    Dashboard.other := add (Dashboard.other t) o;
                    Dashboard.vehicles := add (Dashboard.vehicles t) v;
                    Dashboard.total := add (Dashboard.total t) tt' |})
      as [t' [Hfold [Sm [So [Sv St]]]]];
      cbn [Dashboard.meals Dashboard.other Dashboard.vehicles Dashboard.total];
      try apply add_sum_like.
    exists t'. split; [exact Hfold|].
    cbn [Dashboard.meals Dashboard.other Dashboard.vehicles Dashboard.total]
      in Sm, So, Sv, St.
    cbn [existsb]. unfold amount_spoils at 1 3 5 7. rewrite Em, Eo, Ev, Et.
    repeat split; intro H.
    + apply Sm. rewrite orb_assoc in H. apply orb_true_iff in H.
      destruct H as [H|H]; [|rewrite H; apply orb_true_r].
      rewrite (add_spoiled _ _ Hm H). reflexivity.
    + apply So. rewrite orb_assoc in H. apply orb_true_iff in H.
      destruct H as [H|H]; [|rewrite H; apply orb_true_r].
      rewrite (add_spoiled _ _ Ho H). reflexivity.
    + apply Sv. rewrite orb_assoc in H. apply orb_true_iff in H.
      destruct H as [H|H]; [|rewrite H; apply orb_true_r].
      rewrite (add_spoiled _ _ Hv H). reflexivity.
    + apply St. rewrite orb_assoc in H. apply orb_true_iff in H.
      destruct H as [H|H]; [|rewrite H; apply orb_true_r].
      rewrite (add_spoiled _ _ Ht H). reflexivity.
Qed.

Lemma summarizeTotals_spoiled (people : list value) :
  Forall (fun p => has_properties p = true) people ->
  exists t,
    Dashboard.summarizeTotals people = Ok t /\
    (existsb (amount_spoils "meals_deduction") people = true ->
     Dashboard.formatCurrency (Dashboard.meals t) = "0 €") /\
    (existsb (amount_spoils "other_expenses") people = true ->
     Dashboard.formatCurrency (Dashboard.other t) = "0 €") /\
    (existsb (amount_spoils "vehicle_deduction_total") people = true ->
     Dashboard.formatCurrency (Dashboard.vehicles t) = "0 €") /\
    (existsb (amount_spoils "total_deduction") people = true ->
     Dashboard.formatCurrency (Dashboard.total t) = "0 €").
Proof.
  intro Hp. unfold Dashboard.summarizeTotals.
  destruct (summarizeTotals_spoiled_from people
              {| Dashboard.meals := VNum 0; Dashboard.other := VNum 0;
                 Dashboard.vehicles := VNum 0; Dashboard.total := VNum 0 |}
              Hp eq_refl eq_refl eq_refl eq_refl)
    as [t [Hfold [Sm [So [Sv St]]]]].
  exists t. split; [exact Hfold|].
  repeat split; intro H; apply formatCurrency_spoiled;
    [apply Sm|apply So|apply Sv|apply St]; rewrite H; apply orb_true_r.
Qed.

End SpoiledTotals.

(** ** Objects and lists *)

Lemma get_set (k k' : string) (v : value) (o : object) :
  get (set k v o) k' = if String.eqb k' k then v else get o k'.
Proof. unfold get, set. cbn [lookup]. destruct (String.eqb k' k); reflexivity. Qed.

Lemma mapM_length {A B : Type} (f : A -> result B) (l : list A) (ys : list B) :
  mapM f l = Ok ys -> List.length ys = List.length l.
Proof.
  revert ys. induction l as [|x r IH]; intros ys H.
  - injection H as <-. reflexivity.
  - cbn [mapM] in H. destruct (f x) as [y|e]; [|discriminate].
    cbn [bind] in H. destruct (mapM f r) as [ys'|e]; [|discriminate].
    cbn [bind] in H. injection H as <-. cbn [List.length].
    rewrite (IH ys' eq_refl). reflexivity.
Qed.

Lemma mapM_throws {A B : Type} (f : A -> result B) (l : list A) :
  (forall x e, f x = Throw e -> e = TypeError) ->
  Exists (fun x => f x = Throw TypeError) l ->
  mapM f l = Throw TypeError.
Proof.
  intros Hf H. induction l as [|x r IH]; [inversion H|].
  cbn [mapM]. destruct (f x) as [y|e] eqn:Ex; cbn [bind].
  - rewrite IH; [reflexivity|].
    inversion H as [? ? Hx|? ? Hr]; subst; [congruence|exact Hr].
  - rewrite (Hf x e Ex). reflexivity.
Qed.

Lemma get_index_throws {CU : CodeUnits} (v : value) (i : nat) (e : exn) :
  get_index v i = Throw e -> e = TypeError.
Proof. destruct v; cbn; congruence. Qed.

(** ** The dashboard page *)

Module PageFacts.
Import DashboardPage.

Lemma getElementById_setShown (id id' : string) (c : shown) (d : document) :
  getElementById id (setShown id' c d) =
  match getElementById id d with
  | Some n => Some (if String.eqb id id'
                    then {| shows := c; control := control n |} else n)
  | None => None
  end.
Proof.
  induction d as [|[i n] r IH]; [reflexivity|].
  cbn [setShown getElementById].
  destruct (String.eqb id' i) eqn:E'.
  - apply String.eqb_eq in E'. subst i. cbn [getElementById].
    destruct (String.eqb id id') eqn:E; [reflexivity|].
    destruct (getElementById id r); reflexivity.
  - cbn [getElementById]. destruct (String.eqb id i) eqn:E.
    + apply String.eqb_eq in E. subst i.
      rewrite String.eqb_sym, E'. reflexivity.
    + exact IH.
Qed.

Lemma typed_into_show (id id' : string) (c : shown) (w : world) :
  typed_into id (snd (show id' c w)) = typed_into id w.
Proof.
  unfold typed_into, show. cbn [snd doc]. rewrite getElementById_setShown.
  destruct (getElementById id (doc w)) as [n|]; [|reflexivity].
  destruct (String.eqb id id'); reflexivity.
Qed.

Section Frames.
Variable R : world -> world -> Prop.
Hypothesis R_refl : forall w, R w w.
Hypothesis R_trans : forall w1 w2 w3, R w1 w2 -> R w2 w3 -> R w1 w3.

Lemma always_ret {A : Type} (a : A) : always R (ret a).
Proof. intro w. apply R_refl. Qed.

Lemma always_throw {A : Type} (e : exn) : always R (@throw A e).
Proof. intro w. apply R_refl. Qed.

Lemma always_lift {A : Type} (r : result A) : always R (lift r).
Proof. intro w. apply R_refl. Qed.

Lemma always_get_state : always R get_state.
Proof. intro w. apply R_refl. Qed.

Lemma always_read_array (l : loc) : always R (read_array l).
Proof. intro w. unfold read_array. destruct (read (heap w) l); apply R_refl. Qed.

Lemma always_bind {A B : Type} (m : M A) (k : A -> M B) :
  always R m -> (forall a, always R (k a)) -> always R (bindM m k).
Proof.
  intros Hm Hk w. unfold bindM. specialize (Hm w).
  destruct (m w) as [[a|e] w']; cbn [snd] in *; [|exact Hm].
  apply R_trans with w'; [exact Hm|apply Hk].
Qed.

Lemma always_try {A : Type} (body : M A) (handler : exn -> M A) :
  always R body -> (forall e, always R (handler e)) ->
  always R (try_catch body handler).
Proof.
  intros Hb Hh w. unfold try_catch. specialize (Hb w).
  destruct (body w) as [[a|e] w']; cbn [snd] in *; [exact Hb|].
  apply R_trans with w'; [exact Hb|apply Hh].
Qed.

Lemma always_detached (m : M unit) : always R m -> always R (detached m).
Proof. intros Hm w. exact (Hm w). Qed.

Lemma always_update {B : Type} (F : state -> state) (k : unit -> M B) :
  (forall w, R w (snd (put_state (F (st w)) w))) ->
  (forall u, always R (k u)) ->
  always R (bindM get_state (fun s => bindM (put_state (F s)) k)).
Proof.
  intros HF Hk w. unfold bindM, get_state. cbn [put_state].
  apply R_trans with (snd (put_state (F (st w)) w)); [apply HF|apply Hk].
Qed.

Lemma always_if {A : Type} (b : bool) (m1 m2 : M A) :
  always R m1 -> always R m2 -> always R (if b then m1 else m2).
Proof. destruct b; auto. Qed.

Context {RT : Runtime}.

Lemma always_getElement (id : string) : always R (getElement id).
Proof.
  intro w. unfold getElement.
  destruct (getElementById id (doc w)); apply R_refl.
Qed.

Lemma always_setText (id text : string) :
  (forall c, always R (show id c)) -> always R (setText id text).
Proof.
  intro Hs. unfold setText. apply always_bind; [apply always_getElement|].
  intros _. apply Hs.
Qed.

End Frames.

Lemma only_view_changed_refl (w : world) : only_view_changed w w.
Proof.
  unfold only_view_changed, same_arrays, same_controls. repeat split; auto.
Qed.

Lemma only_view_changed_trans (w1 w2 w3 : world) :
  only_view_changed w1 w2 -> only_view_changed w2 w3 ->
  only_view_changed w1 w3.
Proof.
  intros (P1 & K1 & D1 & S1 & T1 & H1 & Q1 & A1 & C1)
         (P2 & K2 & D2 & S2 & T2 & H2 & Q2 & A2 & C2).
  unfold only_view_changed. repeat split; try congruence.
  intros l a H. apply A2, A1, H.
Qed.

Lemma same_controls_refl (w : world) : same_controls w w.
Proof. intro id. reflexivity. Qed.

Lemma same_controls_trans (w1 w2 w3 : world) :
  same_controls w1 w2 -> same_controls w2 w3 -> same_controls w1 w3.
Proof. intros H1 H2 id. rewrite H2. apply H1. Qed.

Lemma show_only_view (id : string) (c : shown) :
  always only_view_changed (show id c).
Proof.
  intro w. repeat split; try reflexivity.
  - intros l a H; exact H.
  - intro i. apply typed_into_show.
Qed.

Lemma filterPeople_keeps_arrays {RT : Runtime} (people : loc) (query : string)
    (h : store) (l : loc) (a : list value) :
  read h l = Some a ->
  read (snd (Dashboard.filterPeople people query h)) l = Some a.
Proof.
  intro H. unfold Dashboard.filterPeople.
  destruct (String.eqb query EmptyString); [exact H|].
  destruct (read h people) as [b|]; [|exact H].
  destruct (filterM _ b) as [kept|e]; [|exact H].
  change (alloc h kept) with (List.length h, (h ++ [kept])%list).
  cbn [snd]. rewrite <- H.
  apply (read_alloc_old h kept l). apply read_some_lt with a. exact H.
Qed.

Lemma sortPeople_keeps_arrays {RT : Runtime} (people : loc)
    (sortKey direction : string) (h : store) (l : loc) (a : list value) :
  read h l = Some a ->
  read (snd (Dashboard.sortPeople people sortKey direction h)) l = Some a.
Proof.
  intro H. unfold Dashboard.sortPeople.
  destruct (read h people) as [b|]; [|exact H].
  pose proof (read_some_lt _ _ _ H) as Hlt.
  change (alloc h b) with (List.length h, (h ++ [b])%list).
  destruct (Array_sort _ b) as [b'|e]; cbn [snd].
  - rewrite read_write_other by lia.
    rewrite <- H. apply (read_alloc_old h b l Hlt).
  - rewrite <- H. apply (read_alloc_old h b l Hlt).
Qed.

Section ViewFrames.
Context {RT : Runtime} {CU : CodeUnits} {BR : Browser}.

Let ovc_bind {A B : Type} := @always_bind only_view_changed
  only_view_changed_trans A B.

Lemma on_heap_only_view {A : Type} (f : store -> result A * store) :
  (forall h l a, read h l = Some a -> read (snd (f h)) l = Some a) ->
  always only_view_changed (on_heap f).
Proof.
  intros Hf w. unfold on_heap. specialize (Hf (heap w)).
  destruct (f (heap w)) as [r h']. cbn [snd] in *.
  repeat split; try reflexivity. exact Hf.
Qed.

Lemma setText_only_view (id text : string) :
  always only_view_changed (setText id text).
Proof.
  apply always_setText;
    [exact only_view_changed_refl|exact only_view_changed_trans|].
  apply show_only_view.
Qed.

Lemma renderSummary_only_view (people : loc) :
  always only_view_changed (renderSummary people).
Proof.
  unfold renderSummary.
  apply ovc_bind; [apply always_read_array, only_view_changed_refl|intro a].
  apply ovc_bind; [apply always_lift, only_view_changed_refl|intro t].
  repeat (apply ovc_bind; [apply setText_only_view|intros _]).
  apply setText_only_view.
Qed.

Lemma renderTable_only_view (people : loc) (selectedId : value) :
  always only_view_changed (renderTable people selectedId).
Proof.
  unfold renderTable.
  apply ovc_bind; [apply always_getElement, only_view_changed_refl|intros _].
  apply ovc_bind; [apply always_read_array, only_view_changed_refl|intro a].
  apply ovc_bind; [apply always_lift, only_view_changed_refl|intro rows].
  apply show_only_view.
Qed.

Lemma renderDetail_only_view (person detail : value) :
  always only_view_changed (renderDetail person detail).
Proof.
  unfold renderDetail.
  apply ovc_bind; [apply always_getElement, only_view_changed_refl|intros _].
  apply ovc_bind; [apply always_lift, only_view_changed_refl|intro html].
  apply show_only_view.
Qed.

Lemma updateView_only_view : always only_view_changed updateView.
Proof.
  unfold updateView.
  apply ovc_bind; [apply always_getElement, only_view_changed_refl|intro input].
  apply ovc_bind; [apply always_lift, only_view_changed_refl|intro text].
  apply ovc_bind; [apply always_get_state, only_view_changed_refl|intro s].
  apply ovc_bind.
  { apply on_heap_only_view. intros h l a. apply filterPeople_keeps_arrays. }
  intro matching.
  apply ovc_bind; [apply always_get_state, only_view_changed_refl|intro s1].
  apply ovc_bind.
  { apply on_heap_only_view. intros h l a. apply sortPeople_keeps_arrays. }
  intro ordered.
  apply (always_update only_view_changed only_view_changed_trans).
  { intro w. unfold only_view_changed, same_arrays, same_controls.
    repeat split; auto. }
  intros _.
  apply ovc_bind; [apply always_get_state, only_view_changed_refl|intro s2].
  apply ovc_bind; [apply renderSummary_only_view|intros _].
  apply ovc_bind; [apply always_get_state, only_view_changed_refl|intro s3].
  apply ovc_bind; [apply renderTable_only_view|intros _].
  apply ovc_bind; [apply always_get_state, only_view_changed_refl|intro s4].
  apply ovc_bind; [apply always_read_array, only_view_changed_refl|intro a].
  apply ovc_bind; [apply always_lift, only_view_changed_refl|intro sel].
  apply ovc_bind; [apply always_get_state, only_view_changed_refl|intro s5].
  apply renderDetail_only_view.
Qed.

End ViewFrames.

(** X8. Whether it returns or throws, [updateView] changes nothing but
    what elements show and which array holds the displayed people: the
    loaded people, the sort key and direction, the selection, the detail,
    the column headers and the requests sent are as before, every array
    of the store holds what it held, and what was typed into the inputs
    is still there. *)
Theorem updateView_changes_only_the_view :
  forall (RT : Runtime) (w : world),
    only_view_changed w (snd (updateView w)).
Proof. intros RT w. apply updateView_only_view. Qed.

Lemma mapM_total {A B : Type} (f : A -> result B) (l : list A) :
  Forall (fun x => exists y, f x = Ok y) l -> exists ys, mapM f l = Ok ys.
Proof.
  induction 1 as [|x r [y Hy] Hr [ys IH]].
  - exists []. reflexivity.
  - exists (y :: ys). cbn [mapM]. rewrite Hy, IH. reflexivity.
Qed.

Lemma person_summary_object (p : value) :
  is_person_summary p = true -> is_object p.
Proof. destruct p; try discriminate. intros _. eexists; reflexivity. Qed.

Section Rendering.
Context {RT : Runtime} {CU : CodeUnits} {BR : Browser}.

Lemma shown_by_show (id id' : string) (c : shown) (w : world) :
  shown_by id (snd (show id' c w)) =
  match shown_by id w with
  | Some c0 => Some (if String.eqb id id' then c else c0)
  | None => None
  end.
Proof.
  unfold shown_by, show. cbn [snd doc]. rewrite getElementById_setShown.
  destruct (getElementById id (doc w)) as [n|]; [|reflexivity].
  cbn [option_map]. destruct (String.eqb id id'); reflexivity.
Qed.

Lemma present_show (id id' : string) (c : shown) (w : world) :
  getElementById id (doc w) <> None ->
  getElementById id (doc (snd (show id' c w))) <> None.
Proof.
  intro H. unfold show. cbn [snd doc]. rewrite getElementById_setShown.
  destruct (getElementById id (doc w)); [discriminate|congruence].
Qed.

Lemma getElement_present (id : string) (w : world) :
  getElementById id (doc w) <> None ->
  exists n, getElementById id (doc w) = Some n /\ getElement id w = (Ok n, w).
Proof.
  intro H. unfold getElement.
  destruct (getElementById id (doc w)) as [n|]; [|congruence].
  exists n. split; reflexivity.
Qed.

Lemma setText_present (id text : string) (w : world) :
  getElementById id (doc w) <> None ->
  setText id text w = (Ok tt, snd (show id (Text text) w)).
Proof.
  intro H. unfold setText, bindM.
  destruct (getElement_present id w H) as [n [_ ->]]. reflexivity.
Qed.

Lemma summarizeTotals_total (a : list value) :
  Forall is_object a -> exists t, Dashboard.summarizeTotals a = Ok t.
Proof.
  unfold Dashboard.summarizeTotals.
  generalize ({| Dashboard.meals := VNum 0; Dashboard.other := VNum 0;
                 Dashboard.vehicles := VNum 0; Dashboard.total := VNum 0 |}).
  intros t H. revert t. induction H as [|p r [o ->] Hr IH]; intro t.
  - exists t. reflexivity.
  - cbn [fold_left bind get_prop]. apply IH.
Qed.

Lemma tableRow_total (selectedId : value) (p : value) :
  is_object p -> exists row, Dashboard.tableRow selectedId p = Ok row.
Proof.
  intros [o ->]. unfold Dashboard.tableRow, Dashboard.buildRow.
  cbn [get_prop bind]. eexists. reflexivity.
Qed.

Lemma findSelected_objects (selectedId : value) (a : list value) :
  Forall is_object a ->
  exists found,
    Dashboard.findSelected selectedId a = Ok found /\
    ToBoolean found = existsb (is_selected selectedId) a.
Proof.
  induction 1 as [|p r [o ->] Hr [found [IH1 IH2]]].
  - exists VUndefined. split; reflexivity.
  - cbn [Dashboard.findSelected get_prop bind existsb].
    unfold is_selected at 1. cbn [get_prop].
    destruct (strict_equal (get o "person_id") selectedId).
    + exists (VObj o). split; reflexivity.
    + exists found. split; assumption.
Qed.

Lemma renderSummary_shows (l : loc) (a : list value) (t : Dashboard.totals)
    (w : world) :
  read (heap w) l = Some a ->
  Dashboard.summarizeTotals a = Ok t ->
  has_elements [TOTAL_MEALS_ID; TOTAL_OTHER_ID; TOTAL_VEHICLES_ID;
                TOTAL_DEDUCTION_ID] w ->
  renderSummary l w =
  (Ok tt,
   snd (show TOTAL_DEDUCTION_ID
          (Text (Dashboard.formatCurrency (Dashboard.total t)))
     (snd (show TOTAL_VEHICLES_ID
             (Text (Dashboard.formatCurrency (Dashboard.vehicles t)))
     (snd (show TOTAL_OTHER_ID
             (Text (Dashboard.formatCurrency (Dashboard.other t)))
     (snd (show TOTAL_MEALS_ID
             (Text (Dashboard.formatCurrency (Dashboard.meals t))) w)))))))).
Proof.
  intros Hr Ht He. unfold has_elements in He.
  rewrite !Forall_cons_iff in He. destruct He as (H1 & H2 & H3 & H4 & _).
  unfold renderSummary. unfold bindM at 1. unfold read_array. rewrite Hr.
  unfold bindM at 1. unfold lift. rewrite Ht.
  unfold bindM at 1. rewrite (setText_present _ _ w H1).
  unfold bindM at 1. rewrite setText_present by (apply present_show; exact H2).
  unfold bindM at 1.
  rewrite setText_present by (do 2 apply present_show; exact H3).
  rewrite setText_present by (do 3 apply present_show; exact H4).
  reflexivity.
Qed.

Lemma renderTable_shows (l : loc) (a : list value) (rows : list string)
    (selectedId : value) (w : world) :
  read (heap w) l = Some a ->
  mapM (Dashboard.tableRow selectedId) a = Ok rows ->
  getElementById TABLE_BODY_ID (doc w) <> None ->
  renderTable l selectedId w =
  (Ok tt, snd (show TABLE_BODY_ID (Markup (join_strings EmptyString rows)) w)).
Proof.
  intros Hr Hrows He. unfold renderTable. unfold bindM at 1.
  destruct (getElement_present _ w He) as [n [_ ->]].
  unfold bindM at 1. unfold read_array. rewrite Hr.
  unfold bindM at 1. unfold lift. rewrite Hrows. reflexivity.
Qed.

Lemma renderDetail_shows (person detail : value) (html : string) (w : world) :
  Dashboard.buildDetailPanel person detail = Ok html ->
  getElementById DETAIL_PANEL_ID (doc w) <> None ->
  renderDetail person detail w =
  (Ok tt, snd (show DETAIL_PANEL_ID (Markup html) w)).
Proof.
  intros Hp He. unfold renderDetail. unfold bindM at 1.
  destruct (getElement_present _ w He) as [n [_ ->]].
  unfold bindM at 1. unfold lift. rewrite Hp. reflexivity.
Qed.

End Rendering.

Section ViewFacts.
Context {RT : Runtime} {CU : CodeUnits} {BR : Browser}.

Lemma filterPeople_displayed (h : store) (people : loc) (a : list value)
    (query : string) :
  read h people = Some a ->
  Forall (fun p => is_person_summary p = true) a ->
  exists (matching : loc) (h1 : store),
    Dashboard.filterPeople people query h = (Ok matching, h1) /\
    read h1 matching = Some (displayed query a).
Proof.
  intros Hr Hp. unfold displayed.
  destruct (String.eqb query EmptyString) eqn:E.
  - exists people, h. unfold Dashboard.filterPeople. rewrite E.
    split; [reflexivity|exact Hr].
  - rewrite (filterPeople_filters h people a query Hr Hp).
    + eexists _, _. split; [reflexivity|]. apply (read_alloc_new h).
    + intro Hq. subst query. discriminate E.
Qed.

Lemma sortPeople_result (h : store) (people : loc) (a a' : list value)
    (sortKey direction : string) :
  read h people = Some a ->
  Array_sort (Dashboard.comparePeople sortKey direction) a = Ok a' ->
  exists (ordered : loc) (h' : store),
    Dashboard.sortPeople people sortKey direction h = (Ok ordered, h') /\
    read h' ordered = Some a'.
Proof.
  intros Hr Hs. unfold Dashboard.sortPeople. rewrite Hr.
  change (alloc h a) with (List.length h, (h ++ [a])%list). rewrite Hs.
  eexists _, _. split; [reflexivity|].
  apply read_write_same. rewrite length_app. cbn [List.length]. lia.
Qed.

Lemma displayed_summaries (query : string) (a : list value) :
  Forall (fun p => is_person_summary p = true) a ->
  Forall (fun p => is_person_summary p = true) (displayed query a).
Proof.
  intro H. unfold displayed. destruct (String.eqb query EmptyString);
    [exact H|]. apply Forall_forall. intros p Hin.
  apply filter_In in Hin. rewrite Forall_forall in H. apply H, Hin.
Qed.

Lemma displayed_numbered (sortKey query : string) (a : list value) :
  Forall (fun p => sort_number sortKey p <> None) a ->
  Forall (fun p => sort_number sortKey p <> None) (displayed query a).
Proof.
  intro H. unfold displayed. destruct (String.eqb query EmptyString);
    [exact H|]. apply Forall_forall. intros p Hin.
  apply filter_In in Hin. rewrite Forall_forall in H. apply H, Hin.
Qed.

Lemma buildDetailPanel_hint (person detail : value) :
  ToBoolean detail = false ->
  Dashboard.buildDetailPanel person detail =
  Ok (if ToBoolean person then hint_loading else hint_select).
Proof.
  intro H. unfold Dashboard.buildDetailPanel. rewrite H.
  destruct (ToBoolean person); reflexivity.
Qed.

End ViewFacts.

(** What [updateView] leaves behind on person summaries. *)
Lemma updateView_shows :
  forall (RT : Runtime) (w : world) (a : list value)
         (text : string),
    typed_into SEARCH_INPUT_ID w = Some (VStr text) ->
    has_elements view_elements w ->
    read (heap w) (people (st w)) = Some a ->
    Forall (fun p => is_person_summary p = true) a ->
    ToBoolean (detail (st w)) = false ->
    exists (w' : world) (a' : list value) (t : Dashboard.totals)
           (rows : list string),
      updateView w = (Ok tt, w') /\
      read (heap w') (filtered (st w')) = Some a' /\
      Permutation (displayed (String_trim text) a) a' /\
      (String.eqb (sortKey (st w)) "person" = false ->
       String.eqb (sortKey (st w)) "household" = false ->
       Forall (fun p => sort_number (sortKey (st w)) p <> None) a ->
       StronglySorted (in_order (sortKey (st w)) (sortDirection (st w))) a') /\
      Dashboard.summarizeTotals a' = Ok t /\
      shown_by TOTAL_MEALS_ID w' =
        Some (Text (Dashboard.formatCurrency (Dashboard.meals t))) /\
      shown_by TOTAL_OTHER_ID w' =
        Some (Text (Dashboard.formatCurrency (Dashboard.other t))) /\
      shown_by TOTAL_VEHICLES_ID w' =
        Some (Text (Dashboard.formatCurrency (Dashboard.vehicles t))) /\
      shown_by TOTAL_DEDUCTION_ID w' =
        Some (Text (Dashboard.formatCurrency (Dashboard.total t))) /\
      mapM (Dashboard.tableRow (selectedId (st w))) a' = Ok rows /\
      shown_by TABLE_BODY_ID w' =
        Some (Markup (join_strings EmptyString rows)) /\
      shown_by DETAIL_PANEL_ID w' =
        Some (Markup (if existsb (is_selected (selectedId (st w))) a'
                      then hint_loading else hint_select)).
Proof.
  intros RT w a text Htyped Helems Hread Hsum Hdetail.
  destruct w as [s h d hs rq]. cbn [st heap doc] in *.
  unfold typed_into in Htyped. cbn [doc] in Htyped.
  destruct (getElementById SEARCH_INPUT_ID d) as [input|] eqn:Einput;
    [|discriminate].
  cbn [option_map] in Htyped. injection Htyped as Hcontrol.
  set (query := String_trim text).
  destruct (filterPeople_displayed h (people s) a query Hread Hsum)
    as [matching [h1 [Hfilter Hmatching]]].
  pose proof (displayed_summaries query a Hsum) as Hsum1.
  destruct (Array_sort_total _ _ (displayed query a)
              (comparePeople_answers (sortKey s) (sortDirection s)) Hsum1)
    as [a' Hsort].
  destruct (sortPeople_result h1 matching (displayed query a) a'
              (sortKey s) (sortDirection s) Hmatching Hsort)
    as [ordered [h2 [Hsorted Hordered]]].
  pose proof (Array_sort_permutation _ _ _ Hsort) as Hperm.
  assert (Hobj : Forall is_object a').
  { apply (Permutation_Forall Hperm). apply Forall_forall. intros p Hin.
    rewrite Forall_forall in Hsum1. apply person_summary_object, Hsum1, Hin. }
  destruct (summarizeTotals_total a' Hobj) as [t Ht].
  destruct (mapM_total (Dashboard.tableRow (selectedId s)) a') as [rows Hrows].
  { apply Forall_forall. intros p Hin. rewrite Forall_forall in Hobj.
    apply tableRow_total, Hobj, Hin. }
  destruct (findSelected_objects (selectedId s) a' Hobj)
    as [found [Hfound Hfound_bool]].
  unfold has_elements, view_elements in Helems. cbn [doc] in Helems.
  rewrite !Forall_cons_iff in Helems.
  destruct Helems as (E1 & E2 & E3 & E4 & E5 & E6 & _).
  set (s' := {| people := people s; filtered := ordered;
                sortKey := sortKey s; sortDirection := sortDirection s;
                selectedId := selectedId s; detail := detail s |}).
  set (w1 := {| st := s'; heap := h2; doc := d; headers := hs;
                requests := rq |}).
  assert (Hsummary := renderSummary_shows ordered a' t w1 Hordered Ht).
  specialize (Hsummary ltac:(repeat constructor; assumption)).
  set (w2 := snd (show TOTAL_DEDUCTION_ID
                    (Text (Dashboard.formatCurrency (Dashboard.total t)))
     (snd (show TOTAL_VEHICLES_ID
             (Text (Dashboard.formatCurrency (Dashboard.vehicles t)))
     (snd (show TOTAL_OTHER_ID
             (Text (Dashboard.formatCurrency (Dashboard.other t)))
     (snd (show TOTAL_MEALS_ID
             (Text (Dashboard.formatCurrency (Dashboard.meals t))) w1))))))))
    in *.
  assert (Htable := renderTable_shows ordered a' rows (selectedId s) w2
                      Hordered Hrows).
  specialize (Htable ltac:(do 4 apply present_show; exact E5)).
  set (w3 := snd (show TABLE_BODY_ID (Markup (join_strings EmptyString rows))
                    w2)) in *.
  assert (Hpanel := renderDetail_shows found (detail s)
            (if ToBoolean found then hint_loading else hint_select) w3
            (buildDetailPanel_hint found (detail s) Hdetail)).
  specialize (Hpanel ltac:(do 5 apply present_show; exact E6)).
  exists (snd (show DETAIL_PANEL_ID
                 (Markup (if ToBoolean found then hint_loading
                          else hint_select)) w3)), a', t, rows.
  split.
  { unfold updateView. unfold bindM at 1. unfold getElement. cbn [doc].
    rewrite Einput.
    unfold bindM at 1. unfold lift. rewrite Hcontrol. cbn [as_string].
    unfold bindM at 1. cbn [get_state st].
    unfold bindM at 1. unfold on_heap. cbn [heap]. fold query.
    rewrite Hfilter.
    unfold bindM at 1. cbn [get_state st].
    unfold bindM at 1. unfold on_heap. cbn [heap]. rewrite Hsorted.
    unfold bindM at 1. cbn [get_state st].
    unfold bindM at 1. cbn [put_state st heap doc headers requests].
    fold s'. fold w1.
    unfold bindM at 1. cbn [get_state]. unfold w1 at 1. cbn [st].
    unfold s' at 1. cbn [filtered].
    unfold bindM at 1. rewrite Hsummary.
    unfold bindM at 1. cbn [get_state].
    change (st w2) with s'. unfold s' at 1 2. cbn [filtered selectedId].
    unfold bindM at 1. rewrite Htable.
    unfold bindM at 1. cbn [get_state].
    change (st w3) with s'. unfold s' at 1. cbn [filtered].
    unfold bindM at 1. unfold read_array. change (heap w3) with h2.
    rewrite Hordered.
    unfold bindM at 1. unfold lift. unfold s' at 1. cbn [selectedId].
    rewrite Hfound.
    unfold bindM at 1. cbn [get_state].
    change (st w3) with s'. unfold s' at 1. cbn [detail].
    exact Hpanel. }
  split; [exact Hordered|].
  split; [exact Hperm|].
  split.
  { intros Hp Hh Hnum.
    destruct (Array_sort_sorted (sortKey s) (sortDirection s) Hp Hh
                (displayed query a) (displayed_numbered _ _ _ Hnum))
      as [r [Hr Hsr]].
    rewrite Hsort in Hr. injection Hr as <-. exact Hsr. }
  split; [exact Ht|].
  assert (S1 : shown_by TOTAL_MEALS_ID w1 <> None)
    by (unfold shown_by; cbn [doc w1];
        destruct (getElementById TOTAL_MEALS_ID d); [discriminate|congruence]).
  assert (S2 : shown_by TOTAL_OTHER_ID w1 <> None)
    by (unfold shown_by; cbn [doc w1];
        destruct (getElementById TOTAL_OTHER_ID d); [discriminate|congruence]).
  assert (S3 : shown_by TOTAL_VEHICLES_ID w1 <> None)
    by (unfold shown_by; cbn [doc w1];
        destruct (getElementById TOTAL_VEHICLES_ID d); [discriminate|congruence]).
  assert (S4 : shown_by TOTAL_DEDUCTION_ID w1 <> None)
    by (unfold shown_by; cbn [doc w1];
        destruct (getElementById TOTAL_DEDUCTION_ID d); [discriminate|congruence]).
  assert (S5 : shown_by TABLE_BODY_ID w1 <> None)
    by (unfold shown_by; cbn [doc w1];
        destruct (getElementById TABLE_BODY_ID d); [discriminate|congruence]).
  assert (S6 : shown_by DETAIL_PANEL_ID w1 <> None)
    by (unfold shown_by; cbn [doc w1];
        destruct (getElementById DETAIL_PANEL_ID d); [discriminate|congruence]).
  unfold w3, w2. rewrite !shown_by_show.
  destruct (shown_by TOTAL_MEALS_ID w1); [|congruence].
  destruct (shown_by TOTAL_OTHER_ID w1); [|congruence].
  destruct (shown_by TOTAL_VEHICLES_ID w1); [|congruence].
  destruct (shown_by TOTAL_DEDUCTION_ID w1); [|congruence].
  destruct (shown_by TABLE_BODY_ID w1); [|congruence].
  destruct (shown_by DETAIL_PANEL_ID w1); [|congruence].
  rewrite Hfound_bool.
  repeat split; try exact Hrows; reflexivity.
Qed.



Lemma handleSort_runs {RT : Runtime} (w : world)
    (clicked : target) (key : string) :
  attribute_data_key clicked = Some key ->
  String.eqb key EmptyString = false ->
  handleSort (Some clicked) w =
  updateView
    {| st := {| people := people (st w); filtered := filtered (st w);
                sortKey := key;
                sortDirection := next_direction (st w) key;
                selectedId := selectedId (st w); detail := detail (st w) |};
       heap := heap w; doc := doc w;
       headers := marked key (headers w);
       requests := requests w |}.
Proof.
  intros Ha Hk. unfold handleSort, next_direction. rewrite Ha, Hk.
  unfold bindM at 1. cbn [get_state].
  destruct (String.eqb (sortKey (st w)) key) eqn:Ekey.
  - apply String.eqb_eq in Ekey. subst key. reflexivity.
  - reflexivity.
Qed.

(** X10. A click that names no sort key (no element, no [data-key]
    attribute, or an empty one) changes nothing.  A click on the header
    of a key makes it the sort key, in the other direction when the table
    was sorted by that key already and descending otherwise, marks the
    headers of that key as sorted and no other, and neither changes the
    loaded people, the selection or the detail nor sends a request,
    whether the view could be updated or not. *)
Theorem handleSort_sets_the_order :
  forall (RT : Runtime) (w : world)
         (event_target : option target),
    match sort_key_clicked event_target with
    | None => handleSort event_target w = (Ok tt, w)
    | Some key =>
        let w' := snd (handleSort event_target w) in
        sortKey (st w') = key /\
        sortDirection (st w') = next_direction (st w) key /\
        headers w' = marked key (headers w) /\
        people (st w') = people (st w) /\
        selectedId (st w') = selectedId (st w) /\
        detail (st w') = detail (st w) /\
        requests w' = requests w
    end.
Proof.
  intros RT w event_target. unfold sort_key_clicked.
  destruct event_target as [clicked|]; [|reflexivity].
  destruct (attribute_data_key clicked) as [key|] eqn:Ea;
    [|unfold handleSort; rewrite Ea; reflexivity].
  destruct (String.eqb key EmptyString) eqn:Ek;
    [unfold handleSort; rewrite Ea, Ek; reflexivity|].
  rewrite (handleSort_runs w clicked key Ea Ek).
  match goal with
  | |- context [updateView ?w2] =>
      destruct (updateView_only_view w2)
        as (P & K & D & S & T & H & Q & _ & _)
  end.
  cbv zeta. rewrite P, K, D, S, T, H, Q. repeat split; reflexivity.
Qed.

Example handleSort_on_the_meals_header :
  let w := page_holding whole_euro_people "2024" EmptyString in
  let w' := snd (handleSort (RT := Reference.runtime)
                   (Some {| attribute_data_key := Some "meals";
                            closest_row := None |}) w) in
  sortKey (st w') = "meals" /\ sortDirection (st w') = "desc" /\
  map sorted (headers w') = [false; false; true; false; false; false] /\
  read (heap w') (filtered (st w')) = Some (rev whole_euro_people).
Proof. vm_compute. repeat split. Qed.

Lemma bindM_inv {A B : Type} (m : M A) (k : A -> M B) (w w' : world) (b : B) :
  bindM m k w = (Ok b, w') ->
  exists a w1, m w = (Ok a, w1) /\ k a w1 = (Ok b, w').
Proof.
  unfold bindM. destruct (m w) as [[a|e] w1]; [|discriminate].
  intro H. exists a, w1. split; [reflexivity|exact H].
Qed.

Lemma quiet_refl (w : world) : quiet w w.
Proof. split; [apply same_controls_refl|reflexivity]. Qed.

Lemma quiet_trans (w1 w2 w3 : world) : quiet w1 w2 -> quiet w2 w3 -> quiet w1 w3.
Proof.
  intros [C1 Q1] [C2 Q2]. split; [|congruence].
  exact (same_controls_trans _ _ _ C1 C2).
Qed.

Lemma only_view_quiet (w w' : world) : only_view_changed w w' -> quiet w w'.
Proof. intros (_ & _ & _ & _ & _ & _ & Q & _ & C). split; assumption. Qed.

Lemma typed_present (id : string) (w : world) (v : value) :
  typed_into id w = Some v -> getElementById id (doc w) <> None.
Proof.
  unfold typed_into. destruct (getElementById id (doc w)); [discriminate|].
  discriminate.
Qed.

Lemma present_typed (id : string) (w w' : world) :
  same_controls w w' ->
  getElementById id (doc w) <> None -> getElementById id (doc w') <> None.
Proof.
  intros H Hp. specialize (H id). unfold typed_into in H.
  destruct (getElementById id (doc w)); [|congruence].
  destruct (getElementById id (doc w')); [discriminate|discriminate].
Qed.

Section Quiet.
Context {RT : Runtime} {CU : CodeUnits} {BR : Browser}.

Let q_bind {A B : Type} := @always_bind quiet quiet_trans A B.

Lemma put_state_quiet (s : state) : always quiet (put_state s).
Proof. intro w. split; [intro id|]; reflexivity. Qed.

Lemma on_heap_quiet {A : Type} (f : store -> result A * store) :
  always quiet (on_heap f).
Proof.
  intro w. unfold on_heap. destruct (f (heap w)) as [r h].
  split; [intro id|]; reflexivity.
Qed.

Lemma setText_quiet (id text : string) : always quiet (setText id text).
Proof. intro w. apply only_view_quiet. apply setText_only_view. Qed.

Lemma updateView_quiet : always quiet updateView.
Proof. intro w. apply only_view_quiet. apply updateView_only_view. Qed.

Lemma getSelectedYear_runs (w : world) (typed : value) :
  typed_into YEAR_INPUT_ID w = Some typed ->
  getSelectedYear w =
  (Ok match year_read typed with Some y => VNum y | None => VNull end, w).
Proof.
  unfold typed_into, getSelectedYear, year_read. unfold bindM, getElement.
  destruct (getElementById YEAR_INPUT_ID (doc w)) as [n|]; [|discriminate].
  cbn [option_map]. intro H. injection H as ->.
  destruct (Number_isFinite _); reflexivity.
Qed.

Lemma setText_shows (id text : string) (w w' : world) :
  setText id text w = (Ok tt, w') ->
  w' = snd (show id (Text text) w) /\ shown_by id w' = Some (Text text).
Proof.
  unfold setText, bindM, getElement. unfold shown_by.
  destruct (getElementById id (doc w)) as [n|] eqn:E; [|discriminate].
  intro H. injection H as <-. split; [reflexivity|].
  cbn [snd show doc]. rewrite getElementById_setShown, E, String.eqb_refl.
  reflexivity.
Qed.

Lemma fetchDashboard_requests (year : float) (w : world) :
  requests (snd (fetchDashboard (VNum year) w)) =
    (requests w ++ [dashboard_url year])%list /\
  same_controls w (snd (fetchDashboard (VNum year) w)).
Proof.
  unfold fetchDashboard, bindM, request, dashboard_url. cbn [ToString].
  destruct (fetch _) as [r|e]; cbn [snd requests].
  - destruct (negb (ok r)); cbn; split; try reflexivity; intro id; reflexivity.
  - split; [reflexivity|intro id; reflexivity].
Qed.

End Quiet.

(** X11. With a year input and a status line in the page,
    [refreshDashboard] never throws and always ends with a message in the
    status line.  When the year input holds no number the message is
    "Année invalide." and nothing else changed; otherwise exactly one
    request was sent, to the dashboard of that year, and the message
    either says that the dashboard could not be loaded or counts the
    people that are now loaded. *)
Theorem refreshDashboard_always_reports :
  forall (RT : Runtime) (CU : CodeUnits) (BR : Browser) (w : world) (typed : value),
    typed_into YEAR_INPUT_ID w = Some typed ->
    getElementById STATUS_MESSAGE_ID (doc w) <> None ->
    exists (w' : world) (message : string),
      refreshDashboard w = (Ok tt, w') /\
      shown_by STATUS_MESSAGE_ID w' = Some (Text message) /\
      match year_read typed with
      | None =>
          message = "Année invalide." /\
          w' = snd (show STATUS_MESSAGE_ID (Text message) w)
      | Some year =>
          requests w' = (requests w ++ [dashboard_url year])%list /\
          (message = "Impossible de charger le tableau de bord." \/
           exists a, read (heap w') (people (st w')) = Some a /\
                     message = loaded_message (List.length a) year)
      end.
Proof.
  intros RT CU BR w typed Hyear Hstatus.
  unfold refreshDashboard. unfold bindM at 1.
  rewrite (getSelectedYear_runs w typed Hyear).
  destruct (year_read typed) as [year|] eqn:Ey.
  2: { cbn [strict_equal]. unfold setStatusMessage.
       rewrite (setText_present _ _ w Hstatus).
       eexists _, _. split; [reflexivity|].
       destruct (setText_shows STATUS_MESSAGE_ID "Année invalide." w _
                   (setText_present _ _ w Hstatus)) as [_ Hs].
       split; [exact Hs|]. split; reflexivity. }
  cbn [strict_equal]. unfold bindM at 1. unfold setStatusMessage at 1.
  rewrite (setText_present _ _ w Hstatus).
  set (w1 := snd (show STATUS_MESSAGE_ID (Text "Chargement des données...") w)).
  assert (Hq1 : quiet w w1) by (apply only_view_quiet, show_only_view).
  unfold try_catch.
  match goal with
  | |- context [bindM (fetchDashboard (VNum year)) ?k] => set (rest := k)
  end.
  assert (Hrest : forall r, always quiet (rest r)).
  { intro r. unfold rest.
    repeat first
      [ apply setText_quiet
      | apply updateView_quiet
      | apply put_state_quiet
      | apply (always_bind quiet quiet_trans);
          [ first [ apply (always_lift quiet quiet_refl)
                  | apply (always_get_state quiet quiet_refl)
                  | apply (always_read_array quiet quiet_refl)
                  | apply on_heap_quiet
                  | apply put_state_quiet
                  | apply updateView_quiet ]
          | intro ] ]. }
  destruct (fetchDashboard_requests year w1) as [Hreq Hctl].
  assert (Hworld :
    same_controls w (snd (bindM (fetchDashboard (VNum year)) rest w1)) /\
    requests (snd (bindM (fetchDashboard (VNum year)) rest w1)) =
      (requests w ++ [dashboard_url year])%list).
  { unfold bindM.
    destruct (fetchDashboard (VNum year) w1) as [[r|e] w2] eqn:Ef;
      cbn [snd] in Hreq, Hctl |- *.
    - destruct (Hrest r w2) as [C Q]. split.
      + apply same_controls_trans with w2; [|exact C].
        apply same_controls_trans with w1; [exact (proj1 Hq1)|exact Hctl].
      + rewrite Q, Hreq, (proj2 Hq1). reflexivity.
    - split.
      + apply same_controls_trans with w1; [exact (proj1 Hq1)|exact Hctl].
      + rewrite Hreq, (proj2 Hq1). reflexivity. }
  destruct Hworld as [Hc Hr].
  destruct (bindM (fetchDashboard (VNum year)) rest w1) as [[[]|e] w2] eqn:Eb;
    cbn [snd] in Hc, Hr.
  - (* loaded *)
    exists w2. unfold rest in Eb.
    repeat match type of Eb with
           | bindM _ _ _ = (Ok _, _) =>
               let a := fresh "a" in let wi := fresh "wi" in
               let Hm := fresh "Hm" in
               apply bindM_inv in Eb; destruct Eb as [a [wi [Hm Eb]]]
           end.
    unfold setStatusMessage in Eb. apply setText_shows in Eb.
    destruct Eb as [Ew Hs]. eexists. split; [reflexivity|].
    split; [exact Hs|]. split; [exact Hr|]. right.
    match goal with
    | Hread : read_array _ _ = (Ok ?l, _) |- _ =>
        exists l; unfold read_array in Hread;
        match type of Hread with
        | context [read ?h ?p] => destruct (read h p) eqn:Er; [|discriminate]
        end;
        injection Hread as -> ->
    end.
    match goal with
    | Hg : get_state _ = (Ok ?s, _) |- _ =>
        unfold get_state in Hg; injection Hg as <- <-
    end.
    subst w2. cbn [snd show heap st]. split; [|reflexivity].
    assumption.
  - (* failed *)
    unfold setStatusMessage.
    assert (Hp : getElementById STATUS_MESSAGE_ID (doc w2) <> None)
      by (apply (present_typed _ w w2 Hc Hstatus)).
    rewrite (setText_present _ _ w2 Hp).
    eexists _, _. split; [reflexivity|].
    destruct (setText_shows STATUS_MESSAGE_ID
                "Impossible de charger le tableau de bord." w2 _
                (setText_present _ _ w2 Hp)) as [_ Hs].
    split; [exact Hs|]. split; [|left; reflexivity].
    cbn [snd show requests]. exact Hr.
Qed.

Lemma refreshDashboard_always_reports_witness :
  exists (w' : world) (message : string),
    refreshDashboard (RT := Reference.runtime) (CU := ascii_units)
      (BR := browser_2024) (page_holding [] "2024" EmptyString) = (Ok tt, w') /\
    shown_by STATUS_MESSAGE_ID w' = Some (Text message) /\
    requests w' = ["/api/dashboard/2024"] /\
    (message = "Impossible de charger le tableau de bord." \/
     exists a, read (heap w') (people (st w')) = Some a /\
               message = loaded_message (RT := Reference.runtime)
                           (List.length a) 2024%float).
Proof.
  destruct (refreshDashboard_always_reports Reference.runtime ascii_units
              browser_2024 (page_holding [] "2024" EmptyString) (VStr "2024"))
    as (w' & message & Hrun & Hshown & Hrest).
  - reflexivity.
  - discriminate.
  - exists w', message. split; [exact Hrun|]. split; [exact Hshown|].
    exact Hrest.
Defined.

Lemma refreshDashboard_invalid_year_witness :
  exists (w' : world),
    refreshDashboard (RT := Reference.runtime) (CU := ascii_units)
      (BR := browser_2024) (page_holding [] "l'an dernier" EmptyString)
    = (Ok tt, w') /\
    shown_by STATUS_MESSAGE_ID w' = Some (Text "Année invalide.") /\
    requests w' = [].
Proof. eexists. vm_compute. repeat split. Qed.



Section Detail.
Context {RT : Runtime} {CU : CodeUnits} {BR : Browser}.

Lemma clearDetail_quiet : always quiet clearDetail.
Proof.
  unfold clearDetail. apply (always_bind quiet quiet_trans).
  - apply (always_get_state quiet quiet_refl).
  - intro s. apply put_state_quiet.
Qed.

Lemma getJson_requests (url : string) (w : world) :
  requests (snd (getJson url w)) = (requests w ++ [url])%list /\
  same_controls w (snd (getJson url w)).
Proof.
  unfold getJson, bindM, request.
  destruct (fetch url) as [r|e]; cbn [snd requests].
  - destruct (negb (ok r)); cbn; split; try reflexivity; intro id; reflexivity.
  - split; [reflexivity|intro id; reflexivity].
Qed.

End Detail.

Lemma refreshPersonDetail_sends {RT : Runtime} {BR : Browser} (w : world)
    (personId : value) :
  requests (snd (refreshPersonDetail personId w)) = requests w \/
  (ToBoolean personId = true /\
   exists typed year,
     typed_into YEAR_INPUT_ID w = Some typed /\
     year_read typed = Some year /\
     requests (snd (refreshPersonDetail personId w)) =
       (requests w ++ [detail_url personId year])%list).
Proof.
  remember (snd (refreshPersonDetail personId w)) as w' eqn:Ew.
  unfold refreshPersonDetail in Ew.
  destruct (ToBoolean personId) eqn:Eb; cbn [negb] in Ew.
  2: { left. subst w'.
       assert (H : quiet w (snd ((clearDetail ;;; updateView) w))).
       { apply (always_bind quiet quiet_trans);
           [apply clearDetail_quiet|intros _; apply updateView_quiet]. }
       exact (proj2 H). }
  unfold bindM at 1 in Ew.
  destruct (typed_into YEAR_INPUT_ID w) as [typed|] eqn:Etyped.
  2: { left. subst w'. unfold getSelectedYear, bindM, getElement.
       unfold typed_into in Etyped.
       destruct (getElementById YEAR_INPUT_ID (doc w)); [discriminate|].
       reflexivity. }
  rewrite (getSelectedYear_runs w typed Etyped) in Ew.
  destruct (year_read typed) as [year|] eqn:Ey; cbn [strict_equal] in Ew.
  2: { left. subst w'. unfold setStatusMessage.
       exact (proj2 (setText_quiet _ _ w)). }
  unfold bindM at 1 in Ew. unfold clearDetail at 1 in Ew.
  unfold bindM at 1 in Ew. cbn [get_state put_state] in Ew.
  match type of Ew with
  | context [bindM updateView ?k ?w0] => set (w1 := w0) in Ew
  end.
  assert (Q1 : quiet w w1) by (split; [intro id|]; reflexivity).
  pose proof (updateView_quiet w1) as Q2.
  unfold bindM at 1 in Ew.
  destruct (updateView w1) as [[[]|e] w2]; cbn [snd] in Q2, Ew;
    [|left; subst w'; rewrite (proj2 Q2); exact (proj2 Q1)].
  right. split; [reflexivity|].
  exists typed, year. split; [reflexivity|]. split; [exact Ey|].
  unfold try_catch in Ew. unfold bindM at 1 in Ew.
  change (PERSON_DETAIL_ENDPOINT ++ ToString personId ++ "/details/" ++
          ToString (VNum year)) with (detail_url personId year) in Ew.
  destruct (getJson_requests (detail_url personId year) w2) as [R3 _].
  destruct (getJson (detail_url personId year) w2) as [[loaded|e] w3];
    cbn [snd] in R3.
  - assert (Q4 : always quiet
        (s <~ get_state ;;
         put_state {| people := people s; filtered := filtered s;
                      sortKey := sortKey s; sortDirection := sortDirection s;
                      selectedId := selectedId s; detail := loaded |} ;;;
         updateView)).
    { apply (always_bind quiet quiet_trans);
        [apply (always_get_state quiet quiet_refl)|intro s].
      apply (always_bind quiet quiet_trans);
        [apply put_state_quiet|intros _; apply updateView_quiet]. }
    specialize (Q4 w3).
    match type of Ew with
    | context [match ?m w3 with _ => _ end] =>
        change (quiet w3 (snd (m w3))) in Q4;
        destruct (m w3) as [[[]|e] w4]; cbn [snd] in Q4, Ew
    end.
    + subst w'. rewrite (proj2 Q4), R3, (proj2 Q2), (proj2 Q1). reflexivity.
    + subst w'. unfold setStatusMessage.
      rewrite (proj2 (setText_quiet _ _ w4)), (proj2 Q4), R3, (proj2 Q2),
        (proj2 Q1). reflexivity.
  - subst w'. unfold setStatusMessage.
    rewrite (proj2 (setText_quiet _ _ w3)), R3, (proj2 Q2), (proj2 Q1).
    reflexivity.
Qed.

(** X13. [refreshPersonDetail] sends at most one request, and only to
    the detail of the given person for the year read from the year input:
    none for a person identifier that is [null], [undefined], [0], [NaN]
    or empty, and none when the year input holds no number. *)
Theorem refreshPersonDetail_requests :
  forall (RT : Runtime) (BR : Browser) (w : world) (personId : value),
    let w' := snd (refreshPersonDetail personId w) in
    (ToBoolean personId = false -> requests w' = requests w) /\
    (requests w' = requests w \/
     exists typed year,
       typed_into YEAR_INPUT_ID w = Some typed /\
       year_read typed = Some year /\
       requests w' = (requests w ++ [detail_url personId year])%list).
Proof.
  intros RT BR w personId. cbv zeta.
  destruct (refreshPersonDetail_sends w personId) as [H|[Hb H]].
  - split; [intros _; exact H|left; exact H].
  - split; [congruence|right; exact H].
Qed.

Lemma refreshPersonDetail_requests_witness :
  let w := page_holding whole_euro_people "2024" EmptyString in
  requests (snd (refreshPersonDetail (RT := Reference.runtime)
                   (BR := browser_2024) VNull w)) = requests w /\
  (requests (snd (refreshPersonDetail (RT := Reference.runtime)
                    (BR := browser_2024) (VNum 1%float) w)) = requests w \/
   exists typed year,
     typed_into YEAR_INPUT_ID w = Some typed /\
     year_read (RT := Reference.runtime) typed = Some year /\
     requests (snd (refreshPersonDetail (RT := Reference.runtime)
                      (BR := browser_2024) (VNum 1%float) w)) =
       (requests w ++
        [detail_url (RT := Reference.runtime) (VNum 1%float) year])%list).
Proof.
  cbv zeta. split.
  - apply (refreshPersonDetail_requests Reference.runtime browser_2024
             (page_holding whole_euro_people "2024" EmptyString) VNull).
    reflexivity.
  - apply (refreshPersonDetail_requests Reference.runtime browser_2024
             (page_holding whole_euro_people "2024" EmptyString)
             (VNum 1%float)).
Defined.

Example refreshPersonDetail_of_the_first_person :
  let w' := snd (refreshPersonDetail (RT := Reference.runtime)
                   (BR := browser_2024) (VNum 1%float)
                   (page_holding whole_euro_people "2024" EmptyString)) in
  requests w' = ["/api/people/1/details/2024"] /\
  detail (st w') = VObj sample_detail.
Proof. vm_compute. split; reflexivity. Qed.

Section Loading.
Context {RT : Runtime} {CU : CodeUnits} {BR : Browser}.

Lemma withSortKeys_summary (p : value) :
  is_person_summary p = true ->
  exists p', withSortKeys p = Ok p' /\ has_sort_keys p p' /\
             is_person_summary p' = true.
Proof.
  intro H. destruct p as [| | | | | |o]; try discriminate.
  unfold withSortKeys. cbn [get_prop bind own_properties].
  eexists. split; [reflexivity|]. split.
  - exists o. eexists. split; [reflexivity|]. split; [reflexivity|].
    rewrite !get_set. cbn.
    repeat split; try reflexivity.
    intros k Hk. rewrite !get_set.
    assert (Hne : forall c, In c sort_key_names -> String.eqb k c = false).
    { intros c Hc. apply String.eqb_neq. intro E. subst c. contradiction. }
    rewrite !Hne by (cbn; tauto). reflexivity.
  - cbn [is_person_summary] in *. rewrite !get_set. exact H.
Qed.

Lemma mapM_withSortKeys (persons : list value) :
  Forall (fun p => is_person_summary p = true) persons ->
  exists stored,
    mapM withSortKeys persons = Ok stored /\
    Forall2 has_sort_keys persons stored /\
    Forall (fun p => is_person_summary p = true) stored.
Proof.
  induction 1 as [|p r Hp Hr [stored [Hm [Hk Hs]]]].
  - exists []. repeat split; constructor.
  - destruct (withSortKeys_summary p Hp) as [p' [Hw [Hk' Hs']]].
    exists (p' :: stored). cbn [mapM]. rewrite Hw, Hm. cbn [bind].
    repeat split; constructor; assumption.
Qed.

End Loading.



Lemma same_selection_refl (w : world) : same_selection w w.
Proof. repeat split. Qed.

Lemma same_selection_trans (w1 w2 w3 : world) :
  same_selection w1 w2 -> same_selection w2 w3 -> same_selection w1 w3.
Proof.
  intros (P1 & K1 & D1 & S1 & H1) (P2 & K2 & D2 & S2 & H2).
  repeat split; congruence.
Qed.

Lemma only_view_same_selection (w w' : world) :
  only_view_changed w w' -> same_selection w w'.
Proof. intros (P & K & D & S & _ & H & _). repeat split; assumption. Qed.

Section Selection.
Context {RT : Runtime} {BR : Browser}.

Let s_bind {A B : Type} :=
  @always_bind same_selection same_selection_trans A B.

Lemma updateView_same_selection : always same_selection updateView.
Proof. intro w. apply only_view_same_selection, updateView_only_view. Qed.

Lemma setText_same_selection (id text : string) :
  always same_selection (setText id text).
Proof. intro w. apply only_view_same_selection, setText_only_view. Qed.

Lemma set_detail_same_selection (v : value) :
  always same_selection
    (s <~ get_state ;;
     put_state {| people := people s; filtered := filtered s;
                  sortKey := sortKey s; sortDirection := sortDirection s;
                  selectedId := selectedId s; detail := v |}).
Proof. intro w. repeat split. Qed.

Lemma getJson_same_selection (url : string) :
  always same_selection (getJson url).
Proof.
  intro w. unfold getJson, bindM, request.
  destruct (fetch url) as [r|e]; [destruct (negb (ok r))|]; repeat split.
Qed.

Lemma refreshPersonDetail_same_selection (personId : value) :
  always same_selection (refreshPersonDetail personId).
Proof.
  unfold refreshPersonDetail. apply always_if.
  - apply s_bind; [apply set_detail_same_selection|intros _].
    apply updateView_same_selection.
  - apply s_bind;
      [unfold getSelectedYear; apply s_bind;
         [apply always_getElement, same_selection_refl|intro input];
       apply always_if; apply always_ret, same_selection_refl|intro year].
    apply always_if; [apply setText_same_selection|].
    apply s_bind; [apply set_detail_same_selection|intros _].
    apply s_bind; [apply updateView_same_selection|intros _].
    apply always_try; [exact same_selection_trans| |].
    + apply s_bind; [apply getJson_same_selection|intro loaded].
      apply (always_update same_selection same_selection_trans
               (fun s => {| people := people s; filtered := filtered s;
                            sortKey := sortKey s;
                            sortDirection := sortDirection s;
                            selectedId := selectedId s; detail := loaded |})).
      * intro w. repeat split.
      * intros _. apply updateView_same_selection.
    + intros _. apply setText_same_selection.
Qed.

End Selection.

(** X15. A click outside every table row, or on a row whose
    [data-person-id] is no number, changes nothing.  A click on the row of
    a person selects that person: whether or not the view and the detail
    could then be shown, the selection is that person in the end, the
    loaded people, the sort key and direction and the headers are as
    before, and at most one request was sent, to the detail of that
    person for the year read from the year input. *)
Theorem handleRowSelection_selects :
  forall (RT : Runtime) (BR : Browser) (w : world)
         (event_target : option target),
    match person_clicked event_target with
    | None => handleRowSelection event_target w = (Ok tt, w)
    | Some personId =>
        let w' := snd (handleRowSelection event_target w) in
        selectedId (st w') = VNum personId /\
        people (st w') = people (st w) /\
        sortKey (st w') = sortKey (st w) /\
        sortDirection (st w') = sortDirection (st w) /\
        headers w' = headers w /\
        (requests w' = requests w \/
         exists typed year,
           typed_into YEAR_INPUT_ID w = Some typed /\
           year_read typed = Some year /\
           requests w' =
             (requests w ++ [detail_url (VNum personId) year])%list)
    end.
Proof.
  intros RT BR w event_target. unfold person_clicked, handleRowSelection.
  destruct event_target as [clicked|]; [|reflexivity].
  destruct (closest_row clicked) as [attr|]; [|reflexivity].
  set (personId := Number_parseInt _).
  destruct (Number_isFinite (VNum personId)); cbn [negb]; [|reflexivity].
  cbv zeta.
  match goal with
  | |- context [snd (?m w)] => remember (snd (m w)) as w' eqn:Ew
  end.
  unfold bindM at 1 in Ew. cbn [get_state] in Ew. unfold bindM at 1 in Ew.
  cbn [put_state] in Ew.
  match type of Ew with
  | context [bindM updateView ?k ?w0] => set (w1 := w0) in Ew
  end.
  assert (Q1 : quiet w w1) by (split; [intro id|]; reflexivity).
  pose proof (updateView_only_view w1) as V.
  pose proof (only_view_same_selection _ _ V) as (P2 & K2 & D2 & S2 & H2).
  pose proof (only_view_quiet _ _ V) as Q2.
  unfold bindM at 1 in Ew.
  destruct (updateView w1) as [[[]|e] w2]; cbn [snd] in *.
  2: { subst w'. rewrite P2, K2, D2, S2, H2, (proj2 Q2).
       repeat split. left. reflexivity. }
  unfold detached in Ew. cbn [snd] in Ew.
  pose proof (refreshPersonDetail_same_selection (VNum personId) w2)
    as (P3 & K3 & D3 & S3 & H3).
  rewrite <- Ew in P3, K3, D3, S3, H3.
  rewrite P3, K3, D3, S3, H3, P2, K2, D2, S2, H2.
  repeat split.
  destruct (refreshPersonDetail_sends w2 (VNum personId)) as [H|[_ H]];
    rewrite <- Ew in H.
  - left. rewrite H, (proj2 Q2). reflexivity.
  - right. destruct H as [typed [year [Ht [Hy Hr]]]].
    exists typed, year. split.
    + rewrite <- (proj1 Q1 YEAR_INPUT_ID), <- (proj1 Q2 YEAR_INPUT_ID).
      exact Ht.
    + split; [exact Hy|]. rewrite Hr, (proj2 Q2). reflexivity.
Qed.

Example handleRowSelection_on_the_second_row :
  let w' := snd (handleRowSelection (RT := Reference.runtime)
                   (BR := browser_2024)
                   (Some {| attribute_data_key := None;
                            closest_row := Some (Some "2") |})
                   (page_holding whole_euro_people "2024" EmptyString)) in
  selectedId (st w') = VNum 2%float /\
  requests w' = ["/api/people/2/details/2024"] /\
  shown_by STATUS_MESSAGE_ID w' =
    Some (Text "Impossible de charger le détail annuel.").
Proof. vm_compute. repeat split. Qed.

Lemma same_detail_refl (w : world) : same_detail w w.
Proof. reflexivity. Qed.

Lemma same_detail_trans (w1 w2 w3 : world) :
  same_detail w1 w2 -> same_detail w2 w3 -> same_detail w1 w3.
Proof. unfold same_detail. congruence. Qed.

Lemma only_view_same_detail (w w' : world) :
  only_view_changed w w' -> same_detail w w'.
Proof. intros (_ & _ & _ & _ & D & _). exact D. Qed.

Section LoadedDetail.
Context {RT : Runtime} {BR : Browser}.

Lemma updateView_same_detail : always same_detail updateView.
Proof. intro w. apply only_view_same_detail, updateView_only_view. Qed.

Lemma setStatusMessage_same_detail (message : string) :
  always same_detail (setStatusMessage message).
Proof. intro w. apply only_view_same_detail, setText_only_view. Qed.

Lemma getJson_answers (url : string) (w : world) :
  same_detail w (snd (getJson url w)) /\
  forall loaded w', getJson url w = (Ok loaded, w') ->
    exists answer, fetch url = Ok answer /\ ok answer = true /\
                   JSON_parse (body answer) = Ok loaded.
Proof.
  unfold getJson, bindM, request.
  destruct (fetch url) as [answer|e]; cbn [snd].
  - destruct (ok answer) eqn:Eo; cbn [negb].
    + split; [reflexivity|]. unfold lift. intros loaded w' H.
      exists answer. injection H as H _.
      split; [reflexivity|]. split; [exact Eo|exact H].
    + split; [reflexivity|]. intros loaded w' H. discriminate H.
  - split; [reflexivity|]. intros loaded w' H. discriminate H.
Qed.

End LoadedDetail.



Example refreshPersonDetail_without_a_year :
  let w := page_holding whole_euro_people "l'an dernier" EmptyString in
  let loaded :=
    {| st := {| people := people (st w); filtered := filtered (st w);
                sortKey := sortKey (st w);
                sortDirection := sortDirection (st w);
                selectedId := VNum 1%float;
                detail := VObj [("person_id", VNum 1%float)] |};
       heap := heap w; doc := doc w; headers := headers w;
       requests := requests w |} in
  detail (st (snd (refreshPersonDetail (RT := Reference.runtime)
                     (BR := browser_2024) (VNum 2%float) loaded)))
  = VObj [("person_id", VNum 1%float)].
Proof. vm_compute. reflexivity. Qed.

Lemma same_shown_refl (id : string) (w : world) : same_shown id w w.
Proof. reflexivity. Qed.

Lemma same_shown_trans (id : string) (w1 w2 w3 : world) :
  same_shown id w1 w2 -> same_shown id w2 w3 -> same_shown id w1 w3.
Proof. unfold same_shown. congruence. Qed.

Lemma show_same_shown (id id' : string) (c : shown) :
  String.eqb id id' = false -> always (same_shown id) (show id' c).
Proof.
  intros H w. unfold same_shown. rewrite shown_by_show, H.
  destruct (shown_by id w); reflexivity.
Qed.

Lemma put_state_same_shown (id : string) (s : state) :
  always (same_shown id) (put_state s).
Proof. intro w. reflexivity. Qed.

Lemma on_heap_same_shown {A : Type} (id : string)
    (f : store -> result A * store) :
  always (same_shown id) (on_heap f).
Proof. intro w. unfold on_heap. destruct (f (heap w)). reflexivity. Qed.

Lemma request_same_shown {BR : Browser} (id url : string) :
  always (same_shown id) (request url).
Proof. intro w. reflexivity. Qed.

(** Runs through a statement of the page, leaving the writes to [leaf]. *)
Ltac page_steps id leaf :=
  repeat first
    [ apply (always_ret (same_shown id) (same_shown_refl id))
    | apply (always_throw (same_shown id) (same_shown_refl id))
    | apply (always_lift (same_shown id) (same_shown_refl id))
    | apply (always_get_state (same_shown id) (same_shown_refl id))
    | apply (always_read_array (same_shown id) (same_shown_refl id))
    | apply (always_getElement (same_shown id) (same_shown_refl id))
    | apply put_state_same_shown
    | apply on_heap_same_shown
    | apply request_same_shown
    | leaf
    | apply always_if
    | apply (always_try (same_shown id) (same_shown_trans id)); [|intro]
    | apply (always_bind (same_shown id) (same_shown_trans id)); [|intro] ].

Section Shown.
Context {RT : Runtime} {CU : CodeUnits} {BR : Browser}.
Variable id : string.
Hypothesis Hid : forallb (fun v => negb (String.eqb id v))
                   (STATUS_MESSAGE_ID :: view_elements) = true.

Lemma not_written (id' : string) :
  In id' (STATUS_MESSAGE_ID :: view_elements) -> String.eqb id id' = false.
Proof.
  intro Hin. rewrite forallb_forall in Hid. specialize (Hid id' Hin).
  apply negb_true_iff. exact Hid.
Qed.

Lemma updateView_same_shown : always (same_shown id) updateView.
Proof.
  unfold updateView, renderSummary, renderTable, renderDetail, setText.
  page_steps id ltac:(apply show_same_shown; apply not_written; cbn; tauto).
Qed.

Lemma getJson_same_shown (url : string) : always (same_shown id) (getJson url).
Proof. unfold getJson. page_steps id fail. Qed.

Lemma refreshDashboard_same_shown : always (same_shown id) refreshDashboard.
Proof.
  unfold refreshDashboard, getSelectedYear, setStatusMessage, setText,
    fetchDashboard.
  page_steps id ltac:(first
    [ apply updateView_same_shown
    | apply show_same_shown; apply not_written; cbn; tauto ]).
Qed.

End Shown.

End PageFacts.

(** ** The forms of the dashboard page *)

Module FormsFacts.
Import DashboardForms.

Lemma setShown_setShown (id : string) (c1 c2 : DashboardPage.shown)
    (d : DashboardPage.document) :
  DashboardPage.setShown id c2 (DashboardPage.setShown id c1 d) =
  DashboardPage.setShown id c2 d.
Proof.
  induction d as [|[i n] r IH]; [reflexivity|].
  cbn [DashboardPage.setShown]. destruct (String.eqb id i) eqn:E.
  - cbn [DashboardPage.setShown]. rewrite E. reflexivity.
  - cbn [DashboardPage.setShown]. rewrite E, IH. reflexivity.
Qed.

Lemma with_form_status_twice (m1 m2 : string) (w : world) :
  with_form_status m2 (with_form_status m1 w) = with_form_status m2 w.
Proof.
  unfold with_form_status, DashboardPage.show. cbn.
  rewrite setShown_setShown. reflexivity.
Qed.

(** *** Running statements *)

Lemma bindM_ok {A B : Type} (m : M A) (k : A -> M B) (w w1 : world) (a : A) :
  m w = (Ok a, w1) -> bindM m k w = k a w1.
Proof. intro H. unfold bindM. rewrite H. reflexivity. Qed.

Lemma bindM_throw {A B : Type} (m : M A) (k : A -> M B) (w w1 : world)
    (e : exn) :
  m w = (Throw e, w1) -> bindM m k w = (Throw e, w1).
Proof. intro H. unfold bindM. rewrite H. reflexivity. Qed.

Lemma bindM_runs {A B : Type} (m : M A) (k : A -> M B) (w w' : world) (b : B) :
  bindM m k w = (Ok b, w') ->
  exists a w1, m w = (Ok a, w1) /\ k a w1 = (Ok b, w').
Proof.
  unfold bindM. destruct (m w) as [[a|e] w1]; [|discriminate].
  intro H. exists a, w1. split; [reflexivity|exact H].
Qed.

Lemma try_catch_ok {A : Type} (body : M A) (handler : exn -> M A)
    (w w1 : world) (a : A) :
  body w = (Ok a, w1) -> try_catch body handler w = (Ok a, w1).
Proof. intro H. unfold try_catch. rewrite H. reflexivity. Qed.

Lemma try_catch_throw {A : Type} (body : M A) (handler : exn -> M A)
    (w w1 : world) (e : exn) :
  body w = (Throw e, w1) -> try_catch body handler w = handler e w1.
Proof. intro H. unfold try_catch. rewrite H. reflexivity. Qed.

Section Frames.
Variable R : world -> world -> Prop.
Hypothesis R_refl : forall w, R w w.
Hypothesis R_trans : forall w1 w2 w3, R w1 w2 -> R w2 w3 -> R w1 w3.

Lemma forms_ret {A : Type} (a : A) : always R (ret a).
Proof. intro w. apply R_refl. Qed.

Lemma forms_lift {A : Type} (r : result A) : always R (lift r).
Proof. intro w. apply R_refl. Qed.

Lemma forms_bind {A B : Type} (m : M A) (k : A -> M B) :
  always R m -> (forall a, always R (k a)) -> always R (bindM m k).
Proof.
  intros Hm Hk w. unfold bindM. specialize (Hm w).
  destruct (m w) as [[a|e] w']; cbn [snd] in *; [|exact Hm].
  apply R_trans with w'; [exact Hm|apply Hk].
Qed.

Lemma forms_try {A : Type} (body : M A) (handler : exn -> M A) :
  always R body -> (forall e, always R (handler e)) ->
  always R (try_catch body handler).
Proof.
  intros Hb Hh w. unfold try_catch. specialize (Hb w).
  destruct (body w) as [[a|e] w']; cbn [snd] in *; [exact Hb|].
  apply R_trans with w'; [exact Hb|apply Hh].
Qed.

Lemma forms_detached (m : M unit) : always R m -> always R (detached m).
Proof. intros Hm w. exact (Hm w). Qed.

Lemma forms_Promise_all (a b c : M value) :
  always R a -> always R b -> always R c -> always R (Promise_all a b c).
Proof.
  intros Ha Hb Hc w. unfold Promise_all.
  specialize (Ha w). destruct (a w) as [first w1]. cbn [snd] in Ha.
  specialize (Hb w1). destruct (b w1) as [second w2]. cbn [snd] in Hb.
  specialize (Hc w2). destruct (c w2) as [third w3]. cbn [snd] in *.
  apply R_trans with w1; [exact Ha|].
  apply R_trans with w2; [exact Hb|exact Hc].
Qed.

End Frames.

Lemma forms_untouched_refl (id : string) (w : world) : forms_untouched id w w.
Proof. repeat split. Qed.

Lemma forms_untouched_trans (id : string) (w1 w2 w3 : world) :
  forms_untouched id w1 w2 -> forms_untouched id w2 w3 ->
  forms_untouched id w1 w3.
Proof.
  unfold forms_untouched, same_shown. intros (F1 & S1 & P1) (F2 & S2 & P2).
  repeat split; congruence.
Qed.

Lemma on_page_untouched {A : Type} (id : string) (m : DashboardPage.M A) :
  always (same_shown id) m -> always (forms_untouched id) (on_page m).
Proof.
  intros Hm w. unfold on_page. specialize (Hm (page w)).
  destruct (m (page w)) as [r p]. cbn [snd] in *.
  repeat split. exact Hm.
Qed.

Lemma settled_refl (id : string) (w : world) : settled id w w.
Proof. repeat split. auto. Qed.

Lemma settled_trans (id : string) (w1 w2 w3 : world) :
  settled id w1 w2 -> settled id w2 w3 -> settled id w1 w3.
Proof.
  unfold settled. intros (Q1 & F1 & S1 & P1) (Q2 & F2 & S2 & P2).
  repeat split; try congruence. auto.
Qed.

Lemma on_page_settled {A : Type} (id : string) (m : DashboardPage.M A) :
  (forall p, DashboardPage.requests (snd (m p)) = DashboardPage.requests p /\
             (DashboardPage.getElementById id (DashboardPage.doc p) <> None ->
              DashboardPage.getElementById id
                (DashboardPage.doc (snd (m p))) <> None)) ->
  always (settled id) (on_page m).
Proof.
  intros Hm w. unfold on_page. specialize (Hm (page w)).
  destruct (m (page w)) as [r p]. cbn [snd] in *.
  destruct Hm as [Hq Hp]. repeat split; assumption.
Qed.

Lemma getElement_settled (id id' : string) :
  always (settled id) (on_page (DashboardPage.getElement id')).
Proof.
  apply on_page_settled. intro p. unfold DashboardPage.getElement.
  destruct (DashboardPage.getElementById id' (DashboardPage.doc p));
    split; auto.
Qed.

Lemma show_settled (id id' : string) (c : DashboardPage.shown) :
  always (settled id) (on_page (DashboardPage.show id' c)).
Proof.
  apply on_page_settled. intro p. split; [reflexivity|].
  apply (PageFacts.present_show id id' c p).
Qed.

Lemma setText_settled (id id' text : string) :
  always (settled id) (on_page (DashboardPage.setText id' text)).
Proof.
  apply on_page_settled. intro p.
  unfold DashboardPage.setText, DashboardPage.bindM, DashboardPage.getElement.
  destruct (DashboardPage.getElementById id' (DashboardPage.doc p));
    [|split; auto].
  split; [reflexivity|].
  apply (PageFacts.present_show id id' (DashboardPage.Text text) p).
Qed.

(** Runs through a statement of the forms, leaving the writes to [leaf]. *)
Ltac forms_steps R R_refl R_trans leaf :=
  repeat lazymatch goal with
         | |- always _ (ret _) => apply (forms_ret R R_refl)
         | |- always _ (lift _) => apply (forms_lift R R_refl)
         | |- always _ (detached _) => apply (forms_detached R)
         | |- always _ (Promise_all _ _ _) =>
             apply (forms_Promise_all R R_trans)
         | |- always _ (try_catch _ _) =>
             apply (forms_try R R_trans); [|intro]
         | |- always _ (bindM _ _) => apply (forms_bind R R_trans); [|intro]
         | |- always _ (let '(_, _) := ?x in _) => destruct x as [[? ?] ?]
         | |- _ => solve [leaf]
         end.

Section Reloads.
Context {RT : Runtime} {CU : CodeUnits} {BR : DashboardPage.Browser}
        {SV : Server}.

Lemma setFormStatus_runs (message : string) (w : world) :
  DashboardPage.getElementById FORM_STATUS_ID (DashboardPage.doc (page w))
    <> None ->
  setFormStatus message w = (Ok tt, with_form_status message w).
Proof.
  intro H. unfold setFormStatus, on_page.
  rewrite (PageFacts.setText_present _ _ (page w) H). reflexivity.
Qed.

Lemma with_form_status_present (id message : string) (w : world) :
  DashboardPage.getElementById id (DashboardPage.doc (page w)) <> None ->
  DashboardPage.getElementById id
    (DashboardPage.doc (page (with_form_status message w))) <> None.
Proof. apply PageFacts.present_show. Qed.

Lemma with_form_status_shows (message : string) (w : world) :
  DashboardPage.getElementById FORM_STATUS_ID (DashboardPage.doc (page w))
    <> None ->
  shown_by FORM_STATUS_ID (page (with_form_status message w)) =
  Some (DashboardPage.Text message).
Proof.
  intro H. unfold with_form_status. cbn [page].
  rewrite PageFacts.shown_by_show. unfold shown_by.
  destruct (DashboardPage.getElementById FORM_STATUS_ID
              (DashboardPage.doc (page w))); [|congruence].
  cbn [option_map]. rewrite String.eqb_refl. reflexivity.
Qed.

Variable id : string.
Hypothesis Hid : forallb (fun v => negb (String.eqb id v)) reload_elements
                 = true.

Lemma not_reloaded (id' : string) :
  In id' reload_elements -> String.eqb id id' = false.
Proof.
  intro Hin. rewrite forallb_forall in Hid. specialize (Hid id' Hin).
  apply negb_true_iff. exact Hid.
Qed.

Lemma refreshDashboard_untouched :
  always (forms_untouched id) (on_page DashboardPage.refreshDashboard).
Proof.
  apply on_page_untouched. apply PageFacts.refreshDashboard_same_shown.
  apply forallb_forall. intros v Hv. apply negb_true_iff, not_reloaded.
  destruct Hv as [<-|Hv]; [left; reflexivity|].
  right; right; right; right; right. exact Hv.
Qed.

Lemma refreshAdminData_untouched : always (forms_untouched id) refreshAdminData.
Proof.
  unfold refreshAdminData, setAdminStatus, renderHouseholdsTable,
    renderPersonsTable, renderVehiclesTable.
  forms_steps (forms_untouched id) (forms_untouched_refl id)
    (forms_untouched_trans id)
    ltac:(first
      [ apply on_page_untouched;
        first [ apply PageFacts.getJson_same_shown
              | apply (PageFacts.always_getElement (same_shown id)
                         (PageFacts.same_shown_refl id))
              | apply PageFacts.show_same_shown; apply not_reloaded;
                cbn; tauto
              | unfold DashboardPage.setText;
                apply (PageFacts.always_bind (same_shown id)
                         (PageFacts.same_shown_trans id));
                [ apply (PageFacts.always_getElement (same_shown id)
                           (PageFacts.same_shown_refl id))
                | intro; apply PageFacts.show_same_shown;
                  apply not_reloaded; cbn; tauto ] ]
      | intro w; repeat split ]).
Qed.

End Reloads.

Section Handlers.
Context {RT : Runtime} {CU : CodeUnits} {BR : DashboardPage.Browser}
        {SV : Server}.

Lemma sendJson_then {B : Type} (endpoint method : string) (payload : value)
    (k : M B) (w : world) :
  bindM (sendJson endpoint method payload) (fun _ => k) w =
  let sent := {| endpoint := endpoint; method := method;
                 content := body_of payload |} in
  match refusal sent with
  | Some e => (Throw e, with_submission sent w)
  | None => k (with_submission sent w)
  end.
Proof.
  cbv zeta. unfold bindM at 1. unfold sendJson, refusal, body_of.
  unfold bindM at 1. unfold request at 1.
  destruct (send _) as [answer|e]; [|reflexivity].
  destruct (negb (DashboardPage.ok answer)); [reflexivity|].
  destruct (String.eqb (DashboardPage.body answer) EmptyString);
    [reflexivity|].
  unfold lift. destruct (DashboardPage.JSON_parse _); reflexivity.
Qed.

Lemma once_sent_runs (formId successMessage : string) (w : world) :
  DashboardPage.getElementById FORM_STATUS_ID (DashboardPage.doc (page w))
    <> None ->
  exists w',
    once_sent formId successMessage w = (Ok tt, w') /\
    forms w' = reset_form formId (forms w) /\
    submissions w' = submissions w /\
    shown_by FORM_STATUS_ID (page w') =
      Some (DashboardPage.Text successMessage).
Proof.
  intro Hs. unfold once_sent. unfold bindM at 1. cbn [reset].
  set (w1 := {| page := page w; forms := reset_form formId (forms w);
                admin := admin w; submissions := submissions w |}).
  assert (Hs1 : DashboardPage.getElementById FORM_STATUS_ID
                  (DashboardPage.doc (page w1)) <> None) by exact Hs.
  rewrite (bindM_ok _ _ _ _ _ (setFormStatus_runs successMessage w1 Hs1)).
  unfold bindM, detached. cbn [snd].
  set (w2 := with_form_status successMessage w1).
  pose proof (refreshDashboard_untouched FORM_STATUS_ID eq_refl w2)
    as (F3 & S3 & P3).
  set (w3 := snd (on_page DashboardPage.refreshDashboard w2)) in *.
  pose proof (refreshAdminData_untouched FORM_STATUS_ID eq_refl w3)
    as (F4 & S4 & P4).
  eexists. split; [reflexivity|].
  rewrite F4, F3, S4, S3. unfold same_shown in P3, P4. rewrite P4, P3.
  repeat split. apply (with_form_status_shows successMessage w1 Hs1).
Qed.

Lemma handler_runs (how : submit) (formId endpoint successMessage : string)
    (w : world) (f : form_state) :
  find_form formId (forms w) = Some f ->
  DashboardPage.getElementById FORM_STATUS_ID (DashboardPage.doc (page w))
    <> None ->
  handler how formId endpoint successMessage w =
  match request_built how endpoint (controls f) with
  | Throw e => (Ok tt, with_form_status (getErrorMessage e) w)
  | Ok sent =>
      match refusal sent with
      | Some e =>
          (Ok tt, with_form_status (getErrorMessage e) (with_submission sent w))
      | None =>
          once_sent formId successMessage
            (with_submission sent (with_form_status (progress how) w))
      end
  end.
Proof.
  intros Hf Hs.
  assert (Hget : getForm formId w = (Ok formId, w))
    by (unfold getForm; rewrite Hf; reflexivity).
  assert (Hbuild : forall (A : Type) (b : form -> result A) (m : string),
             build b formId (with_form_status m w) =
             (b (controls f), with_form_status m w))
    by (intros A b m; unfold build; cbn [with_form_status forms];
        rewrite Hf; reflexivity).
  assert (Hstatus : forall m e (w0 : world),
             page w0 = page (with_form_status m w) ->
             forms w0 = forms w -> admin w0 = admin w ->
             setFormStatus (getErrorMessage e) w0 =
             (Ok tt, {| page := page (with_form_status (getErrorMessage e) w);
                        forms := forms w; admin := admin w;
                        submissions := submissions w0 |})).
  { intros m e w0 Hp Hfo Ha.
    rewrite setFormStatus_runs
      by (rewrite Hp; apply with_form_status_present; exact Hs).
    f_equal. unfold with_form_status at 1. rewrite Hp, Hfo, Ha.
    f_equal. change (page (with_form_status (getErrorMessage e)
                             (with_form_status m w)) =
                     page (with_form_status (getErrorMessage e) w)).
    rewrite with_form_status_twice. reflexivity. }
  assert (Honce : forall m sent,
             match once_sent formId successMessage
                     (with_submission sent (with_form_status m w)) with
             | (Ok a, w') => (Ok a, w')
             | (Throw e, w') => setFormStatus (getErrorMessage e) w'
             end =
             once_sent formId successMessage
               (with_submission sent (with_form_status m w))).
  { intros m sent.
    destruct (once_sent_runs formId successMessage
                (with_submission sent (with_form_status m w)))
      as [w' [-> _]]; [|reflexivity].
    apply (with_form_status_present FORM_STATUS_ID m w Hs). }
  destruct how as [buildPayload|buildPayload|buildId];
    unfold handler, request_built, progress.
  - unfold handleFormSubmit.
    rewrite (bindM_ok _ _ _ _ _ Hget).
    rewrite (bindM_ok _ _ _ _ _ (setFormStatus_runs _ w Hs)).
    unfold try_catch. unfold bindM at 1. rewrite Hbuild.
    destruct (buildPayload (controls f)) as [payload|e]; cbn [bind].
    + fold (once_sent formId successMessage). rewrite sendJson_then.
      cbv zeta. destruct (refusal _) as [e|]; [|apply Honce].
      eapply (Hstatus _ e); reflexivity.
    + eapply (Hstatus _ e); reflexivity.
  - unfold handleUpdateFormSubmit.
    rewrite (bindM_ok _ _ _ _ _ Hget).
    rewrite (bindM_ok _ _ _ _ _ (setFormStatus_runs _ w Hs)).
    unfold try_catch. unfold bindM at 1. rewrite Hbuild.
    destruct (buildPayload (controls f)) as [built|e]; cbn [bind];
      [|eapply (Hstatus _ e); reflexivity].
    unfold bindM at 1. unfold lift at 1.
    destruct (get_prop built "id") as [id|e]; cbn [bind];
      [|eapply (Hstatus _ e); reflexivity].
    unfold bindM at 1. unfold lift at 1.
    destruct (get_prop built "payload") as [payload|e]; cbn [bind];
      [|eapply (Hstatus _ e); reflexivity].
    fold (once_sent formId successMessage). rewrite sendJson_then.
    cbv zeta. destruct (refusal _) as [e|]; [|apply Honce].
    eapply (Hstatus _ e); reflexivity.
  - unfold handleDeleteFormSubmit.
    rewrite (bindM_ok _ _ _ _ _ Hget).
    rewrite (bindM_ok _ _ _ _ _ (setFormStatus_runs _ w Hs)).
    unfold try_catch. unfold bindM at 1. rewrite Hbuild.
    destruct (buildId (controls f)) as [id|e]; cbn [bind];
      [|eapply (Hstatus _ e); reflexivity].
    fold (once_sent formId successMessage). rewrite sendJson_then.
    cbv zeta. change (body_of VUndefined) with (@None string).
    destruct (refusal _) as [e|]; [|apply Honce].
    eapply (Hstatus _ e); reflexivity.
Qed.

End Handlers.

Lemma same_lists_refl (w : world) : same_lists w w.
Proof. reflexivity. Qed.

Lemma same_lists_trans (w1 w2 w3 : world) :
  same_lists w1 w2 -> same_lists w2 w3 -> same_lists w1 w3.
Proof. unfold same_lists. congruence. Qed.

Lemma on_page_same_lists {A : Type} (m : DashboardPage.M A) :
  always same_lists (on_page m).
Proof.
  intro w. unfold on_page. destruct (m (page w)). reflexivity.
Qed.

Section Lists.
Context {RT : Runtime} {CU : CodeUnits} {BR : DashboardPage.Browser}
        {SV : Server}.

Lemma setAdminStatus_runs (message : string) (w : world) :
  DashboardPage.getElementById ADMIN_STATUS_ID (DashboardPage.doc (page w))
    <> None ->
  exists w',
    setAdminStatus message w = (Ok tt, w') /\
    settled ADMIN_STATUS_ID w w' /\ same_lists w w' /\
    shown_by ADMIN_STATUS_ID (page w') = Some (DashboardPage.Text message).
Proof.
  intro H. unfold setAdminStatus, on_page.
  rewrite (PageFacts.setText_present _ _ (page w) H).
  eexists. split; [reflexivity|]. cbn [page forms admin submissions snd].
  split; [|split; [reflexivity|]].
  - repeat split. intros _. apply PageFacts.present_show. exact H.
  - rewrite PageFacts.shown_by_show. unfold shown_by.
    destruct (DashboardPage.getElementById ADMIN_STATUS_ID
                (DashboardPage.doc (page w))); [|congruence].
    cbn [option_map]. rewrite String.eqb_refl. reflexivity.
Qed.

Lemma getJson_sends (url : string) (w : world) :
  let w' := snd (on_page (DashboardPage.getJson url) w) in
  DashboardPage.requests (page w') =
    (DashboardPage.requests (page w) ++ [url])%list /\
  DashboardPage.doc (page w') = DashboardPage.doc (page w) /\
  forms w' = forms w /\ submissions w' = submissions w /\
  admin w' = admin w.
Proof.
  cbv zeta. unfold on_page, DashboardPage.getJson, DashboardPage.bindM,
    DashboardPage.request.
  destruct (DashboardPage.fetch url) as [r|e]; cbn.
  - destruct (negb (DashboardPage.ok r)); cbn; repeat split.
  - repeat split.
Qed.

Lemma Promise_all_sends (w : world) :
  let w' := snd (Promise_all
                   (on_page (DashboardPage.getJson API_ENDPOINTS.households))
                   (on_page (DashboardPage.getJson API_ENDPOINTS.persons))
                   (on_page (DashboardPage.getJson API_ENDPOINTS.vehicles))
                   w) in
  DashboardPage.requests (page w') =
    (DashboardPage.requests (page w) ++
     [API_ENDPOINTS.households; API_ENDPOINTS.persons;
      API_ENDPOINTS.vehicles])%list /\
  DashboardPage.doc (page w') = DashboardPage.doc (page w) /\
  forms w' = forms w /\ submissions w' = submissions w.
Proof.
  cbv zeta. unfold Promise_all.
  pose proof (getJson_sends API_ENDPOINTS.households w) as H1.
  destruct (on_page (DashboardPage.getJson API_ENDPOINTS.households) w)
    as [r1 w1]. cbn [snd] in H1.
  pose proof (getJson_sends API_ENDPOINTS.persons w1) as H2.
  destruct (on_page (DashboardPage.getJson API_ENDPOINTS.persons) w1)
    as [r2 w2]. cbn [snd] in H2.
  pose proof (getJson_sends API_ENDPOINTS.vehicles w2) as H3.
  destruct (on_page (DashboardPage.getJson API_ENDPOINTS.vehicles) w2)
    as [r3 w3]. cbn [snd] in *.
  destruct H1 as (Q1 & D1 & F1 & S1 & _), H2 as (Q2 & D2 & F2 & S2 & _),
           H3 as (Q3 & D3 & F3 & S3 & _).
  rewrite Q3, Q2, Q1, D3, D2, D1, F3, F2, F1, S3, S2, S1.
  rewrite <- !app_assoc. repeat split.
Qed.

(** The statements of [refreshAdminData] that follow the three answers. *)
Ltac settled_leaf :=
  first [ apply getElement_settled | apply show_settled
        | apply setText_settled
        | intro w; repeat split; auto ].

Lemma renderHouseholdsTable_settled (id : string) (v : value) :
  always (settled id) (renderHouseholdsTable v).
Proof.
  unfold renderHouseholdsTable.
  forms_steps (settled id) (settled_refl id) (settled_trans id) settled_leaf.
Qed.

Lemma renderPersonsTable_settled (id : string) (v : value) :
  always (settled id) (renderPersonsTable v).
Proof.
  unfold renderPersonsTable.
  forms_steps (settled id) (settled_refl id) (settled_trans id) settled_leaf.
Qed.

Lemma renderVehiclesTable_settled (id : string) (v : value) :
  always (settled id) (renderVehiclesTable v).
Proof.
  unfold renderVehiclesTable.
  forms_steps (settled id) (settled_refl id) (settled_trans id) settled_leaf.
Qed.

Lemma render_same_lists (v : value) :
  always same_lists (renderHouseholdsTable v) /\
  always same_lists (renderPersonsTable v) /\
  always same_lists (renderVehiclesTable v).
Proof.
  unfold renderHouseholdsTable, renderPersonsTable, renderVehiclesTable.
  repeat split;
    forms_steps same_lists same_lists_refl same_lists_trans
      ltac:(apply on_page_same_lists).
Qed.

Lemma render_needs_array (v : value) (w w' : world) :
  renderHouseholdsTable v w = (Ok tt, w') \/
  renderPersonsTable v w = (Ok tt, w') \/
  renderVehiclesTable v w = (Ok tt, w') ->
  exists l, v = VArr l.
Proof.
  unfold renderHouseholdsTable, renderPersonsTable, renderVehiclesTable.
  intros [H|[H|H]];
    apply bindM_runs in H; destruct H as (_ & w1 & _ & H);
    apply bindM_runs in H; destruct H as (l & w2 & Hl & _);
    unfold lift in Hl; destruct v; try discriminate; eexists; reflexivity.
Qed.

Lemma setAdminStatus_shows (message : string) (w w' : world) :
  setAdminStatus message w = (Ok tt, w') ->
  shown_by ADMIN_STATUS_ID (page w') = Some (DashboardPage.Text message).
Proof.
  unfold setAdminStatus, on_page.
  destruct (DashboardPage.setText ADMIN_STATUS_ID message (page w))
    as [[[]|e] p] eqn:E; [|discriminate].
  intro H. injection H as <-. cbn [page].
  exact (proj2 (PageFacts.setText_shows _ _ _ _ E)).
Qed.

Lemma lift_runs {A : Type} (r : result A) (a : A) (w w' : world) :
  lift r w = (Ok a, w') -> r = Ok a /\ w' = w.
Proof. unfold lift. intro H. injection H as -> <-. split; reflexivity. Qed.

Lemma after_the_answers (households persons vehicles : value) :
  let rest :=
    renderHouseholdsTable households ;;;
    renderPersonsTable persons ;;;
    renderVehiclesTable vehicles ;;;
    h <~ lift (length_text households) ;;
    p <~ lift (length_text persons) ;;
    v <~ lift (length_text vehicles) ;;
    setAdminStatus (h ++ " foyers · " ++ p ++ " personnes · " ++ v ++
                    " véhicules.") in
  always (settled ADMIN_STATUS_ID) rest /\
  always same_lists rest /\
  forall w w', rest w = (Ok tt, w') ->
    exists hs ps vs,
      households = VArr hs /\ persons = VArr ps /\ vehicles = VArr vs /\
      shown_by ADMIN_STATUS_ID (page w') =
        Some (DashboardPage.Text (lists_loaded hs ps vs)).
Proof.
  cbv zeta. split; [|split].
  - forms_steps (settled ADMIN_STATUS_ID) (settled_refl ADMIN_STATUS_ID)
      (settled_trans ADMIN_STATUS_ID)
      ltac:(first [ apply renderHouseholdsTable_settled
                  | apply renderPersonsTable_settled
                  | apply renderVehiclesTable_settled
                  | apply setText_settled ]).
  - destruct (render_same_lists households) as (H1 & _ & _).
    destruct (render_same_lists persons) as (_ & H2 & _).
    destruct (render_same_lists vehicles) as (_ & _ & H3).
    forms_steps same_lists same_lists_refl same_lists_trans
      ltac:(first [ exact H1 | exact H2 | exact H3
                  | apply on_page_same_lists ]).
  - intros w w' H.
    apply bindM_runs in H. destruct H as ([] & w1 & Hh & H).
    apply bindM_runs in H. destruct H as ([] & w2 & Hp & H).
    apply bindM_runs in H. destruct H as ([] & w3 & Hv & H).
    destruct (render_needs_array households w w1 (or_introl Hh)) as [hs ->].
    destruct (render_needs_array persons w1 w2 (or_intror (or_introl Hp)))
      as [ps ->].
    destruct (render_needs_array vehicles w2 w3 (or_intror (or_intror Hv)))
      as [vs ->].
    apply bindM_runs in H. destruct H as (h & w4 & Lh & H).
    apply bindM_runs in H. destruct H as (p & w5 & Lp & H).
    apply bindM_runs in H. destruct H as (v & w6 & Lv & H).
    apply lift_runs in Lh, Lp, Lv.
    destruct Lh as [Lh _], Lp as [Lp _], Lv as [Lv _].
    cbn in Lh, Lp, Lv. injection Lh as <-. injection Lp as <-.
    injection Lv as <-.
    exists hs, ps, vs. repeat split.
    exact (setAdminStatus_shows _ _ _ H).
Qed.

End Lists.

(** X17. With the status line of the reference lists in the page,
    [refreshAdminData] never throws.  It always sends the three requests
    for the households, the persons and the vehicles, in this order,
    touches no form and submits nothing, and ends with a message in that
    status line: either that the lists could not be loaded, or the
    numbers of households, persons and vehicles, in which case the three
    lists of [state.admin] are the arrays received. *)
Theorem refreshAdminData_always_reports :
  forall (RT : Runtime) (BR : DashboardPage.Browser) (w : world),
    DashboardPage.getElementById ADMIN_STATUS_ID
      (DashboardPage.doc (page w)) <> None ->
    exists (w' : world) (message : string),
      refreshAdminData w = (Ok tt, w') /\
      DashboardPage.requests (page w') =
        (DashboardPage.requests (page w) ++
         [API_ENDPOINTS.households; API_ENDPOINTS.persons;
          API_ENDPOINTS.vehicles])%list /\
      forms w' = forms w /\
      submissions w' = submissions w /\
      shown_by ADMIN_STATUS_ID (page w') =
        Some (DashboardPage.Text message) /\
      (message = "Impossible de charger les référentiels." \/
       exists hs ps vs,
         admin w' = {| households := VArr hs; persons := VArr ps;
                       vehicles := VArr vs |} /\
         message = lists_loaded hs ps vs).
Proof.
  intros RT BR w Hp.
  destruct (setAdminStatus_runs "Chargement des référentiels..." w Hp)
    as (w1 & E1 & (Q1 & F1 & S1 & P1) & _ & _).
  specialize (P1 Hp).
  unfold refreshAdminData. rewrite (bindM_ok _ _ _ _ _ E1).
  unfold try_catch. unfold bindM at 1.
  pose proof (Promise_all_sends w1) as Hall. cbv zeta in Hall.
  destruct (Promise_all _ _ _ w1) as [[[[hv pv] vv]|e] w2]; cbn [snd] in Hall;
    destruct Hall as (Q2 & D2 & F2 & S2).
  2: { assert (P2 : DashboardPage.getElementById ADMIN_STATUS_ID
                      (DashboardPage.doc (page w2)) <> None)
         by (rewrite D2; exact P1).
       destruct (setAdminStatus_runs "Impossible de charger les référentiels."
                   w2 P2) as (w3 & -> & (Q3 & F3 & S3 & _) & _ & Hs).
       exists w3, "Impossible de charger les référentiels.".
       split; [reflexivity|]. rewrite Q3, Q2, Q1, F3, F2, F1, S3, S2, S1.
       repeat split; [exact Hs|left; reflexivity]. }
  unfold bindM at 1.
  set (w3 := {| page := page w2; forms := forms w2;
                admin := {| households := hv; persons := pv;
                            vehicles := vv |};
                submissions := submissions w2 |}).
  destruct (after_the_answers hv pv vv) as (Hsettled & Hlists & Hdone).
  cbv zeta in Hsettled, Hlists, Hdone.
  specialize (Hsettled w3). specialize (Hlists w3). specialize (Hdone w3).
  match goal with
  | |- context [match ?m w3 with _ => _ end] =>
      change (settled ADMIN_STATUS_ID w3 (snd (m w3))) in Hsettled;
      change (same_lists w3 (snd (m w3))) in Hlists;
      destruct (m w3) as [[[]|e] w4]; cbn [snd] in Hsettled, Hlists
  end.
  - destruct (Hdone w4 eq_refl) as (hs & ps & vs & -> & -> & -> & Hs).
    destruct Hsettled as (Q4 & F4 & S4 & _).
    exists w4, (lists_loaded hs ps vs). split; [reflexivity|].
    rewrite Q4, F4, S4. cbn [w3 page forms submissions].
    rewrite Q2, Q1, F2, F1, S2, S1.
    repeat split; [exact Hs|]. right. exists hs, ps, vs.
    split; [exact Hlists|reflexivity].
  - destruct Hsettled as (Q4 & F4 & S4 & P4).
    assert (P3 : DashboardPage.getElementById ADMIN_STATUS_ID
                   (DashboardPage.doc (page w3)) <> None)
      by (cbn [w3 page]; rewrite D2; exact P1).
    destruct (setAdminStatus_runs "Impossible de charger les référentiels."
                w4 (P4 P3)) as (w5 & -> & (Q5 & F5 & S5 & _) & _ & Hs).
    exists w5, "Impossible de charger les référentiels.".
    split; [reflexivity|]. rewrite Q5, F5, S5, Q4, F4, S4.
    cbn [w3 page forms submissions]. rewrite Q2, Q1, F2, F1, S2, S1.
    repeat split; [exact Hs|left; reflexivity].
Qed.

Lemma refreshAdminData_always_reports_witness :
  exists (w' : world) (message : string),
    refreshAdminData (RT := Reference.runtime) (BR := browser_2024)
      (page_with_forms "Foyer Durand" "7") = (Ok tt, w') /\
    DashboardPage.requests (page w') = ["/households"; "/persons"; "/vehicles"] /\
    shown_by ADMIN_STATUS_ID (page w') = Some (DashboardPage.Text message).
Proof.
  destruct (refreshAdminData_always_reports Reference.runtime browser_2024
              (page_with_forms "Foyer Durand" "7"))
    as (w' & message & Hrun & Hsent & _ & _ & Hshown & _).
  - discriminate.
  - exists w', message. split; [exact Hrun|]. split; [exact Hsent|exact Hshown].
Defined.

Example refreshAdminData_counts_the_lists :
  shown_by ADMIN_STATUS_ID
    (page (snd (refreshAdminData (RT := Reference.runtime)
                  (BR := browser_2024) (page_with_forms "Foyer Durand" "7"))))
  = Some (DashboardPage.Text "1 foyers · 2 personnes · 1 véhicules.").
Proof. vm_compute. reflexivity. Qed.

(** X18. With the form and the form status in the page, a form that
    its builder rejects is not sent: whichever of [handleFormSubmit],
    [handleUpdateFormSubmit] and [handleDeleteFormSubmit] handles it, the
    handler returns, the form status shows the message of the error, and
    nothing else has changed; no request was sent, no form reset, and no
    reload started. *)
Theorem rejected_form_is_not_sent :
  forall (RT : Runtime) (CU : CodeUnits) (BR : DashboardPage.Browser)
         (SV : Server) (how : submit)
         (formId endpoint successMessage : string) (w : world)
         (f : form_state) (e : exn),
    find_form formId (forms w) = Some f ->
    DashboardPage.getElementById FORM_STATUS_ID (DashboardPage.doc (page w))
      <> None ->
    request_built how endpoint (controls f) = Throw e ->
    handler how formId endpoint successMessage w =
    (Ok tt, with_form_status (getErrorMessage e) w).
Proof.
  intros RT CU BR SV how formId endpoint successMessage w f e Hf Hs Hb.
  rewrite (handler_runs how formId endpoint successMessage w f Hf Hs), Hb.
  reflexivity.
Qed.

Lemma rejected_form_is_not_sent_witness :
  handleFormSubmit (RT := Reference.runtime) (CU := ascii_units)
    (BR := browser_2024) (SV := forms_server)
    "household-form" "/households" (Dashboard.buildHouseholdPayload (RT := Reference.runtime))
    "Foyer créé." (page_with_forms "   " "7")
  = (Ok tt, with_form_status "Nom du foyer requis."
              (page_with_forms "   " "7")).
Proof.
  apply (rejected_form_is_not_sent Reference.runtime ascii_units browser_2024
           forms_server (Create (Dashboard.buildHouseholdPayload (RT := Reference.runtime)))
           "household-form" "/households" "Foyer créé."
           (page_with_forms "   " "7")
           {| controls := [("name", HTMLInputElement "   ")];
              initial := [("name", HTMLInputElement EmptyString)] |}
           (Error "Nom du foyer requis.")).
  - reflexivity.
  - discriminate.
  - reflexivity.
Defined.

(** X19. With the form and the form status in the page, a form that
    its builder accepts is sent once, as a [POST] to the endpoint, a [PUT]
    or a [DELETE] to the endpoint followed by the identifier.  When the
    request fails (the network, an answer that is not OK, or a body that
    cannot be parsed), the handler returns, the form status shows the
    message of the failure, the text of the answer when it has one, and
    nothing else has changed: the form keeps what was typed and no reload
    is started. *)
Theorem refused_form_is_kept :
  forall (RT : Runtime) (CU : CodeUnits) (BR : DashboardPage.Browser)
         (SV : Server) (how : submit)
         (formId endpoint successMessage : string) (w : world)
         (f : form_state) (sent : submission) (e : exn),
    find_form formId (forms w) = Some f ->
    DashboardPage.getElementById FORM_STATUS_ID (DashboardPage.doc (page w))
      <> None ->
    request_built how endpoint (controls f) = Ok sent ->
    refusal sent = Some e ->
    handler how formId endpoint successMessage w =
    (Ok tt, with_form_status (getErrorMessage e) (with_submission sent w)).
Proof.
  intros RT CU BR SV how formId endpoint successMessage w f sent e
         Hf Hs Hb Hr.
  rewrite (handler_runs how formId endpoint successMessage w f Hf Hs), Hb, Hr.
  reflexivity.
Qed.

Lemma refused_form_is_kept_witness :
  handleDeleteFormSubmit (RT := Reference.runtime) (CU := ascii_units)
    (BR := browser_2024) (SV := forms_server)
    "household-delete-form" "/households"
    (fun f => Dashboard.buildDeletePayload (RT := Reference.runtime) f
                "ID du foyer")
    "Foyer supprimé." (page_with_forms "Foyer Durand" "7")
  = (Ok tt,
     with_form_status "Foyer introuvable"
       (with_submission
          {| endpoint := "/households/7"; method := "DELETE";
             content := None |}
          (page_with_forms "Foyer Durand" "7"))).
Proof.
  apply (refused_form_is_kept Reference.runtime ascii_units browser_2024
           forms_server
           (Delete (fun f => Dashboard.buildDeletePayload (RT := Reference.runtime) f
                "ID du foyer"))
           "household-delete-form" "/households" "Foyer supprimé."
           (page_with_forms "Foyer Durand" "7")
           {| controls := [("id", HTMLInputElement "7")];
              initial := [("id", HTMLInputElement EmptyString)] |}
           {| endpoint := "/households/7"; method := "DELETE";
              content := None |}
           (Error "Foyer introuvable")).
  - reflexivity.
  - discriminate.
  - vm_compute. reflexivity.
  - reflexivity.
Defined.

(** X20. With the form and the form status in the page, when the
    builder accepts the form and the request succeeds, the handler
    returns having sent that one request with a method; the form is
    reset, every other form is as it was, and in the end, after the
    dashboard and the reference lists were reloaded, the form status
    shows the success message. *)
Theorem accepted_form_is_reset :
  forall (RT : Runtime) (CU : CodeUnits) (BR : DashboardPage.Browser)
         (SV : Server) (how : submit)
         (formId endpoint successMessage : string) (w : world)
         (f : form_state) (sent : submission),
    find_form formId (forms w) = Some f ->
    DashboardPage.getElementById FORM_STATUS_ID (DashboardPage.doc (page w))
      <> None ->
    request_built how endpoint (controls f) = Ok sent ->
    refusal sent = None ->
    exists w',
      handler how formId endpoint successMessage w = (Ok tt, w') /\
      submissions w' = (submissions w ++ [sent])%list /\
      forms w' = reset_form formId (forms w) /\
      shown_by FORM_STATUS_ID (page w') =
        Some (DashboardPage.Text successMessage).
Proof.
  intros RT CU BR SV how formId endpoint successMessage w f sent
         Hf Hs Hb Hr.
  rewrite (handler_runs how formId endpoint successMessage w f Hf Hs), Hb, Hr.
  destruct (once_sent_runs formId successMessage
              (with_submission sent (with_form_status (progress how) w)))
    as (w' & Hrun & Hforms & Hsub & Hshown).
  - apply (with_form_status_present FORM_STATUS_ID (progress how) w Hs).
  - exists w'. split; [exact Hrun|]. split; [exact Hsub|].
    split; [exact Hforms|exact Hshown].
Qed.

Lemma accepted_form_is_reset_witness :
  exists w',
    handleFormSubmit (RT := Reference.runtime) (CU := ascii_units)
      (BR := browser_2024) (SV := forms_server)
      "household-form" "/households" (Dashboard.buildHouseholdPayload (RT := Reference.runtime))
      "Foyer créé." (page_with_forms "Foyer Durand" "7") = (Ok tt, w') /\
    submissions w' =
      [{| endpoint := "/households"; method := "POST";
          content := Some ("{" ++ quoted "name" ++ ":" ++
                           quoted "Foyer Durand" ++ "}") |}] /\
    forms w' = reset_form "household-form"
                 (forms (page_with_forms "Foyer Durand" "7")) /\
    shown_by FORM_STATUS_ID (page w') = Some (DashboardPage.Text "Foyer créé.").
Proof.
  apply (accepted_form_is_reset Reference.runtime ascii_units browser_2024
           forms_server (Create (Dashboard.buildHouseholdPayload (RT := Reference.runtime)))
           "household-form" "/households" "Foyer créé."
           (page_with_forms "Foyer Durand" "7")
           {| controls := [("name", HTMLInputElement "Foyer Durand")];
              initial := [("name", HTMLInputElement EmptyString)] |}).
  - reflexivity.
  - discriminate.
  - vm_compute. reflexivity.
  - reflexivity.
Defined.

End FormsFacts.

(** ** The administration page *)

Module AdminFacts.
Import Admin.

Lemma getElementById_setContent (id id' : string) (c : content) (d : document) :
  getElementById id (setContent id' c d) =
  match getElementById id d with
  | Some c0 => Some (if String.eqb id id' then c else c0)
  | None => None
  end.
Proof.
  induction d as [|[i n] r IH]; [reflexivity|].
  cbn [setContent getElementById].
  destruct (String.eqb id' i) eqn:E'.
  - apply String.eqb_eq in E'. subst i. cbn [getElementById].
    destruct (String.eqb id id') eqn:E; [reflexivity|].
    destruct (getElementById id r); reflexivity.
  - cbn [getElementById]. destruct (String.eqb id i) eqn:E.
    + apply String.eqb_eq in E. subst i.
      rewrite String.eqb_sym, E'. reflexivity.
    + exact IH.
Qed.

Lemma same_elements_refl (w : world) : same_elements w w.
Proof. intros id H; exact H. Qed.

Lemma same_elements_trans (w1 w2 w3 : world) :
  same_elements w1 w2 -> same_elements w2 w3 -> same_elements w1 w3.
Proof. intros H1 H2 id H. apply H2, H1, H. Qed.

Lemma always_bindM (R : world -> world -> Prop) {A B : Type}
    (m : M A) (k : A -> M B) :
  (forall w1 w2 w3, R w1 w2 -> R w2 w3 -> R w1 w3) ->
  always R m -> (forall a, always R (k a)) -> always R (bindM m k).
Proof.
  intros Rt Hm Hk w. unfold bindM. specialize (Hm w).
  destruct (m w) as [[a|e] w']; cbn [snd] in *; [|exact Hm].
  apply Rt with w'; [exact Hm|apply Hk].
Qed.

Lemma bindM_returns {A B : Type} (m : M A) (k : A -> M B) (w w' : world) (b : B) :
  bindM m k w = (Ok b, w') ->
  exists a w1, m w = (Ok a, w1) /\ k a w1 = (Ok b, w').
Proof.
  unfold bindM. destruct (m w) as [[a|e] w1]; [|discriminate].
  intro H. exists a, w1. split; [reflexivity|exact H].
Qed.

Lemma lift_same {A : Type} (r : result A) : always same_elements (lift r).
Proof. intro w. apply same_elements_refl. Qed.

Lemma get_state_same : always same_elements get_state.
Proof. intro w. apply same_elements_refl. Qed.

Lemma put_state_same (s : state) : always same_elements (put_state s).
Proof. intros w id H. exact H. Qed.

Lemma renderTable_same {RT : Runtime} (id : string) (rows : list row) :
  always same_elements (renderTable id rows).
Proof.
  intros w i H. unfold renderTable, bindM, getElement.
  destruct (getElementById id (doc w)); [|exact H].
  cbn [snd doc]. rewrite getElementById_setContent.
  destruct (getElementById i (doc w)); [discriminate|congruence].
Qed.

Lemma setText_same {RT : Runtime} (id text : string) : always same_elements (setText id text).
Proof.
  intros w i H. unfold setText, bindM, getElement.
  destruct (getElementById id (doc w)); [|exact H].
  cbn [snd doc]. rewrite getElementById_setContent.
  destruct (getElementById i (doc w)); [discriminate|congruence].
Qed.

Lemma setText_runs {RT : Runtime} (id text : string) (w : world) :
  getElementById id (doc w) <> None ->
  exists w', setText id text w = (Ok tt, w') /\
             getElementById id (doc w') = Some (Text text) /\
             st w' = st w.
Proof.
  intro H. unfold setText, bindM, getElement.
  destruct (getElementById id (doc w)) as [c|] eqn:E; [|congruence].
  eexists. split; [reflexivity|]. cbn [doc st].
  rewrite getElementById_setContent, E, String.eqb_refl. split; reflexivity.
Qed.

Lemma setText_writes {RT : Runtime} (id text : string) (w w' : world) :
  setText id text w = (Ok tt, w') ->
  getElementById id (doc w') = Some (Text text).
Proof.
  unfold setText, bindM, getElement.
  destruct (getElementById id (doc w)) as [c|] eqn:E; [|discriminate].
  intro H. injection H as <-. cbn [doc].
  rewrite getElementById_setContent, E, String.eqb_refl. reflexivity.
Qed.

Ltac same_steps :=
  repeat first
    [ apply setText_same
    | apply renderTable_same
    | apply put_state_same
    | apply get_state_same
    | apply lift_same
    | apply (always_bindM same_elements); [exact same_elements_trans| |intro] ].

Lemma renderMileageEntries_same {RT : Runtime} : always same_elements renderMileageEntries.
Proof. unfold renderMileageEntries. same_steps. Qed.

Lemma renderMealEntries_same {RT : Runtime} : always same_elements renderMealEntries.
Proof. unfold renderMealEntries. same_steps. Qed.

Lemma renderOtherEntries_same {RT : Runtime} : always same_elements renderOtherEntries.
Proof. unfold renderOtherEntries. same_steps. Qed.

Lemma renderTable_replaces {RT : Runtime} (id message : string) (entries : value)
    (l : list value) (rows : list row) (w : world) :
  entries = VArr l ->
  List.length rows = List.length l ->
  all_or_nothing id message entries w
    (renderTable id (rows_or message rows) w).
Proof.
  intros He Hl. unfold all_or_nothing, renderTable, bindM, getElement.
  destruct (getElementById id (doc w)) as [c|] eqn:E; [|reflexivity].
  exists l, rows. split; [exact He|]. split; [exact Hl|]. cbn [doc st].
  rewrite getElementById_setContent, E, String.eqb_refl.
  repeat split; reflexivity.
Qed.

(** X21. Without a status line in the page, [loadPersonDetails] throws
    "Element introuvable: entry-status" before anything is requested or
    changed.  With one it never throws, whatever the server answers and
    whatever the tables are given, and the status line ends up saying
    either that the expenses were loaded or that they could not be
    loaded. *)
Theorem loadPersonDetails_always_reports :
  forall (RT : Runtime) (fetchJson : string -> result value)
         (personId year : value) (w : world),
    match getElementById ENTRY_STATUS_ID (doc w) with
    | None =>
        loadPersonDetails fetchJson personId year w =
        (Throw (Error "Element introuvable: entry-status"), w)
    | Some _ =>
        exists w',
          loadPersonDetails fetchJson personId year w = (Ok tt, w') /\
          (getElementById ENTRY_STATUS_ID (doc w') =
             Some (Text "Frais chargés.") \/
           getElementById ENTRY_STATUS_ID (doc w') =
             Some (Text "Impossible de charger les frais."))
    end.
Proof.
  intros RT fetchJson personId year w.
  destruct (getElementById ENTRY_STATUS_ID (doc w)) as [c|] eqn:E.
  2: { unfold loadPersonDetails, bindM at 1. unfold setText, bindM, getElement.
       rewrite E. reflexivity. }
  assert (Hp : getElementById ENTRY_STATUS_ID (doc w) <> None) by congruence.
  unfold loadPersonDetails. unfold bindM at 1.
  destruct (setText_runs ENTRY_STATUS_ID "Chargement des frais..." w Hp)
    as [w1 [-> [Hs1 _]]].
  assert (Hp1 : getElementById ENTRY_STATUS_ID (doc w1) <> None) by congruence.
  unfold try_catch.
  match goal with
  | |- context [match ?body w1 with _ => _ end] =>
      assert (Hsame : always same_elements body)
        by (same_steps; first [ apply renderMileageEntries_same
                              | apply renderMealEntries_same
                              | apply renderOtherEntries_same ]);
      specialize (Hsame w1);
      destruct (body w1) as [[[]|e] w2] eqn:Eb; cbn [snd] in Hsame
  end.
  - exists w2. split; [reflexivity|]. left.
    repeat match type of Eb with
           | bindM _ _ _ = (Ok _, _) =>
               let a := fresh "a" in let wi := fresh "wi" in
               let Hm := fresh "Hm" in
               apply bindM_returns in Eb; destruct Eb as [a [wi [Hm Eb]]]
           end.
    exact (setText_writes _ _ _ _ Eb).
  - destruct (setText_runs ENTRY_STATUS_ID "Impossible de charger les frais."
                w2 (Hsame _ Hp1)) as [w3 [-> [Hs3 _]]].
    exists w3. split; [reflexivity|]. right. exact Hs3.
Qed.

(** X22. Each of the three entry tables is written in one piece: when
    [renderMileageEntries], [renderMealEntries] or [renderOtherEntries]
    returns, its list was an array and the table holds one row for each
    entry (or the one row that says there is none) while the state and
    every other element are as before; when it throws, the page is
    exactly as it was, with no row of the table replaced. *)
Theorem entry_tables_all_or_nothing :
  forall (RT : Runtime) (w : world),
    all_or_nothing MILEAGE_TABLE_ID "Aucun trajet" (details_mileage (st w)) w
      (renderMileageEntries w) /\
    all_or_nothing MEAL_TABLE_ID "Aucun repas" (details_meals (st w)) w
      (renderMealEntries w) /\
    all_or_nothing OTHER_TABLE_ID "Aucun frais" (details_other (st w)) w
      (renderOtherEntries w).
Proof.
  intros RT w. split; [|split].
  - unfold renderMileageEntries. unfold bindM at 1. cbn [get_state].
    unfold bindM at 1. unfold lift at 1.
    destruct (details_mileage (st w)) as [| | | | |l|] eqn:E;
      cbn [as_array]; try reflexivity.
    unfold bindM at 1. unfold lift at 1.
    match goal with
    | |- context [mapM ?f l] => destruct (mapM f l) as [rows|e] eqn:Er
    end; [|reflexivity].
    apply (renderTable_replaces MILEAGE_TABLE_ID "Aucun trajet" (VArr l) l rows w
             eq_refl (mapM_length _ _ _ Er)).
  - unfold renderMealEntries. unfold bindM at 1. cbn [get_state].
    unfold bindM at 1. unfold lift at 1.
    destruct (details_meals (st w)) as [| | | | |l|] eqn:E;
      cbn [as_array]; try reflexivity.
    unfold bindM at 1. unfold lift at 1.
    match goal with
    | |- context [mapM ?f l] => destruct (mapM f l) as [rows|e] eqn:Er
    end; [|reflexivity].
    apply (renderTable_replaces MEAL_TABLE_ID "Aucun repas" (VArr l) l rows w
             eq_refl (mapM_length _ _ _ Er)).
  - unfold renderOtherEntries. unfold bindM at 1. cbn [get_state].
    unfold bindM at 1. unfold lift at 1.
    destruct (details_other (st w)) as [| | | | |l|] eqn:E;
      cbn [as_array]; try reflexivity.
    unfold bindM at 1. unfold lift at 1.
    match goal with
    | |- context [mapM ?f l] => destruct (mapM f l) as [rows|e] eqn:Er
    end; [|reflexivity].
    apply (renderTable_replaces OTHER_TABLE_ID "Aucun frais" (VArr l) l rows w
             eq_refl (mapM_length _ _ _ Er)).
Qed.

End AdminFacts.

(** ** Row menus *)

Module MenuFacts.

Lemma closeOpenMenu_keeps (m : AdminMarkup.menus) :
  one_menu_open m -> one_menu_open (AdminMarkup.closeOpenMenu m).
Proof.
  intros H i. pose proof (H i) as Hi0. unfold AdminMarkup.closeOpenMenu.
  destruct (AdminMarkup.openMenu m) as [o|] eqn:Eo; [|rewrite Eo; exact Hi0].
  cbn [AdminMarkup.menu_open AdminMarkup.openMenu].
  destruct (Nat.eqb i o) eqn:E.
  - split; discriminate.
  - split; [|discriminate]. intro Hi. apply H in Hi.
    rewrite Eo in Hi. injection Hi as ->. rewrite Nat.eqb_refl in E.
    discriminate.
Qed.

Lemma closeOpenMenu_closes (m : AdminMarkup.menus) :
  one_menu_open m ->
  forall i, AdminMarkup.menu_open (AdminMarkup.closeOpenMenu m) i = false.
Proof.
  intros H i. pose proof (closeOpenMenu_keeps m H i) as Hi.
  destruct (AdminMarkup.menu_open (AdminMarkup.closeOpenMenu m) i);
    [|reflexivity].
  pose proof (proj1 Hi eq_refl) as Ho. exfalso.
  unfold AdminMarkup.closeOpenMenu in Ho.
  pose proof (H i) as Hi0.
  destruct (AdminMarkup.openMenu m) as [o|] eqn:Eo; [discriminate|].
  congruence.
Qed.

(** X23. As long as [state.openMenu] is the one row menu that is open,
    it stays so through [closeOpenMenu] and [toggleMenu].  [closeOpenMenu]
    leaves every menu closed; [toggleMenu] on a trigger inside a menu
    opens that menu if it was closed, closes it if it was open, and leaves
    every other menu closed. *)
Theorem one_row_menu_open_at_most :
  forall (m : AdminMarkup.menus) (closest : option nat),
    one_menu_open m ->
    one_menu_open (AdminMarkup.closeOpenMenu m) /\
    (forall i, AdminMarkup.menu_open (AdminMarkup.closeOpenMenu m) i = false) /\
    one_menu_open (AdminMarkup.toggleMenu closest m) /\
    (forall menu, closest = Some menu ->
       AdminMarkup.menu_open (AdminMarkup.toggleMenu closest m) menu =
         negb (AdminMarkup.menu_open m menu) /\
       forall i, i <> menu ->
         AdminMarkup.menu_open (AdminMarkup.toggleMenu closest m) i = false).
Proof.
  intros m closest H.
  split; [apply closeOpenMenu_keeps; exact H|].
  split; [apply closeOpenMenu_closes; exact H|].
  destruct closest as [menu|]; [|split; [exact H|discriminate]].
  unfold AdminMarkup.toggleMenu.
  set (m1 := match AdminMarkup.openMenu m with
             | Some opened => if negb (Nat.eqb opened menu)
                              then AdminMarkup.closeOpenMenu m else m
             | None => m
             end).
  assert (H1 : one_menu_open m1 /\
               AdminMarkup.menu_open m1 menu = AdminMarkup.menu_open m menu /\
               forall i, i <> menu -> AdminMarkup.menu_open m1 i = false).
  { unfold m1. destruct (AdminMarkup.openMenu m) as [o|] eqn:Eo.
    - destruct (Nat.eqb o menu) eqn:E; cbn [negb].
      + apply Nat.eqb_eq in E. subst o. split; [exact H|].
        split; [reflexivity|]. intros i Hi.
        destruct (AdminMarkup.menu_open m i) eqn:Ei; [|reflexivity].
        apply H in Ei. congruence.
      + apply Nat.eqb_neq in E. split; [apply closeOpenMenu_keeps; exact H|].
        split.
        * rewrite (closeOpenMenu_closes m H menu).
          destruct (AdminMarkup.menu_open m menu) eqn:Em; [|reflexivity].
          apply H in Em. congruence.
        * intros i _. apply closeOpenMenu_closes. exact H.
    - split; [exact H|]. split; [reflexivity|]. intros i _.
      destruct (AdminMarkup.menu_open m i) eqn:Ei; [|reflexivity].
      apply H in Ei. congruence. }
  destruct H1 as [Hm1 [Hsame Hothers]].
  split.
  - intro i. cbn [AdminMarkup.menu_open AdminMarkup.openMenu].
    destruct (Nat.eqb i menu) eqn:E.
    + apply Nat.eqb_eq in E. subst i.
      destruct (negb (AdminMarkup.menu_open m1 menu)); split; congruence.
    + apply Nat.eqb_neq in E. rewrite (Hothers i E).
      split; [discriminate|].
      destruct (negb (AdminMarkup.menu_open m1 menu)); congruence.
  - intros menu' Hmenu. injection Hmenu as <-.
    cbn [AdminMarkup.menu_open]. rewrite Nat.eqb_refl, Hsame.
    split; [reflexivity|]. intros i Hi.
    apply Nat.eqb_neq in Hi. rewrite Hi. apply Hothers.
    apply Nat.eqb_neq. exact Hi.
Qed.

Lemma one_row_menu_open_at_most_witness :
  one_menu_open (AdminMarkup.toggleMenu (Some 2%nat) menus_closed) /\
  AdminMarkup.menu_open (AdminMarkup.toggleMenu (Some 2%nat) menus_closed)
    2%nat = true /\
  forall i, i <> 2%nat ->
    AdminMarkup.menu_open (AdminMarkup.toggleMenu (Some 2%nat) menus_closed) i
    = false.
Proof.
  destruct (one_row_menu_open_at_most menus_closed (Some 2%nat))
    as (_ & _ & Hone & Hmenu).
  - intro i. split; discriminate.
  - split; [exact Hone|]. exact (Hmenu 2%nat eq_refl).
Defined.

Import Admin.

Lemma closeAllMenus_closed (elements : list classes) (i : nat) :
  ~ open_menu_at (closeAllMenus elements) i.
Proof.
  intros [e [Hn [Hr Ho]]]. unfold closeAllMenus in Hn.
  rewrite nth_error_map in Hn.
  destruct (nth_error elements i) as [e0|]; [|discriminate].
  cbn [option_map] in Hn. injection Hn as <-.
  destruct (row_menu e0) eqn:R, (is_open e0) eqn:O; cbn in *; congruence.
Qed.

Lemma addOpen_opens (menuId : string) (elements : list classes) (i j : nat) :
  (forall k, ~ open_menu_at elements k) ->
  open_menu_at (addOpen menuId elements) i ->
  open_menu_at (addOpen menuId elements) j -> i = j.
Proof.
  revert i j. induction elements as [|e r IH]; intros i j Hc Hi Hj.
  - destruct Hi as [x [Hx _]]. destruct i; discriminate.
  - assert (Hr : forall k, ~ open_menu_at r k).
    { intros k [x [Hx Hp]]. apply (Hc (S k)). exists x. split; assumption. }
    cbn [addOpen] in *. destruct (String.eqb menuId (element_id e)).
    + destruct i as [|i], j as [|j]; try reflexivity; exfalso.
      * destruct Hj as [x [Hx Hp]]. apply (Hr j). exists x. split; assumption.
      * destruct Hi as [x [Hx Hp]]. apply (Hr i). exists x. split; assumption.
      * destruct Hi as [x [Hx Hp]]. apply (Hr i). exists x. split; assumption.
    + destruct i as [|i], j as [|j]; try reflexivity.
      * exfalso. destruct Hi as [x [Hx Hp]]. apply (Hc 0%nat). exists x.
        split; assumption.
      * exfalso. destruct Hj as [x [Hx Hp]]. apply (Hc 0%nat). exists x.
        split; assumption.
      * f_equal. apply IH; [exact Hr| |].
        -- destruct Hi as [x [Hx Hp]]. exists x. split; assumption.
        -- destruct Hj as [x [Hx Hp]]. exists x. split; assumption.
Qed.

(** X24. After [toggleMenu] on the identifier of an element of the
    page, at most one row menu is open, however many were open before. *)
Theorem toggleMenu_leaves_one_menu_open_at_most :
  forall (menuId : string) (elements : list classes) (i j : nat),
    findById menuId elements <> None ->
    open_menu_at (toggleMenu menuId elements) i ->
    open_menu_at (toggleMenu menuId elements) j ->
    i = j.
Proof.
  intros menuId elements i j Hf. unfold toggleMenu.
  destruct (findById menuId elements) as [menu|]; [|congruence].
  destruct (is_open menu); cbn [negb].
  - intros Hi _. exfalso. exact (closeAllMenus_closed elements i Hi).
  - apply addOpen_opens. apply closeAllMenus_closed.
Qed.

Lemma toggleMenu_leaves_one_menu_open_at_most_witness :
  open_menu_at (toggleMenu "menu-2" two_row_menus) 2%nat /\
  forall j, open_menu_at (toggleMenu "menu-2" two_row_menus) j -> 2%nat = j.
Proof.
  assert (H : open_menu_at (toggleMenu "menu-2" two_row_menus) 2%nat).
  { eexists. split; [reflexivity|]. split; reflexivity. }
  split; [exact H|]. intros j Hj.
  apply (toggleMenu_leaves_one_menu_open_at_most "menu-2" two_row_menus
           2%nat j); [discriminate|exact H|exact Hj].
Defined.

End MenuFacts.

(** ** The mileage scale as markup *)

Section ScaleMarkup.
Context {RT : Runtime} {CU : CodeUnits}.

Lemma scaleRow_throws (entry : value) (e : exn) :
  AdminMarkup.scaleRow entry = Throw e -> e = TypeError.
Proof.
  unfold AdminMarkup.scaleRow.
  repeat match goal with
         | |- context [bind ?m _] =>
             lazymatch m with
             | bind _ _ => fail
             | Ok _ => fail
             | Throw _ => fail
             | get_prop ?v ?k =>
                 let E := fresh "E" in
                 destruct m as [?x|?e'] eqn:E;
                 [|apply get_prop_throws in E; subst]
             | get_index ?v ?k =>
                 let E := fresh "E" in
                 destruct m as [?x|?e'] eqn:E;
                 [|apply get_index_throws in E; subst]
             end; cbn [bind]
         end;
    congruence.
Qed.

Lemma scaleRow_short (o : object) (bs : list value) :
  get o "brackets" = VArr bs ->
  (List.length bs < 3)%nat ->
  AdminMarkup.scaleRow (VObj o) = Throw TypeError.
Proof.
  intros Hb Hl. unfold AdminMarkup.scaleRow. cbn [get_prop bind].
  rewrite Hb. cbn [get_index bind].
  destruct bs as [|a [|b [|c r]]]; cbn [List.length] in Hl; try lia;
    cbn [nth].
  - reflexivity.
  - destruct a; reflexivity.
  - destruct a, b; reflexivity.
Qed.

Lemma scaleRow_first_three (o : object) (bs : list value) :
  get o "brackets" = VArr bs ->
  AdminMarkup.scaleRow (VObj o) =
  AdminMarkup.scaleRow (VObj (set "brackets" (VArr (firstn 3 bs)) o)).
Proof.
  intro Hb. unfold AdminMarkup.scaleRow. cbn [get_prop bind].
  rewrite !get_set. cbn [String.eqb Ascii.eqb Bool.eqb andb].
  rewrite Hb. cbn [get_index bind].
  destruct bs as [|a [|b [|c r]]]; reflexivity.
Qed.

End ScaleMarkup.

(** X25. A scale entry with fewer than three brackets cannot be shown:
    as soon as the scale holds one, [renderMileageScale] throws a
    [TypeError] and leaves the table as it was, the rows of the other
    entries included. *)
Theorem renderMileageScale_needs_three_brackets :
  forall (RT : Runtime) (CU : CodeUnits) (entries : list value)
         (d : AdminMarkup.document),
    AdminMarkup.getElementById AdminMarkup.MILEAGE_SCALE_TABLE_ID d <> None ->
    Exists (fun entry =>
              exists o bs, entry = VObj o /\ get o "brackets" = VArr bs /\
                           (List.length bs < 3)%nat) entries ->
    AdminMarkup.renderMileageScale (VArr entries) d = (Throw TypeError, d).
Proof.
  intros RT CU entries d Hp Hex. unfold AdminMarkup.renderMileageScale.
  destruct (AdminMarkup.getElementById AdminMarkup.MILEAGE_SCALE_TABLE_ID d);
    [|congruence].
  cbn [as_array bind]. rewrite mapM_throws; [reflexivity| |].
  - intros x e. apply scaleRow_throws.
  - apply Exists_exists. apply Exists_exists in Hex.
    destruct Hex as [entry [Hin [o [bs [-> [Hb Hl]]]]]].
    exists (VObj o). split; [exact Hin|].
    apply (scaleRow_short o bs Hb Hl).
Qed.

Lemma renderMileageScale_needs_three_brackets_witness :
  AdminMarkup.renderMileageScale (RT := Reference.runtime) (CU := ascii_units)
    (VArr [VObj (scale_entry [bracket 0.529 0; bracket 0.316 1065;
                              bracket 0.37 0]);
           VObj (scale_entry [bracket 0.529 0; bracket 0.316 1065])])
    [(AdminMarkup.MILEAGE_SCALE_TABLE_ID, "<tr></tr>")]
  = (Throw TypeError, [(AdminMarkup.MILEAGE_SCALE_TABLE_ID, "<tr></tr>")]).
Proof.
  apply renderMileageScale_needs_three_brackets.
  - discriminate.
  - apply Exists_cons_tl, Exists_cons_hd.
    exists (scale_entry [bracket 0.529 0; bracket 0.316 1065]),
           [bracket 0.529 0; bracket 0.316 1065].
    split; [reflexivity|]. split; [reflexivity|]. cbn. lia.
Defined.

(** X26. The row of a scale entry shows its first three brackets only:
    an entry with more brackets gives the row of the entry cut after the
    third, so that a fourth bracket never reaches the page. *)
Theorem scaleRow_shows_three_brackets :
  forall (RT : Runtime) (CU : CodeUnits) (o : object) (bs : list value),
    get o "brackets" = VArr bs ->
    AdminMarkup.scaleRow (VObj o) =
    AdminMarkup.scaleRow (VObj (set "brackets" (VArr (firstn 3 bs)) o)).
Proof.
  intros RT CU o bs. apply scaleRow_first_three.
Qed.

Lemma scaleRow_shows_three_brackets_witness :
  AdminMarkup.scaleRow (RT := Reference.runtime) (CU := ascii_units)
    (VObj (scale_entry [bracket 0.529 0; bracket 0.316 1065;
                        bracket 0.37 0; bracket 0.4 0])) =
  AdminMarkup.scaleRow (RT := Reference.runtime) (CU := ascii_units)
    (VObj (set "brackets"
             (VArr [bracket 0.529 0; bracket 0.316 1065; bracket 0.37 0])
             (scale_entry [bracket 0.529 0; bracket 0.316 1065;
                           bracket 0.37 0; bracket 0.4 0]))).
Proof.
  apply (scaleRow_shows_three_brackets Reference.runtime ascii_units
           (scale_entry [bracket 0.529 0; bracket 0.316 1065;
                         bracket 0.37 0; bracket 0.4 0])
           [bracket 0.529 0; bracket 0.316 1065; bracket 0.37 0;
            bracket 0.4 0]).
  reflexivity.
Defined.

Example scaleRow_of_three_brackets :
  AdminMarkup.scaleRow (RT := Reference.runtime) (CU := ascii_units)
    (VObj (scale_entry [bracket 0.529 0; bracket 0.316 1065;
                        bracket 0.37 0; bracket 0.4 0]))
  = Ok ("<tr><td>5</td><td>0,529 €/km</td><td>0,316 €/km + 1" ++
        Reference.NNBSP ++ "065,00" ++ Reference.NBSP ++
        "€</td><td>0,37 €/km</td></tr>").
Proof. vm_compute. reflexivity. Qed.

